(** * torchdistill.models.special: registry, windowed attention and wrappers

    A shallow embedding of [src/torchdistill/models/special.py].  Python
    dictionaries that are iterated keep their insertion order and are
    association lists; the process-wide [SPECIAL_CLASS_DICT] is only ever
    looked up by key and is a [gmap]. Exceptions are values of [exn] carried
    by [result]. Floating-point numbers are IEEE 754 values ([spec_float])
    with correctly rounded operations. *)

From Stdlib Require Import ZArith QArith Qabs Reals Lra Lia List String.
From Stdlib Require Import Floats.SpecFloat.
From stdpp Require Import gmap strings list.
Import ListNotations.
Local Open Scope string_scope.
Local Open Scope list_scope.
Set Warnings "-register-all".

(** ** Python values, exceptions and calls *)
Module Py.

Inductive exn : Type :=
| TypeError (msg : string)
| ValueError (msg : string)
| AttributeError (msg : string)
| KeyError (key : string)
| UnboundLocalError (var : string)
| ZeroDivisionError
| RuntimeError (msg : string)
| EinopsError (msg : string)
| OverflowError (msg : string).

Inductive result (A : Type) : Type :=
| Ok (a : A)
| Raise (e : exn).
Arguments Ok {A} a.
Arguments Raise {A} e.

#[global] Instance result_ret : MRet result := fun A a => Ok a.

#[global] Instance result_bind : MBind result := fun A B k r =>
  match r with
  | Ok a => k a
  | Raise e => Raise e
  end.

#[global] Instance result_fmap : FMap result := fun A B f r =>
  match r with
  | Ok a => Ok (f a)
  | Raise e => Raise e
  end.

Definition is_Ok {A} (r : result A) : bool :=
  match r with Ok _ => true | Raise _ => false end.

(** Configuration values as they come out of the YAML loader, plus opaque
    references to live objects (models, devices). *)
Inductive pyval : Type :=
| VNone
| VBool (b : bool)
| VInt (n : Z)
| VStr (s : string)
| VList (l : list pyval)
| VDict (d : list (string * pyval))
| VObj (id : nat).

(** A [dict] with string keys, in insertion order. *)
Definition dict : Type := list (string * pyval).

Fixpoint dict_lookup (k : string) (d : dict) : option pyval :=
  match d with
  | [] => None
  | (k', v) :: d' => if String.eqb k k' then Some v else dict_lookup k d'
  end.

Definition keys (d : dict) : list string := map fst d.

Definition has_key (k : string) (d : dict) : bool :=
  existsb (String.eqb k) (keys d).

(** [obj.get(k, default)]: only a mapping has the method. *)
Definition py_get (obj : pyval) (k : string) (default : pyval) : result pyval :=
  match obj with
  | VDict d => Ok (match dict_lookup k d with Some v => v | None => default end)
  | _ => Raise (AttributeError "get")
  end.

Definition is_None (v : pyval) : bool :=
  match v with VNone => true | _ => false end.

(** Keyword part of a call [f(..., **kw, **star)]: [star] has to be a
    mapping, and a keyword given twice is a [TypeError]. *)
Definition first_collision (kw star : dict) : option string :=
  find (fun k => has_key k kw) (keys star).

Definition merge_kwargs (kw : dict) (star : pyval) : result dict :=
  match star with
  | VDict p =>
      match first_collision kw p with
      | Some k => Raise (TypeError (String.append "got multiple values for keyword argument " k))
      | None => Ok (kw ++ p)%list
      end
  | _ => Raise (TypeError "argument after ** must be a mapping")
  end.

End Py.

(** ** Floating-point numbers

    A [float] of Python is a binary64 value and an entry of a default
    tensor a binary32 value. Products, sums, quotients and square roots are
    rounded to nearest, ties to even. *)
Module Float.
Import Py.
Local Open Scope Z_scope.

Section Format.
Variable prec emax : Z.

(** The float nearest to an integer; infinite beyond the range. *)
Definition of_Z (n : Z) : spec_float := binary_normalize prec emax n 0 false.

Definition add : spec_float -> spec_float -> spec_float := SFadd prec emax.
Definition mul : spec_float -> spec_float -> spec_float := SFmul prec emax.
Definition div : spec_float -> spec_float -> spec_float := SFdiv prec emax.
Definition sqrt : spec_float -> spec_float := SFsqrt prec emax.

End Format.


Module F32.
Definition of_Z := of_Z 24 128.
Definition add := add 24 128.
Definition mul := mul 24 128.
Definition div := div 24 128.
Definition sqrt := sqrt 24 128.
End F32.

Module F64.
Definition of_Z := of_Z 53 1024.
Definition mul := mul 53 1024.
Definition div := div 53 1024.
End F64.

(** A number of Python: an [int] or a [float]. *)
Inductive number : Type :=
| NInt (n : Z)
| NFloat (x : spec_float).

(** An [int] operand of mixed arithmetic becomes the nearest [float]; one
    beyond the range raises. *)
Definition float_of_int (n : Z) : result spec_float :=
  match F64.of_Z n with
  | S754_infinity _ => Raise (OverflowError "int too large to convert to float")
  | x => Ok x
  end.

(** [int(x)] truncates toward zero. *)
Definition int_of_float (x : spec_float) : result Z :=
  match x with
  | S754_zero _ => Ok 0
  | S754_finite s m e => Ok (cond_Zopp s (Z.shiftl (Z.pos m) e))
  | S754_infinity _ => Raise (OverflowError "cannot convert float infinity to integer")
  | S754_nan => Raise (ValueError "cannot convert float NaN to integer")
  end.

(** [n * k] for an [int] [n] *)
Definition int_times (n : Z) (k : number) : result number :=
  match k with
  | NInt m => Ok (NInt (n * m))
  | NFloat y => x ← float_of_int n; Ok (NFloat (F64.mul x y))
  end.

(** [int(v)] *)
Definition int (v : number) : result Z :=
  match v with
  | NInt n => Ok n
  | NFloat x => int_of_float x
  end.

(** The float written [a / b] in decimal notation, for examples: the
    quotient of two exact floats is rounded once, like the literal. *)
Definition ratio (a b : Z) : number := NFloat (F64.div (F64.of_Z a) (F64.of_Z b)).

End Float.

(** ** The special-module registry *)
Module Registry.
Import Py.

Section WithInstances.

(** What a registered class builds; the wrappers themselves are modelled
    further down. *)
Context {Instance : Type}.

(** A class object: its [__name__], and its constructor applied to the
    positional and keyword arguments of a call. *)
Record class : Type := {
  cls_name : string;
  cls_init : list pyval -> dict -> result Instance
}.

(** Module state: the registry, what went to [logger.info] (template and
    format argument) and the constructor calls made so far. *)
Record world : Type := {
  SPECIAL_CLASS_DICT : gmap string class;
  logged : list (string * pyval);
  built : list (string * list pyval * dict)
}.

Definition initial_world : world :=
  {| SPECIAL_CLASS_DICT := ∅; logged := []; built := [] |}.

Definition register_special_module (cls : class) (w : world) : class * world :=
  (cls, {| SPECIAL_CLASS_DICT := <[cls_name cls := cls]> (SPECIAL_CLASS_DICT w);
           logged := logged w;
           built := built w |}).

(** [class_name in SPECIAL_CLASS_DICT]: hashing a list or a dict raises,
    and every key of the registry is a string. *)
Definition registry_find (class_name : pyval) (w : world) : result (option class) :=
  match class_name with
  | VStr s => Ok (SPECIAL_CLASS_DICT w !! s)
  | VList _ | VDict _ => Raise (TypeError "unhashable type")
  | _ => Ok None
  end.

(** The world after a lookup that found nothing, and after a constructor
    call. *)
Definition with_log (class_name : pyval) (w : world) : world :=
  {| SPECIAL_CLASS_DICT := SPECIAL_CLASS_DICT w;
     logged := logged w ++ [("No special module called `{}` is registered.", class_name)];
     built := built w |}.

Definition with_call (cls : class) (args : list pyval) (kwargs : dict) (w : world) : world :=
  {| SPECIAL_CLASS_DICT := SPECIAL_CLASS_DICT w;
     logged := logged w;
     built := built w ++ [(cls_name cls, args, kwargs)] |}.

Definition get_special_module (class_name : pyval) (args : list pyval) (kwargs : dict)
    (w : world) : result (option Instance) * world :=
  match registry_find class_name w with
  | Raise e => (Raise e, w)
  | Ok None => (Ok None, with_log class_name w)
  | Ok (Some cls) => (Some <$> cls_init cls args kwargs, with_call cls args kwargs w)
  end.

(** The keyword arguments of the call at the end of
    [build_special_module]: both [**] parts merged, and none of them may
    name the positional parameter [class_name] again. *)
Definition special_call_kwargs (kwargs : dict) (params : pyval) : result dict :=
  merged ← merge_kwargs kwargs params;
  if has_key "class_name" merged
  then Raise (TypeError "got multiple values for argument class_name")
  else Ok merged.

(** Lines 737-739: [special.params], an absent or [None] entry being the
    empty mapping. *)
Definition special_params (special_model_config : pyval) : result pyval :=
  special_model_params_config ← py_get special_model_config "params" VNone;
  if is_None special_model_params_config then Ok (VDict [])
  else Ok special_model_params_config.

Definition build_special_module (model_config : pyval) (kwargs : dict)
    (w : world) : result (option Instance) * world :=
  match
    special_model_config ← py_get model_config "special" (VDict []);
    special_model_type ← py_get special_model_config "type" VNone;
    if negb (is_None special_model_type) then
      special_model_params_config ← special_params special_model_config;
      merged ← special_call_kwargs kwargs special_model_params_config;
      Ok (Some (special_model_type, merged))
    else Ok None
  with
  | Raise e => (Raise e, w)
  | Ok None => (Ok None, w)
  | Ok (Some (special_model_type, merged)) =>
      get_special_module special_model_type [] merged w
  end.

(** A configuration asks for the special module [ty] when [special.type]
    is [ty]; [merged] are then the keyword arguments of the constructor
    call, provided the caller's and the configured ones can be merged. *)
Definition requests (model_config : pyval) (ty : pyval) (kwargs merged : dict) : Prop :=
  ∃ special_model_config,
    py_get model_config "special" (VDict []) = Ok special_model_config ∧
    py_get special_model_config "type" VNone = Ok ty ∧
    is_None ty = false ∧
    (params ← special_params special_model_config; special_call_kwargs kwargs params)
      = Ok merged.

End WithInstances.
Arguments class : clear implicits.
Arguments world : clear implicits.

(** [EmptyModule], the first registered class: its constructor takes
    keyword arguments only and ignores them. An instance is represented by
    the name of its class. *)
Definition EmptyModule : class string :=
  {| cls_name := "EmptyModule";
     cls_init := fun args kwargs =>
       match args with
       | [] => Ok "EmptyModule"
       | _ => Raise (TypeError "__init__() takes 1 positional argument")
       end |}.

End Registry.

(** ** Tensors of rank four as nested lists, and [torch.roll] *)
Module Shift.

(** [torch.roll] along one axis: the element at index [i] moves to index
    [(i + shift) mod n], wrapping around. *)
Definition roll {A} (shift : Z) (l : list A) : list A :=
  let n := Z.of_nat (length l) in
  if (n =? 0)%Z then l
  else let k := Z.to_nat ((- shift) mod n) in drop k l ++ take k l.

(** A tensor of shape (batch, height, width, channels). *)
Definition tensor4 (A : Type) : Type := list (list (list (list A))).

(** [torch.roll(x, shifts=(s1, s2), dims=(1, 2))]: first the height axis,
    then the width axis, of every batch entry. *)
Definition roll_dims12 {A} (s1 s2 : Z) (x : tensor4 A) : tensor4 A :=
  map (fun img => map (roll s2) (roll s1 img)) x.

Record CyclicShift : Type := { displacement : Z }.

Definition CyclicShift_forward {A} (self : CyclicShift) (x : tensor4 A) : tensor4 A :=
  roll_dims12 (displacement self) (displacement self) x.

End Shift.

(** ** Relative position indices *)
Module RelPos.

(** [range(n)] *)
Definition range (n : Z) : list Z := seqZ 0 n.

(** [[x, y] for x in range(window_size) for y in range(window_size)] *)
Definition indices (window_size : Z) : list (Z * Z) :=
  flat_map (fun x => map (fun y => (x, y)) (range window_size)) (range window_size).

(** [indices[None, :, :] - indices[:, None, :]]: entry [i][j] is
    [indices[j] - indices[i]], componentwise. *)
Definition get_relative_distances (window_size : Z) : list (list (Z * Z)) :=
  map (fun a => map (fun b => (b.1 - a.1, b.2 - a.2)%Z) (indices window_size))
      (indices window_size).

(** [get_relative_distances(window_size) + window_size - 1] *)
Definition relative_indices (window_size : Z) : list (list (Z * Z)) :=
  map (map (fun p => (p.1 + window_size - 1, p.2 + window_size - 1)%Z))
      (get_relative_distances window_size).

(** The entries are stored as 64-bit integers ([.long()]). *)
Definition fits_int64 (z : Z) : Prop := (- 2 ^ 63 <= z < 2 ^ 63)%Z.

End RelPos.

(** ** Windowed attention: masks, construction and the shape of [forward] *)
Module WinAttn.
Import Py.
Local Open Scope Z_scope.

(** *** Slices *)

(** A slice bound, clamped the way Python clamps it for a sequence of
    length [n]. *)
Definition norm_index (n x : Z) : Z :=
  if x <? 0 then Z.max (x + n) 0 else Z.min x n.

(** Membership of index [i] in [start:stop] (step one); [None] is an
    omitted bound. *)
Definition in_slice (n : Z) (start stop : option Z) (i : Z) : bool :=
  let lo := match start with Some s => norm_index n s | None => 0 end in
  let hi := match stop with Some s => norm_index n s | None => n end in
  (lo <=? i) && (i <? hi).

(** Membership of index [i] in [start::step], for a positive step. *)
Definition in_strided_slice (n start step i : Z) : bool :=
  let lo := norm_index n start in
  (lo <=? i) && (i <? n) && ((i - lo) mod step =? 0).

(** *** [create_mask] *)

Inductive mval : Type := Zero | NegInf.

#[global] Instance mval_eq_dec : EqDecision mval.
Proof. solve_decision. Defined.

Abbreviation mask := (list (list mval)).

Definition zeros (rows cols : Z) : mask :=
  replicate (Z.to_nat rows) (replicate (Z.to_nat cols) Zero).

(** [mask[rows, cols] = float('-inf')] for the index sets [rows], [cols]. *)
Definition fill_neg_inf (rows cols : Z -> bool) (m : mask) : mask :=
  imap (fun i row =>
          imap (fun j x => if rows (Z.of_nat i) && cols (Z.of_nat j) then NegInf else x) row) m.

(** [mask[i, j]] *)
Definition mask_entry (m : mask) (i j : nat) : option mval :=
  row ← m !! i; row !! j.

(** In the view [(h1 w1) (h2 w2) -> h1 w1 h2 w2] with [h1 = h2 = window_size]
    a flat index [i] has [w1 = i mod window_size], and the two assignments of
    the [left_right] branch select on [w1] and [w2] only. *)
Definition create_mask (window_size displacement : Z) (upper_lower left_right : bool) : mask :=
  let n := window_size ^ 2 in
  let mask := zeros n n in
  let mask :=
    if upper_lower then
      let mask := fill_neg_inf (in_slice n (Some (- displacement * window_size)) None)
                               (in_slice n None (Some (- displacement * window_size))) mask in
      fill_neg_inf (in_slice n None (Some (- displacement * window_size)))
                   (in_slice n (Some (- displacement * window_size)) None) mask
    else mask in
  if left_right then
    let w1 (sl : Z -> bool) (i : Z) := sl (i mod window_size) in
    let mask := fill_neg_inf (w1 (in_slice window_size (Some (- displacement)) None))
                             (w1 (in_slice window_size None (Some (- displacement)))) mask in
    fill_neg_inf (w1 (in_slice window_size None (Some (- displacement))))
                 (w1 (in_slice window_size (Some (- displacement)) None)) mask
  else mask.

(** *** [WindowAttention.__init__] *)

(** Parameters are kept by their shapes; their random initial values play
    no part below. *)
Definition shape : Type := list Z.

Record Linear : Type := { in_features : Z; out_features : Z; bias : bool }.

Definition new_tensor (sh : shape) : result shape :=
  if forallb (fun d => 0 <=? d) sh then Ok sh
  else Raise (RuntimeError "negative dimension").

(** [nn.Linear(in_features, out_features, bias)] allocates its weight. *)
Definition nn_Linear (i o : Z) (b : bool) : result Linear :=
  _ ← new_tensor [o; i];
  Ok {| in_features := i; out_features := o; bias := b |}.

Record WindowAttention : Type := {
  heads : Z;
  scale_head_dim : Z;
  window_size : Z;
  relative_pos_embedding : bool;
  shifted : bool;
  cyclic_shift : option Shift.CyclicShift;
  cyclic_back_shift : option Shift.CyclicShift;
  upper_lower_mask : option mask;
  left_right_mask : option mask;
  to_qkv : Linear;
  relative_indices : option (list (list (Z * Z)));
  pos_embedding : shape;
  to_out : Linear
}.

(** [scale] is [head_dim ** -0.5]; only its base is kept. With the integer
    base zero the power raises. *)
Definition WindowAttention_init (dim heads head_dim : Z) (shifted : bool) (window_size : Z)
    (relative_pos_embedding : bool) : result WindowAttention :=
  let inner_dim := head_dim * heads in
  _ ← (if head_dim =? 0 then Raise ZeroDivisionError else Ok tt);
  let displacement := window_size `div` 2 in
  to_qkv ← nn_Linear dim (inner_dim * 3) false;
  pos_embedding ←
    (if relative_pos_embedding
     then new_tensor [2 * window_size - 1; 2 * window_size - 1]
     else new_tensor [window_size ^ 2; window_size ^ 2]);
  to_out ← nn_Linear inner_dim dim true;
  Ok {| heads := heads;
        scale_head_dim := head_dim;
        window_size := window_size;
        relative_pos_embedding := relative_pos_embedding;
        shifted := shifted;
        cyclic_shift :=
          if shifted then Some {| Shift.displacement := - displacement |} else None;
        cyclic_back_shift :=
          if shifted then Some {| Shift.displacement := displacement |} else None;
        upper_lower_mask :=
          if shifted then Some (create_mask window_size displacement true false) else None;
        left_right_mask :=
          if shifted then Some (create_mask window_size displacement false true) else None;
        to_qkv := to_qkv;
        relative_indices :=
          if relative_pos_embedding then Some (RelPos.relative_indices window_size) else None;
        pos_embedding := pos_embedding;
        to_out := to_out |}.

(** *** Shape of each tensor operation of [forward] *)

(** [torch.roll(x, shifts, dims=(1, 2))] keeps the shape and needs both
    axes. *)
Definition roll_shape (x : shape) : result shape :=
  match x with
  | _ :: _ :: _ :: _ => Ok x
  | _ => Raise (RuntimeError "dimension out of range")
  end.

(** [b, n_h, n_w, _ = x.shape] *)
Definition unpack4 (x : shape) : result (Z * Z * Z * Z) :=
  match x with
  | [b; n_h; n_w; c] => Ok (b, n_h, n_w, c)
  | _ => Raise (ValueError "unpack")
  end.

(** Applying an [nn.Linear] maps the last axis. *)
Definition Linear_forward (l : Linear) (x : shape) : result shape :=
  match reverse x with
  | c :: rest =>
      if c =? in_features l then Ok (reverse (out_features l :: rest))
      else Raise (RuntimeError "shapes cannot be multiplied")
  | [] => Raise (RuntimeError "shapes cannot be multiplied")
  end.

(** Sizes of the pieces of [t.chunk(chunks)] along an axis of length [n]:
    pieces of [ceil(n / chunks)] and a shorter last one, or [chunks] empty
    pieces of an empty axis. *)
Definition chunk_sizes (n chunks : Z) : list Z :=
  let split_size := (n + chunks - 1) `div` chunks in
  if split_size =? 0 then replicate (Z.to_nat chunks) 0
  else replicate (Z.to_nat (n `div` split_size)) split_size
       ++ (if n `mod` split_size =? 0 then [] else [n `mod` split_size]).

(** [x.chunk(chunks, dim=-1)] *)
Definition chunk_last (chunks : Z) (x : shape) : result (list shape) :=
  match reverse x with
  | c :: rest => Ok (map (fun k => reverse (k :: rest)) (chunk_sizes c chunks))
  | [] => Raise (RuntimeError "dimension out of range")
  end.

(** Length of the free part of a composite axis [(free known)]. *)
Definition split_axis (len known : Z) : result Z :=
  if (known =? 0) || negb (len `mod` known =? 0)
  then Raise (EinopsError "shape mismatch")
  else Ok (len `div` known).

(** [rearrange(t, 'b (nw_h w_h) (nw_w w_w) (h d) -> b h (nw_h nw_w) (w_h w_w) d',
    h, w_h, w_w)] *)
Definition rearrange_windows (h w_h w_w : Z) (t : shape) : result shape :=
  match t with
  | [b; a1; a2; a3] =>
      nw_h ← split_axis a1 w_h;
      nw_w ← split_axis a2 w_w;
      d ← split_axis a3 h;
      Ok [b; h; nw_h * nw_w; w_h * w_w; d]
  | _ => Raise (EinopsError "wrong number of dimensions")
  end.

(** [einsum('b h w i d, b h w j d -> b h w i j', q, k)] *)
Definition einsum_qk (q k : shape) : result shape :=
  match q, k with
  | [b; h; w; i; d], [b'; h'; w'; j; d'] =>
      if (b =? b') && (h =? h') && (w =? w') && (d =? d') then Ok [b; h; w; i; j]
      else Raise (RuntimeError "einsum operands do not match")
  | _, _ => Raise (RuntimeError "einsum subscripts do not match operands")
  end.

(** In-place [t += m] for a matrix [m] of shape [r, c]: [m] is broadcast
    over the leading axes of [t]. *)
Definition iadd_matrix (t : shape) (r c : Z) : result shape :=
  match reverse t with
  | j :: i :: _ =>
      if ((r =? i) || (r =? 1)) && ((c =? j) || (c =? 1)) then Ok t
      else Raise (RuntimeError "shapes are not broadcastable")
  | _ => Raise (RuntimeError "shapes are not broadcastable")
  end.

Definition mask_shape (m : mask) : Z * Z :=
  (Z.of_nat (length m), match m with row :: _ => Z.of_nat (length row) | [] => 0 end).

(** [einsum('b h w i j, b h w j d -> b h w i d', attn, v)] *)
Definition einsum_av (attn v : shape) : result shape :=
  match attn, v with
  | [b; h; w; i; j], [b'; h'; w'; j'; d] =>
      if (b =? b') && (h =? h') && (w =? w') && (j =? j') then Ok [b; h; w; i; d]
      else Raise (RuntimeError "einsum operands do not match")
  | _, _ => Raise (RuntimeError "einsum subscripts do not match operands")
  end.

(** [rearrange(out, 'b h (nw_h nw_w) (w_h w_w) d -> b (nw_h w_h) (nw_w w_w) (h d)',
    h, w_h, w_w, nw_h, nw_w)] *)
Definition rearrange_merge (h w_h w_w nw_h nw_w : Z) (t : shape) : result shape :=
  match t with
  | [b; a1; a2; a3; d] =>
      if (a1 =? h) && (a2 =? nw_h * nw_w) && (a3 =? w_h * w_w)
      then Ok [b; nw_h * w_h; nw_w * w_w; h * d]
      else Raise (EinopsError "shape mismatch")
  | _ => Raise (EinopsError "wrong number of dimensions")
  end.

(** [n // m] *)
Definition floordiv (n m : Z) : result Z :=
  if m =? 0 then Raise ZeroDivisionError else Ok (n `div` m).

(** The position bias added to [dots]: the table gathered at
    [relative_indices] has the shape of the index arrays. *)
Definition pos_bias_shape (self : WindowAttention) : Z * Z :=
  match relative_indices self with
  | Some idx =>
      (Z.of_nat (length idx), match idx with row :: _ => Z.of_nat (length row) | [] => 0 end)
  | None =>
      match pos_embedding self with
      | [r; c] => (r, c)
      | _ => (0, 0)
      end
  end.

(** *** [WindowAttention.forward], on shapes *)
Definition forward_shape (self : WindowAttention) (x : shape) : result shape :=
  x ← (if shifted self then roll_shape x else Ok x);
  '(b, n_h, n_w, _) ← unpack4 x;
  let h := heads self in
  qkv_all ← Linear_forward (to_qkv self) x;
  qkv ← chunk_last 3 qkv_all;
  nw_h ← floordiv n_h (window_size self);
  nw_w ← floordiv n_w (window_size self);
  qkv ← mapM (rearrange_windows h (window_size self) (window_size self)) qkv;
  match qkv with
  | [q; k; v] =>
      dots ← einsum_qk q k;
      dots ← (let '(r, c) := pos_bias_shape self in iadd_matrix dots r c);
      dots ←
        (match shifted self, upper_lower_mask self, left_right_mask self with
         | true, Some ul, Some lr =>
             dots ← (let '(r, c) := mask_shape ul in iadd_matrix dots r c);
             if nw_w <=? 0 then Raise (ValueError "slice step has to be positive")
             else let '(r, c) := mask_shape lr in iadd_matrix dots r c
         | _, _, _ => Ok dots
         end);
      let attn := dots in
      out ← einsum_av attn v;
      out ← rearrange_merge h (window_size self) (window_size self) nw_h nw_w out;
      out ← Linear_forward (to_out self) out;
      if shifted self then roll_shape out else Ok out
  | _ => Raise (ValueError "unpack")
  end.

(** *** The masking step of [forward], on the window axis

    [dots] has axes (batch, head, window, i, j); an entry of the window axis
    is a score matrix of some type [X], and [add_mask] adds a mask to it. *)
Section MaskStep.
Context {X : Type} (add_mask : X -> mask -> X).

(** [dots[:, :, sel] += m], where [sel] may look at the length of the
    window axis. *)
Definition iadd_windows (sel : Z -> Z -> bool) (m : mask)
    (dots : list (list (list X))) : list (list (list X)) :=
  map (map (fun windows =>
              imap (fun w x => if sel (Z.of_nat (length windows)) (Z.of_nat w)
                               then add_mask x m else x) windows)) dots.

(** Lines 323-325:
    [dots[:, :, -nw_w:] += self.upper_lower_mask] and
    [dots[:, :, nw_w - 1::nw_w] += self.left_right_mask]. *)
Definition add_shift_masks (self : WindowAttention) (nw_w : Z)
    (dots : list (list (list X))) : result (list (list (list X))) :=
  match shifted self, upper_lower_mask self, left_right_mask self with
  | true, Some ul, Some lr =>
      let dots := iadd_windows (fun n => in_slice n (Some (- nw_w)) None) ul dots in
      if nw_w <=? 0 then Raise (ValueError "slice step has to be positive")
      else Ok (iadd_windows (fun n => in_strided_slice n (nw_w - 1) nw_w) lr dots)
  | _, _, _ => Ok dots
  end.

(** What the two masked assignments do to window [w] of a grid with
    [nw_h] rows of [nw_w] windows. *)
Definition mask_window (self : WindowAttention) (nw_h nw_w : Z) (w : nat) (x : X) : X :=
  let x :=
    match upper_lower_mask self with
    | Some ul => if Z.of_nat w `div` nw_w =? nw_h - 1 then add_mask x ul else x
    | None => x
    end in
  match left_right_mask self with
  | Some lr => if Z.of_nat w `mod` nw_w =? nw_w - 1 then add_mask x lr else x
  | None => x
  end.

End MaskStep.

(** The windows, by index, whose record of added masks has [m]. *)
Definition windows_given (m : mask) (windows : list (list mask)) : list Z :=
  omap (λ wx, if bool_decide (m ∈ wx.2) then Some (Z.of_nat wx.1) else None)
       (imap (λ w x, (w, x)) windows).

(** Where the specification's wording puts the two masks on a window axis
    of length [n]: the last [window_size] windows, and every
    [window_size]-th window from offset [window_size - 1]. *)
Definition claimed_upper_lower_windows (n window_size : Z) : list Z :=
  filter (fun w => in_slice n (Some (- window_size)) None w = true) (seqZ 0 n).

Definition claimed_left_right_windows (n window_size : Z) : list Z :=
  filter (fun w => in_strided_slice n (window_size - 1) window_size w = true) (seqZ 0 n).

End WinAttn.

(** ** The paraphraser of factor transfer *)
Module Paraphraser.
Import Py.
Local Open Scope Z_scope.

Inductive layer_kind : Type :=
| Conv2d (in_channels out_channels kernel_size stride padding : Z)
| ConvTranspose2d (in_channels out_channels kernel_size stride padding : Z)
| BatchNorm2d (num_features : Z)
| LeakyReLU (negative_slope : Q).

Section WithTensors.

(** Tensors, and what a layer owns (weights, running statistics); applying
    a layer gives its output and the layer as the call leaves it. *)
Context {Tensor LayerState : Type}.
Context (init_state : layer_kind -> LayerState).
Context (layer_forward : layer_kind -> bool -> LayerState -> Tensor -> Tensor * LayerState).

Record layer : Type := {
  kind : layer_kind;
  layer_training : bool;
  layer_state : LayerState
}.

(** A fresh module is in training mode. *)
Definition new_layer (k : layer_kind) : layer :=
  {| kind := k; layer_training := true; layer_state := init_state k |}.

Definition apply_layer (l : layer) (x : Tensor) : Tensor * layer :=
  let '(y, st) := layer_forward (kind l) (layer_training l) (layer_state l) x in
  (y, {| kind := kind l; layer_training := layer_training l; layer_state := st |}).

(** [nn.Sequential]: the layers in order. *)
Definition Sequential : Type := list layer.

Fixpoint Sequential_forward (seq : Sequential) (x : Tensor) : Tensor * Sequential :=
  match seq with
  | [] => (x, [])
  | l :: rest =>
      let '(y, l') := apply_layer l x in
      let '(z, rest') := Sequential_forward rest y in
      (z, l' :: rest')
  end.

Definition make_tail_modules (num_output_channels : Z) (uses_bn : bool) : list layer :=
  let leaky_relu := new_layer (LeakyReLU (1 # 10)) in
  if uses_bn then [new_layer (BatchNorm2d num_output_channels); leaky_relu]
  else [leaky_relu].

Definition make_enc_modules (num_input_channels num_output_channels kernel_size stride padding : Z)
    (uses_bn : bool) : list layer :=
  new_layer (Conv2d num_input_channels num_output_channels kernel_size stride padding)
  :: make_tail_modules num_output_channels uses_bn.

Definition make_dec_modules (num_input_channels num_output_channels kernel_size stride padding : Z)
    (uses_bn : bool) : list layer :=
  new_layer (ConvTranspose2d num_input_channels num_output_channels kernel_size stride padding)
  :: make_tail_modules num_output_channels uses_bn.

Record Paraphraser4FactorTransfer : Type := {
  paraphrase_rate : Float.number;
  training : bool;
  encoder : Sequential;
  decoder : Sequential
}.

(** [int(num_input_channels * k)]: the product is a [float] when the rate
    is one, rounded before it is truncated. *)
Definition int_of_product (n : Z) (k : Float.number) : result Z :=
  Float.int_times n k ≫= Float.int.

Definition Paraphraser4FactorTransfer_init (k : Float.number) (num_input_channels : Z)
    (kernel_size stride padding : Z) (uses_bn : bool) : result Paraphraser4FactorTransfer :=
  num_enc_output_channels ← int_of_product num_input_channels k;
  Ok {| paraphrase_rate := k;
        training := true;
        encoder :=
          make_enc_modules num_input_channels num_input_channels
            kernel_size stride padding uses_bn
          ++ make_enc_modules num_input_channels num_enc_output_channels
               kernel_size stride padding uses_bn
          ++ make_enc_modules num_enc_output_channels num_enc_output_channels
               kernel_size stride padding uses_bn;
        decoder :=
          make_dec_modules num_enc_output_channels num_enc_output_channels
            kernel_size stride padding uses_bn
          ++ make_dec_modules num_enc_output_channels num_input_channels
               kernel_size stride padding uses_bn
          ++ make_dec_modules num_input_channels num_input_channels
               kernel_size stride padding uses_bn |}.

(** [nn.Module.train(mode)]: the flag of the module and of every module
    below it; [eval()] is [train(False)]. *)
Definition set_mode (mode : bool) (l : layer) : layer :=
  {| kind := kind l; layer_training := mode; layer_state := layer_state l |}.

Definition train (mode : bool) (self : Paraphraser4FactorTransfer) : Paraphraser4FactorTransfer :=
  {| paraphrase_rate := paraphrase_rate self;
     training := mode;
     encoder := map (set_mode mode) (encoder self);
     decoder := map (set_mode mode) (decoder self) |}.

Definition eval (self : Paraphraser4FactorTransfer) : Paraphraser4FactorTransfer :=
  train false self.

(** [forward]: the output, and the paraphraser with the layers as the call
    leaves them. *)
Definition forward (self : Paraphraser4FactorTransfer) (z : Tensor)
    : Tensor * Paraphraser4FactorTransfer :=
  if training self then
    let '(f, enc) := Sequential_forward (encoder self) z in
    let '(y, dec) := Sequential_forward (decoder self) f in
    (y, {| paraphrase_rate := paraphrase_rate self; training := training self;
           encoder := enc; decoder := dec |})
  else
    let '(f, enc) := Sequential_forward (encoder self) z in
    (f, {| paraphrase_rate := paraphrase_rate self; training := training self;
           encoder := enc; decoder := decoder self |}).

End WithTensors.
Arguments layer : clear implicits.
Arguments Sequential : clear implicits.
Arguments Paraphraser4FactorTransfer : clear implicits.

End Paraphraser.

(** ** The normalizer of contrastive representation distillation

    In exact arithmetic: tensor entries are real numbers, and a result that
    floating point would report as infinite or NaN is [None]. *)
Module CRD.
Import Py.
Local Open Scope R_scope.

(** [t.pow(e)] for a real exponent [e = 1.0 / power], [power >= 1], on one
    entry: a negative base has a real power only for an integral exponent,
    which here is [e = 1]. *)
Definition real_root (power : nat) (s : R) : option R :=
  if Rlt_dec 0 s then Some (Rpower s (1 / INR power))
  else if Req_dec_T s 0 then Some 0
  else if Nat.eqb power 1 then Some s
  else None.

(** [z.pow(power).sum(1, keepdim=True)] on one row *)
Definition power_sum (power : nat) (row : list R) : R :=
  fold_right Rplus 0 (map (fun x => x ^ power) row).

(** [z.div(norm)] on one row; dividing an entry by zero has no real
    result. *)
Definition div_row (row : list R) (norm : R) : option (list R) :=
  match row with
  | [] => Some []
  | _ => if Req_dec_T norm 0 then None else Some (map (fun x => x / norm) row)
  end.

Definition normalize_row (power : nat) (row : list R) : option (list R) :=
  match real_root power (power_sum power row) with
  | Some norm => div_row row norm
  | None => None
  end.

(** The steps of [forward] after the linear layer, on a batch of rows.
    [1.0 / self.power] raises for [power = 0]. *)
Definition normalize (power : nat) (z : list (list R)) : result (list (option (list R))) :=
  if Nat.eqb power 0 then Raise ZeroDivisionError
  else Ok (map (normalize_row power) z).

Record Normalizer4CRD : Type := {
  linear : list (list R) -> list (list R);
  power : nat
}.

Definition Normalizer4CRD_forward (self : Normalizer4CRD) (x : list (list R))
    : result (list (option (list R))) :=
  let z := linear self x in
  normalize (power self) z.

(** [c * z] *)
Definition scale (c : R) (z : list (list R)) : list (list R) :=
  map (map (Rmult c)) z.


End CRD.

(** ** The normalizer on float32 tensors

    For the default power 2, where [z.pow(2)] is the square of each entry
    and [.pow(1.0 / 2)] the square root, every step rounded to float32. *)
Module CRD32.
Import Float.

(** [z.pow(2).sum(1, keepdim=True)] on one row, the squares added in
    order *)
Definition square_sum (row : list spec_float) : spec_float :=
  fold_left F32.add (map (fun x => F32.mul x x) row) (S754_zero false).

(** [z.div(norm)] with [norm] the square root of the sum, on one row *)
Definition normalize_row (row : list spec_float) : list spec_float :=
  let norm := F32.sqrt (square_sum row) in
  map (fun x => F32.div x norm) row.

(** The steps of [forward] after the linear layer. *)
Definition normalize (z : list (list spec_float)) : list (list spec_float) :=
  map normalize_row z.

(** [c * z] *)
Definition scale (c : spec_float) (z : list (list spec_float)) : list (list spec_float) :=
  map (map (F32.mul c)) z.



End CRD32.

(** ** Wrapper classes: construction *)
Module Wrappers.
Import Py.
Local Open Scope Z_scope.

(** [sub in s] for strings *)
Fixpoint contains (sub s : string) : bool :=
  String.prefix sub s ||
  match s with
  | EmptyString => false
  | String _ s' => contains sub s'
  end.

(** [obj[k]] *)
Definition subscript (obj : pyval) (k : string) : result pyval :=
  match obj with
  | VDict d =>
      match dict_lookup k d with
      | Some v => Ok v
      | None => Raise (KeyError k)
      end
  | _ => Raise (TypeError "object is not subscriptable")
  end.

(** [d[k] = v]: an existing key keeps its place. *)
Fixpoint dict_set (k : string) (v : pyval) (d : dict) : dict :=
  match d with
  | [] => [(k, v)]
  | (k', v') :: d' => if String.eqb k k' then (k, v) :: d' else (k', v') :: dict_set k v d'
  end.

Definition as_int (v : pyval) : option Z :=
  match v with
  | VInt n => Some n
  | VBool b => Some (Z.b2z b)
  | _ => None
  end.

(** An integer keyword parameter with a default. *)
Definition int_param (k : string) (default : Z) (d : dict) : result Z :=
  match dict_lookup k d with
  | None => Ok default
  | Some v =>
      match as_int v with
      | Some n => Ok n
      | None => Raise (TypeError "unsupported operand type")
      end
  end.

(** [Embed]: a shifted window attention of window 7 with 8 heads, a 1x1
    convolution and a batch norm. *)
Record Embed : Type := {
  swin : WinAttn.WindowAttention;
  conv2d : Paraphraser.layer_kind;
  l2norm : Paraphraser.layer_kind
}.

(** [Embed] called with the entries of [embed_params] as keywords: keywords other than the two channel counts
    are accepted and ignored. *)
Definition Embed_init (embed_params : pyval) : result Embed :=
  match embed_params with
  | VDict d =>
      in_channels ← int_param "in_channels" 512 d;
      swin ← WinAttn.WindowAttention_init in_channels 8 (in_channels `div` 8) true 7 true;
      out_channels ← int_param "out_channels" 128 d;
      Ok {| swin := swin;
            conv2d := Paraphraser.Conv2d in_channels out_channels 1 1 0;
            l2norm := Paraphraser.BatchNorm2d out_channels |}
  | _ => Raise (TypeError "argument after ** must be a mapping")
  end.

(** [nn.Linear] called with the entries of [linear_params] as keywords *)
Definition Linear_init (linear_params : pyval) : result WinAttn.Linear :=
  match linear_params with
  | VDict d =>
      if forallb (fun k => bool_decide (k ∈ ["in_features"; "out_features"; "bias"; "device"; "dtype"]))
                 (keys d)
      then
        match dict_lookup "in_features" d, dict_lookup "out_features" d with
        | Some (VInt i), Some (VInt o) =>
            WinAttn.nn_Linear i o
              (match dict_lookup "bias" d with Some (VBool b) => b | _ => true end)
        | _, _ => Raise (TypeError "missing or wrong in_features, out_features")
        end
      else Raise (TypeError "got an unexpected keyword argument")
  | _ => Raise (TypeError "argument after ** must be a mapping")
  end.

(** Modules created during construction live in a heap and are referred to
    by [VObj]; two references are the same object when the ids agree. *)
Inductive object : Type :=
| OEmbed (e : Embed)
| OLinear (l : WinAttn.Linear)
| OIdentity.

Record heap : Type := {
  next_id : nat;
  objects : list (nat * object)
}.

Definition M (A : Type) : Type := heap -> result (A * heap).

#[global] Instance M_ret : MRet M := fun A a h => Ok (a, h).

#[global] Instance M_bind : MBind M := fun A B k m h =>
  match m h with
  | Ok (a, h') => k a h'
  | Raise e => Raise e
  end.

Definition lift {A} (r : result A) : M A := fun h =>
  match r with
  | Ok a => Ok (a, h)
  | Raise e => Raise e
  end.

Definition raise {A} (e : exn) : M A := fun _ => Raise e.

Definition alloc (o : object) : M pyval := fun h =>
  Ok (VObj (next_id h),
      {| next_id := S (next_id h); objects := objects h ++ [(next_id h, o)] |}).

Section WithExternals.

(** Helpers of [torchdistill.models.util] and attributes of the wrapped
    model, which are not part of this file. *)
Context (wrap_if_distributed : pyval -> pyval -> pyval -> pyval -> result pyval).
Context (redesign_model : pyval -> pyval -> string -> string -> result pyval).
Context (get_transform : pyval -> result pyval).

(** *** [HeadRCNN] *)
Record HeadRCNN : Type := {
  transform : pyval;
  seq : pyval
}.

Definition kwargs_get (kwargs : dict) (k : string) (default : pyval) : pyval :=
  match dict_lookup k kwargs with Some v => v | None => default end.

Definition HeadRCNN_init (head_rcnn : pyval) (kwargs : dict) : result HeadRCNN :=
  let tmp_ref_model := kwargs_get kwargs "teacher_model" VNone in
  let ref_model := kwargs_get kwargs "student_model" tmp_ref_model in
  if is_None ref_model
  then Raise (ValueError "Either student_model or teacher_model has to be given.")
  else
    transform ← get_transform ref_model;
    seq ← redesign_model ref_model head_rcnn "R-CNN" "HeadRCNN";
    Ok {| transform := transform; seq := seq |}.

(** *** [Linear4CCKD] *)
Record Linear4CCKD : Type := {
  model : pyval;
  is_teacher : bool;
  input_module_path : pyval;
  input_module_io : pyval;
  linear : pyval
}.

Definition Linear4CCKD_init (input_module linear_params device device_ids distributed : pyval)
    (teacher_model student_model : pyval) : M Linear4CCKD :=
  let is_teacher := negb (is_None teacher_model) in
  student_model ←
    (if negb is_teacher
     then lift (wrap_if_distributed student_model device device_ids distributed)
     else mret student_model);
  let model := if is_teacher then teacher_model else student_model in
  input_module_path ← lift (subscript input_module "path");
  input_module_io ← lift (subscript input_module "io");
  l ← lift (Linear_init linear_params);
  l ← alloc (OLinear l);
  linear ← lift (wrap_if_distributed l device device_ids distributed);
  mret {| model := model;
          is_teacher := is_teacher;
          input_module_path := input_module_path;
          input_module_io := input_module_io;
          linear := linear |}.

(** *** [AttnEmbed] *)
Record AttnEmbed : Type := {
  attn_is_teacher : bool;
  attn_model : pyval;
  embed_dict : dict;
  io_path_pairs : list (string * pyval * pyval)
}.

(** What the loop over [embedings.items()] carries from one round to the
    next: the local variable [embed], unbound before its first assignment,
    and the two containers being filled. *)
Record loop_state : Type := {
  embed : option pyval;
  cur_embed_dict : dict;
  cur_io_path_pairs : list (string * pyval * pyval)
}.

Definition new_wrapped_Embed (embed_params device device_ids distributed : pyval) : M pyval :=
  e ← lift (Embed_init embed_params);
  embed ← alloc (OEmbed e);
  lift (wrap_if_distributed embed device device_ids distributed).

Definition AttnEmbed_loop_body (is_teacher : bool) (device device_ids distributed : pyval)
    (item : string * pyval) (st : loop_state) : M loop_state :=
  let '(embed_key, embed_params) := item in
  embed ←
    (if is_teacher then
       e ← alloc OIdentity; mret (Some e)
     else if contains "query" embed_key then
       e ← new_wrapped_Embed embed_params device device_ids distributed; mret (Some e)
     else if contains "value" embed_key then
       e ← new_wrapped_Embed embed_params device device_ids distributed; mret (Some e)
     else mret (embed st));
  match embed with
  | None => raise (UnboundLocalError "embed")
  | Some e =>
      let embed_dict := dict_set embed_key e (cur_embed_dict st) in
      io ← lift (subscript embed_params "io");
      path ← lift (subscript embed_params "path");
      mret {| embed := Some e;
              cur_embed_dict := embed_dict;
              cur_io_path_pairs := cur_io_path_pairs st ++ [(embed_key, io, path)] |}
  end.

Fixpoint AttnEmbed_loop (is_teacher : bool) (device device_ids distributed : pyval)
    (items : dict) (st : loop_state) : M loop_state :=
  match items with
  | [] => mret st
  | item :: rest =>
      st ← AttnEmbed_loop_body is_teacher device device_ids distributed item st;
      AttnEmbed_loop is_teacher device device_ids distributed rest st
  end.

Definition AttnEmbed_init (embedings device device_ids distributed : pyval)
    (teacher_model student_model : pyval) : M AttnEmbed :=
  let is_teacher := negb (is_None teacher_model) in
  student_model ←
    (if negb is_teacher
     then lift (wrap_if_distributed student_model device device_ids distributed)
     else mret student_model);
  let model := if is_teacher then teacher_model else student_model in
  items ← (match embedings with
           | VDict d => mret d
           | _ => raise (AttributeError "items")
           end);
  st ← AttnEmbed_loop is_teacher device device_ids distributed items
         {| embed := None; cur_embed_dict := []; cur_io_path_pairs := [] |};
  mret {| attn_is_teacher := is_teacher;
          attn_model := model;
          embed_dict := cur_embed_dict st;
          io_path_pairs := cur_io_path_pairs st |}.

End WithExternals.

(** A heap whose ids start above those of the models handed in. *)
Definition empty_heap (first_id : nat) : heap := {| next_id := first_id; objects := [] |}.

(** [module.to(device)]: of the values here only a live object has the
    method; the module itself is moved, and nothing new is made. *)
Definition to_device (module device : pyval) : result unit :=
  match module with
  | VObj _ => Ok tt
  | VNone => Raise (AttributeError "'NoneType' object has no attribute 'to'")
  | _ => Raise (AttributeError "object has no attribute 'to'")
  end.

(** [wrap_if_distributed] on a single process, used to run the constructors
    on examples: the module is moved to the device and handed back. *)
Definition wrap_local (module device device_ids distributed : pyval) : result pyval :=
  _ ← to_device module device;
  Ok module.

(** The text an exception carries. *)
Definition message (e : exn) : string :=
  match e with
  | TypeError msg | ValueError msg | AttributeError msg | RuntimeError msg
  | EinopsError msg | OverflowError msg => msg
  | KeyError key => key
  | UnboundLocalError var => var
  | ZeroDivisionError => "division by zero"
  end.

(** Whether an exception says which argument was not given. *)
Definition names_missing_model (e : exn) : bool :=
  contains "teacher_model" (message e) || contains "student_model" (message e).

End Wrappers.

(** ** Example data used below *)
Module Examples.
Import Py.

(** The registry after registering [EmptyModule], and four model
    configurations. *)
Definition w1 : Registry.world string :=
  (Registry.register_special_module Registry.EmptyModule Registry.initial_world).2.

Definition empty_config : pyval :=
  VDict [("name", VStr "resnet18");
         ("special", VDict [("type", VStr "EmptyModule"); ("params", VNone)])].

Definition unknown_config : pyval :=
  VDict [("special", VDict [("type", VStr "NoSuchModule");
                            ("params", VDict [("uses_decoder", VBool true)])])].

Definition plain_config : pyval := VDict [("name", VStr "resnet18")].

Definition clash_config : pyval :=
  VDict [("special", VDict [("type", VStr "EmptyModule");
                            ("params", VDict [("teacher_model", VObj 7)])])].

(** Layers that only record their kind and the mode they ran in, and the
    paraphraser built with rate 0.5 on 64 channels without batch norm. *)
Definition trace_layer (k : Paraphraser.layer_kind) (mode : bool) (st : unit)
    (x : list (string * bool)) : list (string * bool) * unit :=
  (x ++ [(match k with
          | Paraphraser.Conv2d _ _ _ _ _ => "conv"
          | Paraphraser.ConvTranspose2d _ _ _ _ _ => "deconv"
          | Paraphraser.BatchNorm2d _ => "bn"
          | Paraphraser.LeakyReLU _ => "lrelu"
          end, mode)], tt).

Definition p0 : Paraphraser.Paraphraser4FactorTransfer unit :=
  match Paraphraser.Paraphraser4FactorTransfer_init (λ _, tt) (Float.ratio 1 2) 64 3 1 1 false
  with
  | Ok p => p
  | Raise _ => {| Paraphraser.paraphrase_rate := Float.ratio 1 2;
                  Paraphraser.training := true;
                  Paraphraser.encoder := [];
                  Paraphraser.decoder := [] |}
  end.

(** Parameters of one embedding of [AttnEmbed], and a student model. *)
Definition embed_params : pyval :=
  VDict [("in_channels", VInt 16); ("out_channels", VInt 8);
         ("io", VStr "output"); ("path", VStr "layer4")].

Definition student : pyval := VObj 0.

End Examples.

(** ** Shapes through the layers of the paraphraser and of [Embed] *)
Module Layers.
Import Py Paraphraser.
Local Open Scope Z_scope.

Abbreviation shape := WinAttn.shape.

(** Output length of a convolution along one axis (dilation 1). *)
Definition conv_out (size kernel_size stride padding : Z) : Z :=
  (size + 2 * padding - kernel_size) `div` stride + 1.

(** Output length of a transposed convolution along one axis (no output
    padding). *)
Definition conv_transpose_out (size kernel_size stride padding : Z) : Z :=
  (size - 1) * stride - 2 * padding + kernel_size.

Definition conv_axes (cin cout ks st pad : Z) (c h w : Z) : result (Z * Z * Z) :=
  if negb (c =? cin) then Raise (RuntimeError "wrong number of input channels")
  else if (h + 2 * pad <? ks) || (w + 2 * pad <? ks)
  then Raise (RuntimeError "kernel size can't be greater than actual input size")
  else Ok (cout, conv_out h ks st pad, conv_out w ks st pad).

Definition conv_transpose_axes (cin cout ks st pad : Z) (c h w : Z) : result (Z * Z * Z) :=
  if negb (c =? cin) then Raise (RuntimeError "wrong number of input channels")
  else if (conv_transpose_out h ks st pad <=? 0) || (conv_transpose_out w ks st pad <=? 0)
  then Raise (RuntimeError "output size is too small")
  else Ok (cout, conv_transpose_out h ks st pad, conv_transpose_out w ks st pad).

(** Batched (4 axes) or unbatched (3 axes) input of a 2d convolution. *)
Definition on_image (f : Z -> Z -> Z -> result (Z * Z * Z)) (x : shape) : result shape :=
  match x with
  | [b; c; h; w] => '(c', h', w') ← f c h w; Ok [b; c'; h'; w']
  | [c; h; w] => '(c', h', w') ← f c h w; Ok [c'; h'; w']
  | _ => Raise (RuntimeError "expected 3D or 4D input")
  end.

(** The shape a layer gives to an input of shape [x], in training or in
    evaluation mode. Batch norm in training mode wants more than one value
    per channel. *)
Definition layer_shape (k : layer_kind) (training : bool) (x : shape) : result shape :=
  match k with
  | Conv2d cin cout ks st pad => on_image (conv_axes cin cout ks st pad) x
  | ConvTranspose2d cin cout ks st pad => on_image (conv_transpose_axes cin cout ks st pad) x
  | BatchNorm2d n =>
      match x with
      | [b; c; h; w] =>
          if negb (c =? n) then Raise (RuntimeError "wrong number of features")
          else if training && (b * h * w =? 1)
          then Raise (ValueError "Expected more than 1 value per channel when training")
          else Ok x
      | _ => Raise (ValueError "expected 4D input")
      end
  | LeakyReLU _ => Ok x
  end.

(** Layers run on shapes: a tensor is its shape, or the exception raised on
    the way; the layers own nothing. *)
Definition shape_layer (k : layer_kind) (training : bool) (st : unit) (x : result shape)
    : result shape * unit :=
  (x ≫= layer_shape k training, tt).



End Layers.

(** ** Factor transfer: translator, and the teacher's [post_forward] *)
Module FactorTransfer.
Import Py Paraphraser.

(** [d[k]] on a dictionary with string keys. *)
Fixpoint assoc {V} (k : string) (d : list (string * V)) : result V :=
  match d with
  | [] => Raise (KeyError k)
  | (k', v) :: d' => if String.eqb k k' then Ok v else assoc k d'
  end.

Section WithTensors.
Context {Tensor LayerState : Type}.
Context (init_state : layer_kind -> LayerState).
Context (layer_forward : layer_kind -> bool -> LayerState -> Tensor -> Tensor * LayerState).

(** [Translator4FactorTransfer]: an [nn.Sequential] of three encoder
    stages. *)
Definition Translator4FactorTransfer_init (num_input_channels num_output_channels : Z)
    (kernel_size stride padding : Z) (uses_bn : bool) : Sequential LayerState :=
  make_enc_modules init_state num_input_channels num_input_channels
    kernel_size stride padding uses_bn
  ++ make_enc_modules init_state num_input_channels num_output_channels
       kernel_size stride padding uses_bn
  ++ make_enc_modules init_state num_output_channels num_output_channels
       kernel_size stride padding uses_bn.

(** What [post_forward] of [Teacher4FactorTransfer] uses of the wrapper;
    the paraphraser is the module itself (no distributed wrapping). *)
Record Teacher4FactorTransfer : Type := {
  paraphraser : Paraphraser4FactorTransfer LayerState;
  input_module_path : string;
  uses_decoder : bool
}.

(** The IO dictionary: per module path, the captured tensors by kind. *)
Definition io_dict : Type := list (string * list (string * Tensor)).

Definition with_paraphraser (self : Teacher4FactorTransfer)
    (p : Paraphraser4FactorTransfer LayerState) : Teacher4FactorTransfer :=
  {| paraphraser := p;
     input_module_path := input_module_path self;
     uses_decoder := uses_decoder self |}.

(** [post_forward]: what the paraphraser returned (the caller drops it),
    and the wrapper afterwards. The switch to training mode comes before
    the IO dictionary is read. *)
Definition post_forward (self : Teacher4FactorTransfer) (io : io_dict)
    : result Tensor * Teacher4FactorTransfer :=
  let p :=
    if uses_decoder self && negb (training (paraphraser self))
    then train true (paraphraser self)
    else paraphraser self in
  match entry ← assoc (input_module_path self) io; assoc "output" entry with
  | Raise e => (Raise e, with_paraphraser self p)
  | Ok x =>
      let '(y, p') := forward layer_forward p x in
      (Ok y, with_paraphraser self p')
  end.

End WithTensors.
Arguments Teacher4FactorTransfer : clear implicits.
Arguments io_dict : clear implicits.

End FactorTransfer.

(** ** The registry when the module has been imported *)
Module AtImport.
Import Py Registry.

(** The classes under [@register_special_module], in source order. *)
Definition decorated : list string :=
  ["EmptyModule"; "Teacher4FactorTransfer"; "Student4FactorTransfer"; "Connector4DAB";
   "ChannelSimilarityEmbed"; "AttnEmbed"; "ViTEmbed"; "VariationalDistributor4VID";
   "Linear4CCKD"; "Linear4CRD"; "HeadRCNN"; "SSWrapper4SSKD"; "VarianceBranch4PAD"].

(** The other classes of the file, which carry no decorator. *)
Definition undecorated : list string :=
  ["SpecialModule"; "Paraphraser4FactorTransfer"; "Translator4FactorTransfer";
   "CyclicShift"; "Residual"; "PreNorm"; "FeedForward"; "WindowAttention"; "Embed";
   "Regressor4VID"; "AttnModule"; "Normalizer4CRD"].

Section WithConstructors.
Context {Instance : Type}.
Context (constructors : string -> list pyval -> dict -> result Instance).

Definition class_of (name : string) : class Instance :=
  {| cls_name := name; cls_init := constructors name |}.

Definition register_all (names : list string) (w : world Instance) : world Instance :=
  foldl (λ w name, (register_special_module (class_of name) w).2) w names.

Definition world_at_import : world Instance := register_all decorated initial_world.

End WithConstructors.

End AtImport.

(** ** Reading a table *)
Module Table.

(** Entry [i][j] of a table given as a list of rows. *)
Definition at2 {A} (t : list (list A)) (i j : nat) : option A :=
  row ← t !! i; row !! j.

End Table.

(** ** More example data *)
Module MoreExamples.
Import Py.

(** A second class that also calls itself [EmptyModule]. *)
Definition Replacement : Registry.class string :=
  {| Registry.cls_name := "EmptyModule";
     Registry.cls_init := fun _ _ => Ok "Replacement" |}.

(** A class with a name of its own. *)
Definition Other : Registry.class string :=
  {| Registry.cls_name := "Other";
     Registry.cls_init := fun _ _ => Ok "Other" |}.

End MoreExamples.

(** * Properties *)

Lemma bind_Ok {A B} (m : Py.result A) (k : A → Py.result B) (b : B) :
  m ≫= k = Py.Ok b → ∃ a, m = Py.Ok a ∧ k a = Py.Ok b.
Proof. destruct m as [a|e]; [eauto | discriminate]. Qed.

Lemma is_Ok_inv {A} (r : Py.result A) : Py.is_Ok r = true → ∃ a, r = Py.Ok a.
Proof. destruct r as [a|e]; [eauto | discriminate]. Defined.

Lemma bind_Ok_l {A B} (m : Py.result A) (k : A → Py.result B) (a : A) :
  m = Py.Ok a → m ≫= k = k a.
Proof. by intros ->. Qed.

(** The fields of a window attention that was constructed. *)
Lemma WindowAttention_init_Ok dim heads head_dim shifted window_size rel self :
  WinAttn.WindowAttention_init dim heads head_dim shifted window_size rel = Py.Ok self →
  head_dim ≠ 0%Z ∧
  ∃ to_qkv pos_embedding to_out,
    WinAttn.nn_Linear dim (head_dim * heads * 3) false = Py.Ok to_qkv ∧
    (if rel then WinAttn.new_tensor [2 * window_size - 1; 2 * window_size - 1]
     else WinAttn.new_tensor [window_size ^ 2; window_size ^ 2])%Z = Py.Ok pos_embedding ∧
    WinAttn.nn_Linear (head_dim * heads) dim true = Py.Ok to_out ∧
    self = {|
      WinAttn.heads := heads;
      WinAttn.scale_head_dim := head_dim;
      WinAttn.window_size := window_size;
      WinAttn.relative_pos_embedding := rel;
      WinAttn.shifted := shifted;
      WinAttn.cyclic_shift :=
        if shifted then Some {| Shift.displacement := - (window_size `div` 2) |} else None;
      WinAttn.cyclic_back_shift :=
        if shifted then Some {| Shift.displacement := window_size `div` 2 |} else None;
      WinAttn.upper_lower_mask :=
        if shifted
        then Some (WinAttn.create_mask window_size (window_size `div` 2) true false)
        else None;
      WinAttn.left_right_mask :=
        if shifted
        then Some (WinAttn.create_mask window_size (window_size `div` 2) false true)
        else None;
      WinAttn.to_qkv := to_qkv;
      WinAttn.relative_indices :=
        if rel then Some (RelPos.relative_indices window_size) else None;
      WinAttn.pos_embedding := pos_embedding;
      WinAttn.to_out := to_out |}.
Proof.
  unfold WinAttn.WindowAttention_init. intros H.
  apply bind_Ok in H as ([] & Hhd & H).
  apply bind_Ok in H as (to_qkv & Hqkv & H).
  apply bind_Ok in H as (pos & Hpos & H).
  apply bind_Ok in H as (to_out & Hout & H).
  split.
  - intros ->. discriminate.
  - exists to_qkv, pos, to_out. repeat split; try assumption. congruence.
Qed.

(** ** Registry *)
Section RegistryFacts.
Import Py Registry.
Context {Instance : Type}.
Implicit Types (w : world Instance) (cls : class Instance).

Lemma build_requested model_config ty kwargs merged w :
  requests model_config ty kwargs merged →
  build_special_module model_config kwargs w = get_special_module ty [] merged w.
Proof.
  intros (cfg & Hs & Ht & Hn & Hm). unfold build_special_module.
  rewrite Hs. cbn. rewrite Ht. cbn. rewrite Hn. cbn.
  destruct (special_params cfg) as [params|e]; cbn in Hm |- *; [|discriminate].
  rewrite Hm. reflexivity.
Qed.

Lemma lookup_registered cls w :
  SPECIAL_CLASS_DICT (register_special_module cls w).2 !! cls_name cls = Some cls.
Proof. cbn. apply lookup_insert_eq. Qed.

Lemma lookup_unregistered cls w name :
  name ≠ cls_name cls →
  SPECIAL_CLASS_DICT w !! name = None →
  SPECIAL_CLASS_DICT (register_special_module cls w).2 !! name = None.
Proof. intros Hne Hn. cbn. rewrite lookup_insert_ne; [exact Hn | congruence]. Qed.

(** C1. After [register_special_module cls], a build whose configuration
    names [cls] calls exactly that constructor and returns what it
    produced; a lookup or a build with a name that is not registered
    returns [None] without raising, and only logs. *)
Theorem register_then_build cls w :
  let w1 := (register_special_module cls w).2 in
  (register_special_module cls w).1 = cls ∧
  (∀ model_config kwargs merged,
     requests model_config (VStr (cls_name cls)) kwargs merged →
     build_special_module model_config kwargs w1
       = (Some <$> cls_init cls [] merged, with_call cls [] merged w1)) ∧
  (∀ name, name ≠ cls_name cls → SPECIAL_CLASS_DICT w !! name = None →
     (∀ args kwargs,
        get_special_module (VStr name) args kwargs w1 = (Ok None, with_log (VStr name) w1)) ∧
     (∀ model_config kwargs merged,
        requests model_config (VStr name) kwargs merged →
        build_special_module model_config kwargs w1 = (Ok None, with_log (VStr name) w1))).
Proof.
  intros w1. split; [reflexivity|]. split.
  - intros cfg kwargs merged Hreq.
    rewrite (build_requested _ _ _ _ _ Hreq).
    unfold get_special_module, registry_find. subst w1.
    rewrite lookup_registered. reflexivity.
  - intros name Hne Hnone.
    assert (Hget : ∀ args kwargs,
      get_special_module (VStr name) args kwargs w1 = (Ok None, with_log (VStr name) w1)).
    { intros args kwargs. unfold get_special_module, registry_find. subst w1.
      rewrite (lookup_unregistered _ _ _ Hne Hnone). reflexivity. }
    split; [exact Hget|].
    intros cfg kwargs merged Hreq.
    rewrite (build_requested _ _ _ _ _ Hreq). apply Hget.
Qed.

Lemma has_key_spec k (d : dict) : has_key k d = true ↔ k ∈ keys d.
Proof.
  unfold has_key. rewrite existsb_exists. split.
  - intros (x & Hin & Heq). apply String.eqb_eq in Heq. subst x.
    by apply list_elem_of_In.
  - intros Hin. exists k. split; [by apply list_elem_of_In | apply String.eqb_refl].
Qed.

Lemma has_key_false k (d : dict) : has_key k d = false ↔ k ∉ keys d.
Proof.
  rewrite <- has_key_spec. destruct (has_key k d); split; intros; congruence.
Qed.

Lemma keys_app (d1 d2 : dict) : keys (d1 ++ d2) = keys d1 ++ keys d2.
Proof. apply map_app. Qed.

Lemma merge_disjoint (kwargs p : dict) :
  (∀ k, k ∈ keys kwargs → k ∉ keys p) →
  merge_kwargs kwargs (VDict p) = Ok (kwargs ++ p).
Proof.
  intros Hdisj. unfold merge_kwargs, first_collision.
  destruct (find _ _) as [k|] eqn:Hf; [|reflexivity].
  apply find_some in Hf as [Hin Hk].
  apply has_key_spec in Hk. apply list_elem_of_In in Hin.
  destruct (Hdisj k Hk Hin).
Qed.

Lemma merge_collision (kwargs p : dict) k :
  k ∈ keys kwargs → k ∈ keys p →
  ∃ msg, merge_kwargs kwargs (VDict p) = Raise (TypeError msg).
Proof.
  intros Hk Hp. unfold merge_kwargs, first_collision.
  destruct (find _ _) as [k'|] eqn:Hf; [eauto|].
  apply list_elem_of_In in Hp.
  pose proof (find_none _ _ Hf k Hp) as Hnone. cbn in Hnone.
  apply has_key_spec in Hk. congruence.
Qed.

Lemma special_call_kwargs_disjoint (kwargs p : dict) :
  (∀ k, k ∈ keys kwargs → k ∉ keys p) →
  "class_name" ∉ keys kwargs ++ keys p →
  special_call_kwargs kwargs (VDict p) = Ok (kwargs ++ p).
Proof.
  intros Hdisj Hcn. unfold special_call_kwargs.
  rewrite (merge_disjoint _ _ Hdisj). cbn [mbind result_bind].
  rewrite <- keys_app in Hcn. apply has_key_false in Hcn. by rewrite Hcn.
Qed.

Lemma special_call_kwargs_collision (kwargs p : dict) k :
  k ∈ keys kwargs → k ∈ keys p →
  ∃ msg, special_call_kwargs kwargs (VDict p) = Raise (TypeError msg).
Proof.
  intros Hk Hkp. destruct (merge_collision _ _ _ Hk Hkp) as [msg Hm].
  exists msg. unfold special_call_kwargs. by rewrite Hm.
Qed.

(** C2, as the code has it. [build_special_module] on a configuration mapping [d]
    whose [special] entry is absent (then it counts as empty) or a mapping
    [sd]. Without a [type], absent or [None], it returns [None] and leaves
    the world as it was: nothing built, nothing logged. With a [type] it is
    the lookup called with the caller's keywords followed by the entries of
    [special.params], an absent or [None] [params] adding none; a keyword
    on both sides, or one called [class_name] on either side, makes the
    call fail with a [TypeError] before any lookup. *)
Theorem build_special_module_cases w (d sd : dict) kwargs :
  dict_lookup "special" d = Some (VDict sd) ∨ (dict_lookup "special" d = None ∧ sd = []) →
  (dict_lookup "type" sd = None ∨ dict_lookup "type" sd = Some VNone →
     build_special_module (VDict d) kwargs w = (Ok None, w)) ∧
  (∀ ty p,
     dict_lookup "type" sd = Some ty → is_None ty = false →
     dict_lookup "params" sd = Some (VDict p) ∨
       ((dict_lookup "params" sd = None ∨ dict_lookup "params" sd = Some VNone) ∧ p = []) →
     ((∀ k, k ∈ keys kwargs → k ∉ keys p) →
      "class_name" ∉ keys kwargs ++ keys p →
      build_special_module (VDict d) kwargs w
        = get_special_module ty [] (kwargs ++ p) w) ∧
     (∀ k, k ∈ keys kwargs → k ∈ keys p →
      ∃ msg, build_special_module (VDict d) kwargs w = (Raise (TypeError msg), w)) ∧
     ("class_name" ∈ keys kwargs ++ keys p →
      ∃ msg, build_special_module (VDict d) kwargs w = (Raise (TypeError msg), w))).
Proof.
  intros Hsd.
  assert (Hs : py_get (VDict d) "special" (VDict []) = Ok (VDict sd)).
  { cbn. by destruct Hsd as [->|[-> ->]]. }
  split.
  - intros Hty. unfold build_special_module. rewrite Hs. cbn.
    by destruct Hty as [->| ->].
  - intros ty p Hty Hn Hparams.
    assert (Ht : py_get (VDict sd) "type" VNone = Ok ty) by (cbn; by rewrite Hty).
    assert (Hp : special_params (VDict sd) = Ok (VDict p)).
    { unfold special_params. cbn.
      by destruct Hparams as [->|[[->| ->] ->]]. }
    assert (Hbuild : ∀ r,
      special_call_kwargs kwargs (VDict p) = r →
      build_special_module (VDict d) kwargs w
      = match r with
        | Ok merged => get_special_module ty [] merged w
        | Raise e => (Raise e, w)
        end).
    { intros r <-. unfold build_special_module.
      rewrite Hs. cbn [mbind result_bind]. rewrite Ht. cbn [mbind result_bind].
      rewrite Hn. cbn [negb]. rewrite Hp. cbn [mbind result_bind].
      by destruct (special_call_kwargs kwargs (VDict p)). }
    split; [|split].
    + intros Hdisj Hcn.
      by rewrite (Hbuild _ (special_call_kwargs_disjoint _ _ Hdisj Hcn)).
    + intros k Hk Hkp. destruct (special_call_kwargs_collision _ _ _ Hk Hkp) as [msg Hm].
      exists msg. by rewrite (Hbuild _ Hm).
    + intros Hcn. unfold special_call_kwargs, merge_kwargs in Hbuild.
      destruct (first_collision kwargs p) as [k|]; cbn [mbind result_bind] in Hbuild.
      * eexists. by rewrite (Hbuild _ eq_refl).
      * rewrite <- keys_app in Hcn. apply has_key_spec in Hcn. rewrite Hcn in Hbuild.
        eexists. by rewrite (Hbuild _ eq_refl).
Qed.

End RegistryFacts.

Section RegistryExamples.
Import Py Registry Examples.

Lemma register_then_build_witness :
  build_special_module empty_config [("teacher_model", VObj 0)] w1
    = (Ok (Some "EmptyModule"), with_call EmptyModule [] [("teacher_model", VObj 0)] w1) ∧
  build_special_module unknown_config [("teacher_model", VObj 0)] w1
    = (Ok None, with_log (VStr "NoSuchModule") w1).
Proof.
  destruct (register_then_build EmptyModule initial_world) as (_ & Hbuild & Hunknown).
  split.
  - apply (Hbuild empty_config [("teacher_model", VObj 0)] [("teacher_model", VObj 0)]).
    eexists. repeat split; reflexivity.
  - destruct (Hunknown "NoSuchModule") as [_ Hb]; [discriminate | reflexivity |].
    apply (Hb unknown_config [("teacher_model", VObj 0)]
              [("teacher_model", VObj 0); ("uses_decoder", VBool true)]).
    eexists. repeat split; reflexivity.
Defined.

Lemma build_special_module_cases_witness :
  build_special_module plain_config [("teacher_model", VObj 0)] w1 = (Ok None, w1) ∧
  build_special_module empty_config [("teacher_model", VObj 0)] w1
    = get_special_module (VStr "EmptyModule") [] [("teacher_model", VObj 0)] w1 ∧
  build_special_module unknown_config [("teacher_model", VObj 0)] w1
    = get_special_module (VStr "NoSuchModule") []
        [("teacher_model", VObj 0); ("uses_decoder", VBool true)] w1 ∧
  (∃ msg, build_special_module clash_config [("teacher_model", VObj 0)] w1
            = (Raise (TypeError msg), w1)) ∧
  (∃ msg, build_special_module empty_config [("class_name", VStr "AttnEmbed")] w1
            = (Raise (TypeError msg), w1)).
Proof.
  assert (Hfresh : ∀ p : dict, "class_name" ∈ "teacher_model" :: keys p →
                               "class_name" ∈ keys p).
  { intros p Hin. apply elem_of_cons in Hin as [Hin|Hin]; [discriminate | exact Hin]. }
  split; [|split; [|split; [|split]]].
  - destruct (build_special_module_cases w1 [("name", VStr "resnet18")] []
                [("teacher_model", VObj 0)]) as [Hnone _]; [by right|].
    apply Hnone. by left.
  - destruct (build_special_module_cases w1
                [("name", VStr "resnet18");
                 ("special", VDict [("type", VStr "EmptyModule"); ("params", VNone)])]
                [("type", VStr "EmptyModule"); ("params", VNone)]
                [("teacher_model", VObj 0)]) as [_ Htyped]; [by left|].
    destruct (Htyped (VStr "EmptyModule") [] eq_refl eq_refl) as [Hunion _].
    { right. split; [by right | reflexivity]. }
    apply Hunion.
    + intros k _ Hp. by apply elem_of_nil in Hp.
    + intros Hin. apply Hfresh in Hin. by apply elem_of_nil in Hin.
  - destruct (build_special_module_cases w1
                [("special", VDict [("type", VStr "NoSuchModule");
                                    ("params", VDict [("uses_decoder", VBool true)])])]
                [("type", VStr "NoSuchModule");
                 ("params", VDict [("uses_decoder", VBool true)])]
                [("teacher_model", VObj 0)]) as [_ Htyped]; [by left|].
    destruct (Htyped (VStr "NoSuchModule") [("uses_decoder", VBool true)]
                eq_refl eq_refl) as [Hunion _]; [by left|].
    apply Hunion.
    + intros k Hk. apply list_elem_of_singleton in Hk. subst k.
      intros Hp. apply list_elem_of_singleton in Hp. discriminate.
    + intros Hin. apply Hfresh in Hin. apply list_elem_of_singleton in Hin. discriminate.
  - destruct (build_special_module_cases w1
                [("special", VDict [("type", VStr "EmptyModule");
                                    ("params", VDict [("teacher_model", VObj 7)])])]
                [("type", VStr "EmptyModule");
                 ("params", VDict [("teacher_model", VObj 7)])]
                [("teacher_model", VObj 0)]) as [_ Htyped]; [by left|].
    destruct (Htyped (VStr "EmptyModule") [("teacher_model", VObj 7)]
                eq_refl eq_refl) as (_ & Hclash & _); [by left|].
    apply (Hclash "teacher_model"); apply list_elem_of_singleton; reflexivity.
  - destruct (build_special_module_cases w1
                [("name", VStr "resnet18");
                 ("special", VDict [("type", VStr "EmptyModule"); ("params", VNone)])]
                [("type", VStr "EmptyModule"); ("params", VNone)]
                [("class_name", VStr "AttnEmbed")]) as [_ Htyped]; [by left|].
    destruct (Htyped (VStr "EmptyModule") [] eq_refl eq_refl) as (_ & _ & Hname).
    { right. split; [by right | reflexivity]. }
    apply Hname. apply list_elem_of_here.
Defined.

(** Worded for every configuration mapping, a build without
    [special.type] would return [None], and one with a [type] would call
    the lookup with the union of both sides whenever no key is on both. A
    [special] entry that is present but [None] (an empty [special:] line of
    the YAML file) has no [type], and the build raises [AttributeError] at
    [.get]. And with [class_name] among the configured [params], no key is
    on both sides, but the call is refused with a [TypeError], where the
    lookup on the union would have built an [EmptyModule]. *)
Lemma build_special_None_raises :
  let kwargs := [("teacher_model", VObj 0)] in
  let no_special := VDict [("name", VStr "resnet18"); ("special", VNone)] in
  let params := [("class_name", VStr "AttnEmbed")] in
  let named := VDict [("special", VDict [("type", VStr "EmptyModule");
                                         ("params", VDict params)])] in
  ((build_special_module no_special kwargs w1).1 = Raise (AttributeError "get") ∧
   (build_special_module no_special kwargs w1).1 ≠ Ok None) ∧
  ((∀ k, k ∈ keys kwargs → k ∉ keys params) ∧
   (get_special_module (VStr "EmptyModule") [] (kwargs ++ params) w1).1
     = Ok (Some "EmptyModule") ∧
   (build_special_module named kwargs w1).1
     = Raise (TypeError "got multiple values for argument class_name") ∧
   build_special_module named kwargs w1
     ≠ get_special_module (VStr "EmptyModule") [] (kwargs ++ params) w1).
Proof.
  intros kwargs no_special params named. split; [split; [reflexivity | discriminate]|].
  split; [|split; [reflexivity | split; [reflexivity | discriminate]]].
  intros k Hk. apply list_elem_of_singleton in Hk. subst k.
  intros Hp. apply list_elem_of_singleton in Hp. discriminate.
Qed.

End RegistryExamples.

(** ** Cyclic shift *)
Section ShiftFacts.
Import Py Shift.
Local Open Scope Z_scope.

Lemma length_roll {A} (s : Z) (l : list A) : length (roll s l) = length l.
Proof.
  unfold roll. destruct (Z.of_nat (length l) =? 0); [reflexivity|].
  rewrite length_app, length_drop, length_take. lia.
Qed.

Lemma roll_map {A B} (f : A -> B) (s : Z) (l : list A) :
  roll s (f <$> l) = f <$> roll s l.
Proof.
  unfold roll. rewrite length_fmap.
  destruct (Z.of_nat (length l) =? 0); [reflexivity|].
  by rewrite fmap_app, fmap_drop, fmap_take.
Qed.

(** Rotating by [k] and then by the rest of the length gives the list
    back. *)
Lemma drop_take_swap {A} (k : nat) (l : list A) :
  (k <= length l)%nat →
  let l1 := drop k l ++ take k l in
  drop (length l - k) l1 ++ take (length l - k) l1 = l.
Proof.
  intros Hk l1. subst l1.
  assert (Hlen : length (drop k l) = (length l - k)%nat) by apply length_drop.
  rewrite <- Hlen.
  rewrite drop_app_length, take_app_length.
  apply take_drop.
Qed.

Lemma roll_roll_back {A} (d : Z) (l : list A) : roll d (roll (- d) l) = l.
Proof.
  unfold roll at 1. rewrite length_roll.
  destruct (Z.of_nat (length l) =? 0) eqn:Hn.
  - unfold roll. by rewrite Hn.
  - unfold roll. rewrite Hn. apply Z.eqb_neq in Hn.
    set (n := Z.of_nat (length l)) in *.
    rewrite Z.opp_involutive.
    assert (Hn0 : 0 < n) by lia.
    pose proof (Z.mod_pos_bound d n Hn0) as Hd.
    destruct (decide (d mod n = 0)) as [Hz|Hnz].
    + assert (Hm : (- d) mod n = 0) by (by apply Z.mod_opp_l_z; [lia|]).
      rewrite Hz, Hm. cbn. by rewrite !app_nil_r.
    + assert (Hm : (- d) mod n = n - d mod n) by (apply Z.mod_opp_l_nz; lia).
      rewrite Hm.
      replace (Z.to_nat (n - d mod n)) with (length l - Z.to_nat (d mod n))%nat by lia.
      apply drop_take_swap. lia.
Qed.

Lemma roll_dims12_back {A} (d : Z) (x : tensor4 A) :
  roll_dims12 d d (roll_dims12 (- d) (- d) x) = x.
Proof.
  unfold roll_dims12. rewrite map_map.
  rewrite <- (map_id x) at 2. apply map_ext. intros img.
  change (map (roll (- d)) (roll (- d) img)) with (roll (- d) <$> roll (- d) img).
  rewrite roll_map, roll_roll_back.
  change (map (roll d) (roll (- d) <$> img)) with (roll d <$> (roll (- d) <$> img)).
  rewrite <- list_fmap_compose.
  rewrite <- (list_fmap_id img) at 2. apply list_fmap_ext.
  intros _ row _. cbn. apply roll_roll_back.
Qed.

(** C3. Rolling the two spatial axes by [-d] and then by [+d] gives the
    tensor back, for every displacement and every tensor; and a shifted
    [WindowAttention] holds exactly such a pair of shifts, by half the
    window size, so its back shift undoes its forward shift. *)
Theorem cyclic_shift_round_trip :
  (∀ (A : Type) (d : Z) (x : tensor4 A),
     CyclicShift_forward {| displacement := d |}
       (CyclicShift_forward {| displacement := - d |} x) = x) ∧
  (∀ dim heads head_dim window_size relative_pos_embedding self,
     WinAttn.WindowAttention_init dim heads head_dim true window_size relative_pos_embedding
       = Ok self →
     ∃ fwd back,
       WinAttn.cyclic_shift self = Some fwd ∧
       WinAttn.cyclic_back_shift self = Some back ∧
       displacement fwd = - (window_size `div` 2) ∧
       displacement back = window_size `div` 2 ∧
       ∀ (A : Type) (x : tensor4 A),
         CyclicShift_forward back (CyclicShift_forward fwd x) = x).
Proof.
  split.
  - intros A d x. apply roll_dims12_back.
  - intros dim heads head_dim ws rel self Hinit.
    apply WindowAttention_init_Ok in Hinit as (_ & qkv & pos & out & _ & _ & _ & ->).
    cbn.
    eexists _, _. repeat split. intros A x. apply roll_dims12_back.
Qed.

End ShiftFacts.

Lemma cyclic_shift_round_trip_witness :
  ∃ self fwd back,
    WinAttn.WindowAttention_init 8 2 4 true 2 true = Py.Ok self ∧
    WinAttn.cyclic_shift self = Some fwd ∧
    WinAttn.cyclic_back_shift self = Some back ∧
    Shift.CyclicShift_forward back
      (Shift.CyclicShift_forward fwd [[[[1]; [2]]; [[3]; [4]]]]%Z)
      = [[[[1]; [2]]; [[3]; [4]]]]%Z.
Proof.
  destruct (is_Ok_inv (WinAttn.WindowAttention_init 8 2 4 true 2 true))
    as [self Hself]; [reflexivity|].
  destruct (proj2 cyclic_shift_round_trip 8 2 4 2 true self Hself)%Z
    as (fwd & back & Hf & Hb & _ & _ & Hrt).
  exists self, fwd, back. repeat split; try assumption. apply Hrt.
Defined.

(** ** Relative position indices *)
Section RelPosFacts.
Import RelPos.
Local Open Scope Z_scope.

Lemma elem_of_indices window_size (p : Z * Z) :
  p ∈ indices window_size ↔ (0 ≤ p.1 < window_size ∧ 0 ≤ p.2 < window_size).
Proof.
  unfold indices, range. rewrite list_elem_of_In, in_flat_map. split.
  - intros (x & Hx & Hp). apply list_elem_of_In, elem_of_seqZ in Hx.
    apply list_elem_of_In, list_elem_of_fmap in Hp as (y & -> & Hy).
    apply elem_of_seqZ in Hy. cbn. lia.
  - intros [H1 H2]. exists p.1. split.
    + apply list_elem_of_In, elem_of_seqZ. lia.
    + apply list_elem_of_In, list_elem_of_fmap. exists p.2. split.
      * by destruct p.
      * apply elem_of_seqZ. lia.
Qed.

Lemma elem_of_get_relative_distances window_size row (p : Z * Z) :
  row ∈ get_relative_distances window_size → p ∈ row →
  ∃ a b, a ∈ indices window_size ∧ b ∈ indices window_size ∧
         p = (b.1 - a.1, b.2 - a.2).
Proof.
  unfold get_relative_distances. intros Hrow Hp.
  apply list_elem_of_fmap in Hrow as (a & -> & Ha).
  apply list_elem_of_fmap in Hp as (b & -> & Hb).
  by exists a, b.
Qed.

Lemma length_indices window_size :
  0 ≤ window_size → Z.of_nat (length (indices window_size)) = window_size * window_size.
Proof.
  intros Hws. unfold indices, range.
  assert (Hgen : ∀ l : list Z,
    length (flat_map (λ x, map (λ y, (x, y)) (seqZ 0 window_size)) l)
    = (length l * Z.to_nat window_size)%nat).
  { induction l as [|x l IH]; [reflexivity|].
    cbn [flat_map]. rewrite length_app, IH, length_map, length_seqZ. cbn. lia. }
  rewrite Hgen, length_seqZ. lia.
Qed.

(** Every stored number is far inside the 64-bit range, so the integer
    arithmetic of the tensors never wraps. *)
Lemma relative_indices_fit_int64 window_size row (p : Z * Z) :
  0 < window_size ≤ 2 ^ 62 →
  row ∈ relative_indices window_size → p ∈ row →
  fits_int64 p.1 ∧ fits_int64 p.2.
Proof.
  intros Hws Hrow Hp. unfold relative_indices in Hrow.
  apply list_elem_of_fmap in Hrow as (drow & -> & Hdrow).
  apply list_elem_of_fmap in Hp as (q & -> & Hq).
  destruct (elem_of_get_relative_distances _ _ _ Hdrow Hq) as (a & b & Ha & Hb & ->).
  apply elem_of_indices in Ha, Hb. unfold fits_int64. cbn. lia.
Qed.

(** C4. For a positive window size every relative offset computed by
    [get_relative_distances] lies in [-(window_size-1), window_size-1] on
    both axes, and every entry of [relative_indices], the offsets plus
    [window_size - 1], lies in [0, 2*window_size-2]: no negative index
    reaches the bias table. *)
Theorem relative_indices_in_range window_size :
  0 < window_size →
  (∀ row p, row ∈ get_relative_distances window_size → p ∈ row →
     - (window_size - 1) ≤ p.1 ≤ window_size - 1 ∧
     - (window_size - 1) ≤ p.2 ≤ window_size - 1) ∧
  (∀ row p, row ∈ relative_indices window_size → p ∈ row →
     0 ≤ p.1 ≤ 2 * window_size - 2 ∧ 0 ≤ p.2 ≤ 2 * window_size - 2).
Proof.
  intros Hws.
  assert (Hdist : ∀ row p, row ∈ get_relative_distances window_size → p ∈ row →
     - (window_size - 1) ≤ p.1 ≤ window_size - 1 ∧
     - (window_size - 1) ≤ p.2 ≤ window_size - 1).
  { intros row p Hrow Hp.
    destruct (elem_of_get_relative_distances _ _ _ Hrow Hp) as (a & b & Ha & Hb & ->).
    apply elem_of_indices in Ha, Hb. cbn. lia. }
  split; [exact Hdist|].
  intros row p Hrow Hp. unfold relative_indices in Hrow.
  apply list_elem_of_fmap in Hrow as (drow & -> & Hdrow).
  apply list_elem_of_fmap in Hp as (q & -> & Hq).
  specialize (Hdist drow q Hdrow Hq). cbn. lia.
Qed.

(** For window size 2 the offsets are exactly -1, 0 and 1 on each axis. *)
Example relative_offsets_window_2 :
  list_to_set (concat (get_relative_distances 2)).*1 = ({[ -1; 0; 1 ]} : gset Z) ∧
  list_to_set (concat (get_relative_distances 2)).*2 = ({[ -1; 0; 1 ]} : gset Z).
Proof. split; by vm_compute. Qed.

Lemma relative_indices_in_range_witness :
  0 < 2 ∧
  ∀ row p, row ∈ relative_indices 2 → p ∈ row → 0 ≤ p.1 ≤ 2 ∧ 0 ≤ p.2 ≤ 2.
Proof.
  split; [lia|].
  destruct (relative_indices_in_range 2) as [_ Hidx]; [lia|]. exact Hidx.
Defined.

End RelPosFacts.

(** ** Windowed attention: shapes *)
Section WinAttnShapeFacts.
Import Py WinAttn.
Local Open Scope Z_scope.

Lemma Linear_forward_4 l b n_h n_w c :
  c = in_features l →
  Linear_forward l [b; n_h; n_w; c] = Ok [b; n_h; n_w; out_features l].
Proof.
  intros ->. unfold Linear_forward. cbn [reverse rev_append].
  by rewrite Z.eqb_refl.
Qed.

Lemma chunk_sizes_3 k : 0 < k → chunk_sizes (k * 3) 3 = [k; k; k].
Proof.
  intros Hk. unfold chunk_sizes.
  replace ((k * 3 + 3 - 1) `div` 3) with k by (apply Z.div_unique with (r := 2); lia).
  destruct (k =? 0) eqn:Hk0; [lia|].
  rewrite Z.mul_comm, Z.div_mul, Z.mod_mul by lia. reflexivity.
Qed.

Lemma split_axis_divides len known :
  0 < known → (known | len) → split_axis len known = Ok (len `div` known).
Proof.
  intros Hk Hdiv. unfold split_axis.
  apply Z.mod_divide in Hdiv; [|lia].
  rewrite Hdiv. destruct (known =? 0) eqn:E; [lia|]. reflexivity.
Qed.

Lemma rearrange_windows_divides h w b n_h n_w c :
  0 < h → 0 < w → (w | n_h) → (w | n_w) → (h | c) →
  rearrange_windows h w w [b; n_h; n_w; c]
  = Ok [b; h; (n_h `div` w) * (n_w `div` w); w * w; c `div` h].
Proof.
  intros Hh Hw H1 H2 H3. unfold rearrange_windows.
  rewrite !split_axis_divides by assumption. reflexivity.
Qed.

Lemma einsum_qk_same b h w i d : einsum_qk [b; h; w; i; d] [b; h; w; i; d] = Ok [b; h; w; i; i].
Proof. unfold einsum_qk. by rewrite !Z.eqb_refl. Qed.

Lemma einsum_av_same b h w i d :
  einsum_av [b; h; w; i; i] [b; h; w; i; d] = Ok [b; h; w; i; d].
Proof. unfold einsum_av. by rewrite !Z.eqb_refl. Qed.

Lemma iadd_matrix_same b h w i : iadd_matrix [b; h; w; i; i] i i = Ok [b; h; w; i; i].
Proof. unfold iadd_matrix. cbn [reverse rev_append]. by rewrite !Z.eqb_refl. Qed.

Lemma rearrange_merge_same h w nw_h nw_w b d :
  rearrange_merge h w w nw_h nw_w [b; h; nw_h * nw_w; w * w; d]
  = Ok [b; nw_h * w; nw_w * w; h * d].
Proof. unfold rearrange_merge. by rewrite !Z.eqb_refl. Qed.

(** C5. A window attention built without shift and without relative
    position embedding maps an input of shape (batch, height, width, dim),
    height and width multiples of the window size, to an output of the same
    shape. *)
Theorem forward_shape_preserved dim heads head_dim window_size b n_h n_w :
  0 ≤ dim → 0 < heads → 0 < head_dim → 0 < window_size →
  (window_size | n_h) → (window_size | n_w) →
  ∃ self,
    WindowAttention_init dim heads head_dim false window_size false = Ok self ∧
    forward_shape self [b; n_h; n_w; dim] = Ok [b; n_h; n_w; dim].
Proof.
  intros Hdim Hheads Hhd Hws Hh Hw.
  assert (Hinner : 0 < head_dim * heads) by lia.
  eexists. split.
  - unfold WindowAttention_init.
    destruct (head_dim =? 0) eqn:E; [lia|]. cbn [mbind result_bind].
    unfold nn_Linear, new_tensor. cbn [forallb].
    replace (0 <=? head_dim * heads * 3) with true by lia.
    replace (0 <=? dim) with true by lia.
    replace (0 <=? window_size ^ 2) with true by lia.
    replace (0 <=? head_dim * heads) with true by lia.
    cbn [andb mbind result_bind]. reflexivity.
  - unfold forward_shape.
    cbn [shifted WinAttn.heads WinAttn.window_size to_qkv to_out relative_indices
         pos_embedding upper_lower_mask left_right_mask mbind result_bind unpack4].
    rewrite Linear_forward_4 by reflexivity. cbn [mbind result_bind out_features].
    unfold chunk_last. cbn [reverse rev_append].
    rewrite chunk_sizes_3 by lia. cbn [map mbind result_bind reverse rev_append].
    unfold floordiv. destruct (window_size =? 0) eqn:E; [lia|]. cbn [mbind result_bind].
    assert (Hd : (heads | head_dim * heads)) by (exists head_dim; reflexivity).
    cbn [mapM]. rewrite !rearrange_windows_divides by assumption.
    cbn [mbind result_bind mret result_ret].
    rewrite einsum_qk_same. cbn [mbind result_bind].
    unfold pos_bias_shape. cbn [relative_indices pos_embedding].
    rewrite Z.pow_2_r, iadd_matrix_same. cbn [mbind result_bind].
    rewrite einsum_av_same. cbn [mbind result_bind].
    rewrite rearrange_merge_same. cbn [mbind result_bind].
    rewrite Z.div_mul by lia.
    rewrite Linear_forward_4 by (cbn [in_features]; lia).
    cbn [out_features mbind result_bind].
    destruct Hh as [k1 ->], Hw as [k2 ->].
    rewrite !Z.div_mul by lia. reflexivity.
Qed.

Lemma forward_shape_preserved_witness :
  ∃ self,
    WindowAttention_init 96 3 32 false 7 false = Ok self ∧
    forward_shape self [5; 56; 56; 96] = Ok [5; 56; 56; 96].
Proof.
  apply (forward_shape_preserved 96 3 32 7 5 56 56); try lia.
  - exists 8. reflexivity.
  - exists 8. reflexivity.
Defined.

End WinAttnShapeFacts.

(** ** Windowed attention: where the shift masks go *)
Section MaskFacts.
Import Py WinAttn.
Local Open Scope Z_scope.

(** On a grid of [nw_h] rows of [nw_w] windows, [-nw_w:] is the bottom
    row. *)
Lemma in_slice_bottom_row nw_h nw_w w :
  0 < nw_h → 0 < nw_w → 0 ≤ w < nw_h * nw_w →
  in_slice (nw_h * nw_w) (Some (- nw_w)) None w = (w `div` nw_w =? nw_h - 1).
Proof.
  intros Hh Hw Hrange. unfold in_slice, norm_index.
  destruct (- nw_w <? 0) eqn:E; [|lia].
  pose proof (Z.div_mod w nw_w ltac:(lia)) as Hdm.
  pose proof (Z.mod_pos_bound w nw_w Hw) as Hm.
  set (q := w `div` nw_w) in *. set (r := w `mod` nw_w) in *.
  assert (Hq : 0 ≤ q < nw_h) by nia.
  destruct (q =? nw_h - 1) eqn:Eq.
  - apply andb_true_intro. split; apply Z.leb_le || apply Z.ltb_lt; nia.
  - apply andb_false_intro1. apply Z.leb_gt. nia.
Qed.

(** And [nw_w - 1::nw_w] is the right-most column. *)
Lemma in_strided_slice_right_column nw_h nw_w w :
  0 < nw_h → 0 < nw_w → 0 ≤ w < nw_h * nw_w →
  in_strided_slice (nw_h * nw_w) (nw_w - 1) nw_w w = (w `mod` nw_w =? nw_w - 1).
Proof.
  intros Hh Hw Hrange. unfold in_strided_slice, norm_index.
  destruct (nw_w - 1 <? 0) eqn:E; [lia|].
  replace (Z.min (nw_w - 1) (nw_h * nw_w)) with (nw_w - 1) by nia.
  pose proof (Z.div_mod w nw_w ltac:(lia)) as Hdm.
  pose proof (Z.mod_pos_bound w nw_w Hw) as Hm.
  replace (w - (nw_w - 1)) with (w + 1 + (-1) * nw_w) by lia.
  rewrite Z.mod_add by lia.
  destruct (w `mod` nw_w =? nw_w - 1) eqn:Er.
  - apply Z.eqb_eq in Er.
    assert (Hq : 0 ≤ w `div` nw_w) by (apply Z.div_pos; lia).
    assert (H1 : (w + 1) `mod` nw_w = 0).
    { replace (w + 1) with ((w `div` nw_w + 1) * nw_w) by nia. apply Z.mod_mul. lia. }
    rewrite H1. cbn.
    replace (nw_w - 1 <=? w) with true by (symmetry; apply Z.leb_le; nia).
    replace (w <? nw_h * nw_w) with true by (symmetry; apply Z.ltb_lt; lia).
    reflexivity.
  - apply Z.eqb_neq in Er.
    assert (H1 : (w + 1) `mod` nw_w ≠ 0).
    { intros H0. apply Er.
      replace (w + 1) with ((w `mod` nw_w + 1) + (w `div` nw_w) * nw_w) in H0 by lia.
      rewrite Z.mod_add in H0 by lia.
      destruct (decide (w `mod` nw_w + 1 = nw_w)) as [|Hne]; [lia|].
      rewrite Z.mod_small in H0 by lia. lia. }
    apply Z.eqb_neq in H1. rewrite H1. by rewrite andb_false_r.
Qed.

(** Decide every comparison of the goal and let [lia] drop the cases that
    cannot happen. *)
Ltac case_comparisons :=
  repeat match goal with
         | |- context [(?a <=? ?b)%Z] => destruct (Z.leb_spec a b); try lia
         end;
  repeat match goal with
         | |- context [(?a <? ?b)%Z] => destruct (Z.ltb_spec a b); try lia
         end;
  reflexivity.

Lemma mask_entry_zeros (n : Z) (i j : nat) :
  Z.of_nat i < n → Z.of_nat j < n → mask_entry (zeros n n) i j = Some Zero.
Proof.
  intros Hi Hj. unfold mask_entry, zeros.
  rewrite lookup_replicate_2 by lia. cbn.
  apply lookup_replicate_2. lia.
Qed.

Lemma mask_entry_fill rows cols (m : mask) (i j : nat) :
  mask_entry (fill_neg_inf rows cols m) i j
  = (λ x, if rows (Z.of_nat i) && cols (Z.of_nat j) then NegInf else x) <$> mask_entry m i j.
Proof.
  unfold mask_entry, fill_neg_inf. rewrite list_lookup_imap.
  destruct (m !! i) as [row|]; cbn; [|reflexivity].
  apply list_lookup_imap.
Qed.

(** The entries of the two masks, for a displacement between 0 and the
    window size. Position [i] of a window is in row [i / window_size] and
    column [i mod window_size] of the window. The upper-lower mask is
    [-inf] exactly between the last [displacement] rows and the other
    rows, the left-right mask exactly between the last [displacement]
    columns and the other columns. *)
Lemma create_mask_entries (window_size displacement : Z) (i j : nat) :
  0 < window_size → 0 ≤ displacement ≤ window_size →
  Z.of_nat i < window_size ^ 2 → Z.of_nat j < window_size ^ 2 →
  let last_rows (k : nat) := window_size ^ 2 - displacement * window_size <=? Z.of_nat k in
  let last_cols (k : nat) := window_size - displacement <=? Z.of_nat k `mod` window_size in
  mask_entry (create_mask window_size displacement true false) i j
    = Some (if xorb (last_rows i) (last_rows j) then NegInf else Zero) ∧
  mask_entry (create_mask window_size displacement false true) i j
    = Some (if xorb (last_cols i) (last_cols j) then NegInf else Zero).
Proof.
  intros Hws Hd Hi Hj last_rows last_cols. subst last_rows last_cols. cbv beta.
  unfold create_mask. rewrite !mask_entry_fill, mask_entry_zeros by assumption.
  cbn [fmap option_fmap option_map].
  rewrite Z.pow_2_r in *.
  assert (Hdw : 0 ≤ displacement * window_size ≤ window_size * window_size) by nia.
  pose proof (Z.mod_pos_bound (Z.of_nat i) window_size Hws) as Hmi.
  pose proof (Z.mod_pos_bound (Z.of_nat j) window_size Hws) as Hmj.
  split; f_equal.
  - unfold in_slice, norm_index.
    destruct (decide (displacement = 0)) as [->|Hd0].
    + replace (- 0 * window_size) with 0 by lia. cbn [Z.ltb Z.compare].
      case_comparisons.
    + destruct (- displacement * window_size <? 0) eqn:E; [|nia].
      destruct (Z.max_spec (- displacement * window_size + window_size * window_size) 0)
        as [[Hneg _]|[_ ->]]; [lia|].
      case_comparisons.
  - unfold in_slice, norm_index.
    destruct (decide (displacement = 0)) as [->|Hd0].
    + replace (- 0) with 0 by lia. cbn [Z.ltb Z.compare].
      rewrite Z.min_l by lia.
      case_comparisons.
    + destruct (- displacement <? 0) eqn:E; [|lia].
      destruct (Z.max_spec (- displacement + window_size) 0) as [[Hneg _]|[_ ->]]; [lia|].
      case_comparisons.
Qed.

Lemma imap_imap_same {A} (f g : nat → A → A) (l : list A) :
  imap g (imap f l) = imap (λ i x, g i (f i x)) l.
Proof.
  apply list_eq. intros i. rewrite !list_lookup_imap. by destruct (l !! i).
Qed.

Section Placement.
Context {X : Type} (add_mask : X → mask → X).

(** C9, as the code has it. In a shifted window attention the
    upper-lower mask is added to the last [nw_w] windows, which are the
    bottom row of the window grid, and the left-right mask to every
    [nw_w]-th window from offset [nw_w - 1], the right-most column, where
    [nw_w] is the number of windows per row (width // window_size), not the
    window size. *)
Theorem shift_masks_placement dim heads head_dim window_size rel self nw_h nw_w
    (dots : list (list (list X))) :
  WindowAttention_init dim heads head_dim true window_size rel = Ok self →
  0 < nw_h → 0 < nw_w →
  Forall (Forall (λ windows, Z.of_nat (length windows) = nw_h * nw_w)) dots →
  upper_lower_mask self = Some (create_mask window_size (window_size `div` 2) true false) ∧
  left_right_mask self = Some (create_mask window_size (window_size `div` 2) false true) ∧
  add_shift_masks add_mask self nw_w dots
    = Ok (map (map (imap (mask_window add_mask self nw_h nw_w))) dots).
Proof.
  intros Hinit Hh Hw Hlen.
  apply WindowAttention_init_Ok in Hinit as (_ & qkv & pos & out & _ & _ & _ & ->).
  split; [reflexivity|]. split; [reflexivity|].
  unfold add_shift_masks, mask_window. cbn [shifted upper_lower_mask left_right_mask].
  destruct (nw_w <=? 0) eqn:E; [lia|]. f_equal.
  unfold iadd_windows. rewrite map_map.
  apply map_ext_Forall, (Forall_impl _ _ _ Hlen). clear Hlen.
  intros per_head Hlen. cbn beta. rewrite map_map.
  apply map_ext_Forall, (Forall_impl _ _ _ Hlen). clear Hlen.
  intros windows Hlen. cbn beta.
  rewrite length_imap, imap_imap_same. apply imap_ext.
  intros w x Hwx. apply lookup_lt_Some in Hwx. rewrite Hlen.
  rewrite in_slice_bottom_row, in_strided_slice_right_column by lia.
  reflexivity.
Qed.

End Placement.

(** Worded with the window size, the masks would go on the last
    [window_size] windows and on every [window_size]-th window. On a 6x6
    map with windows of size 2 there are three windows per row: the forward
    pass adds the upper-lower mask to windows 6, 7, 8 and the left-right
    mask to windows 2, 5, 8, where the wording gives 7, 8 and 1, 3, 5, 7. *)
Lemma shift_masks_not_by_window_size :
  let window_size := 2 in
  let nw_h := 6 `div` window_size in
  let nw_w := 6 `div` window_size in
  ∃ self ul lr windows,
    WindowAttention_init 4 1 4 true window_size false = Ok self ∧
    upper_lower_mask self = Some ul ∧
    left_right_mask self = Some lr ∧
    add_shift_masks (λ x m, m :: x) self nw_w [[replicate (Z.to_nat (nw_h * nw_w)) []]]
      = Ok [[windows]] ∧
    windows_given ul windows = [6; 7; 8] ∧
    windows_given lr windows = [2; 5; 8] ∧
    claimed_upper_lower_windows (nw_h * nw_w) window_size = [7; 8] ∧
    claimed_left_right_windows (nw_h * nw_w) window_size = [1; 3; 5; 7] ∧
    windows_given ul windows ≠ claimed_upper_lower_windows (nw_h * nw_w) window_size ∧
    windows_given lr windows ≠ claimed_left_right_windows (nw_h * nw_w) window_size.
Proof.
  cbv zeta. eexists _, _, _, _.
  split; [vm_compute; reflexivity|].
  split; [reflexivity|]. split; [reflexivity|].
  split; [vm_compute; reflexivity|].
  repeat split; try (vm_compute; reflexivity); vm_compute; discriminate.
Qed.

End MaskFacts.

Lemma shift_masks_placement_witness :
  ∃ self dots',
    WinAttn.WindowAttention_init 4 1 4 true 2 false = Py.Ok self ∧
    WinAttn.add_shift_masks (λ x m, m :: x) self 3 [[replicate 9 []]] = Py.Ok dots' ∧
    map (map (map length)) dots' = [[[0; 0; 1; 0; 0; 1; 1; 1; 2]]]%nat.
Proof.
  destruct (is_Ok_inv (WinAttn.WindowAttention_init 4 1 4 true 2 false))
    as [self Hself]; [reflexivity|].
  destruct (shift_masks_placement (λ x m, m :: x) 4 1 4 2 false self 3 3
              [[replicate 9 []]] Hself)%Z as (Hul & Hlr & Hadd); [lia | lia | |].
  { repeat constructor. }
  eexists self, _. split; [exact Hself|]. split; [exact Hadd|].
  unfold WinAttn.mask_window. rewrite Hul, Hlr. reflexivity.
Defined.

(** The two masks for windows of size 2 (displacement 1): positions 2, 3
    of a window are cut off from positions 0, 1 by the upper-lower mask, odd
    positions from even ones by the left-right mask. *)
Example create_mask_window_2 :
  let o := WinAttn.Zero in
  let x := WinAttn.NegInf in
  WinAttn.create_mask 2 1 true false
    = [[o; o; x; x]; [o; o; x; x]; [x; x; o; o]; [x; x; o; o]] ∧
  WinAttn.create_mask 2 1 false true
    = [[o; x; o; x]; [x; o; x; o]; [o; x; o; x]; [x; o; x; o]].
Proof. split; reflexivity. Qed.

(** ** Paraphraser *)
Section ParaphraserFacts.
Import Paraphraser.
Context {Tensor LayerState : Type}.
Context (layer_forward : layer_kind → bool → LayerState → Tensor → Tensor * LayerState).

Abbreviation run := (Sequential_forward layer_forward).

Lemma training_train mode (self : Paraphraser4FactorTransfer LayerState) :
  training (train mode self) = mode.
Proof. reflexivity. Qed.

(** C6. In training mode [forward] returns the decoder applied to the
    encoder's output; in evaluation mode it returns the encoder's output
    alone, which is the encoder-only path on the same input. *)
Theorem paraphraser_forward_modes (self : Paraphraser4FactorTransfer LayerState) (z : Tensor) :
  (training self = true →
     (forward layer_forward self z).1 = (run (decoder self) (run (encoder self) z).1).1) ∧
  (training self = false →
     (forward layer_forward self z).1 = (run (encoder self) z).1) ∧
  (forward layer_forward (eval self) z).1 = (run (encoder (eval self)) z).1 ∧
  (forward layer_forward (train true self) z).1
    = (run (decoder (train true self)) (run (encoder (train true self)) z).1).1.
Proof.
  assert (Htrain : ∀ p : Paraphraser4FactorTransfer LayerState, training p = true →
    (forward layer_forward p z).1 = (run (decoder p) (run (encoder p) z).1).1).
  { intros p Hp. unfold forward. rewrite Hp.
    destruct (run (encoder p) z) as [f enc]. cbn [fst].
    by destruct (run (decoder p) f) as [y dec]. }
  assert (Heval : ∀ p : Paraphraser4FactorTransfer LayerState, training p = false →
    (forward layer_forward p z).1 = (run (encoder p) z).1).
  { intros p Hp. unfold forward. rewrite Hp.
    by destruct (run (encoder p) z) as [f enc]. }
  split; [apply Htrain|]. split; [apply Heval|]. split.
  - apply Heval. reflexivity.
  - apply Htrain. reflexivity.
Qed.

End ParaphraserFacts.

Section ParaphraserExample.
Import Paraphraser Examples.

Lemma paraphraser_forward_modes_witness :
  (forward trace_layer p0 []).1
    = [("conv", true); ("lrelu", true); ("conv", true); ("lrelu", true);
       ("conv", true); ("lrelu", true);
       ("deconv", true); ("lrelu", true); ("deconv", true); ("lrelu", true);
       ("deconv", true); ("lrelu", true)] ∧
  (forward trace_layer (eval p0) []).1
    = [("conv", false); ("lrelu", false); ("conv", false); ("lrelu", false);
       ("conv", false); ("lrelu", false)].
Proof.
  destruct (paraphraser_forward_modes trace_layer p0 []) as (Htrain & _ & _ & _).
  destruct (paraphraser_forward_modes trace_layer (eval p0) []) as (_ & Heval & _ & _).
  split.
  - rewrite Htrain; reflexivity.
  - rewrite Heval; reflexivity.
Defined.

End ParaphraserExample.

(** ** Normalizer of contrastive representation distillation *)
Section NormalizerFacts.
Import Py CRD.
Local Open Scope R_scope.












End NormalizerFacts.



(** ** Wrappers built without a model *)
Section MissingModelFacts.
Import Py Wrappers.
Context (wrap_if_distributed : pyval → pyval → pyval → pyval → result pyval).
Context (redesign_model : pyval → pyval → string → string → result pyval).
Context (get_transform : pyval → result pyval).

Lemma M_bind_Ok {A B} (m : M A) (k : A → M B) (h : heap) (r : B * heap) :
  (m ≫= k) h = Ok r → ∃ a h1, m h = Ok (a, h1) ∧ k a h1 = Ok r.
Proof.
  unfold mbind, M_bind. destruct (m h) as [[a h1]|e]; [eauto | discriminate].
Qed.

Lemma lift_Ok {A} (r : result A) (h : heap) (a : A) (h' : heap) :
  lift r h = Ok (a, h') → r = Ok a ∧ h' = h.
Proof. unfold lift. destruct r; [|discriminate]. intros [= -> ->]. done. Qed.

(** C8, on the code. [HeadRCNN] given neither model raises its
    [ValueError], whose message names the two arguments, before touching
    anything else. [Linear4CCKD] and [AttnEmbed] have no such check: given
    neither model they take the student branch and hand [None] to
    [wrap_if_distributed], which starts by moving its argument to the
    device; what the caller sees is the [AttributeError] of [None.to], and
    its message names neither argument. *)
Theorem missing_model_check :
  (∀ device device_ids distributed,
     wrap_if_distributed VNone device device_ids distributed
       = Raise (AttributeError "'NoneType' object has no attribute 'to'")) →
  (∀ head_rcnn kwargs,
     dict_lookup "teacher_model" kwargs = None ∨
       dict_lookup "teacher_model" kwargs = Some VNone →
     dict_lookup "student_model" kwargs = None ∨
       dict_lookup "student_model" kwargs = Some VNone →
     ∃ e, HeadRCNN_init redesign_model get_transform head_rcnn kwargs = Raise e ∧
          e = ValueError "Either student_model or teacher_model has to be given." ∧
          names_missing_model e = true) ∧
  (∀ input_module linear_params device device_ids distributed h,
     ∃ e, Linear4CCKD_init wrap_if_distributed input_module linear_params
            device device_ids distributed VNone VNone h = Raise e ∧
          e = AttributeError "'NoneType' object has no attribute 'to'" ∧
          names_missing_model e = false) ∧
  (∀ embedings device device_ids distributed h,
     ∃ e, AttnEmbed_init wrap_if_distributed embedings
            device device_ids distributed VNone VNone h = Raise e ∧
          e = AttributeError "'NoneType' object has no attribute 'to'" ∧
          names_missing_model e = false).
Proof.
  intros Hwrap. split; [|split].
  - intros head_rcnn kwargs Ht Hs. eexists. split; [|split; reflexivity].
    unfold HeadRCNN_init, kwargs_get.
    by destruct Ht as [->| ->], Hs as [->| ->].
  - intros input_module linear_params device device_ids distributed h.
    eexists. split; [|split; reflexivity].
    unfold Linear4CCKD_init. cbn [is_None negb].
    unfold mbind at 1, M_bind at 1, lift. by rewrite Hwrap.
  - intros embedings device device_ids distributed h.
    eexists. split; [|split; reflexivity].
    unfold AttnEmbed_init. cbn [is_None negb].
    unfold mbind at 1, M_bind at 1, lift. by rewrite Hwrap.
Qed.

End MissingModelFacts.

Lemma missing_model_check_witness :
  let input_module := Py.VDict [("path", Py.VStr "fc"); ("io", Py.VStr "output")] in
  let linear_params := Py.VDict [("in_features", Py.VInt 4); ("out_features", Py.VInt 2)] in
  Wrappers.Linear4CCKD_init Wrappers.wrap_local input_module linear_params
    (Py.VStr "cpu") Py.VNone (Py.VBool false) Py.VNone Py.VNone (Wrappers.empty_heap 0)
  = Py.Raise (Py.AttributeError "'NoneType' object has no attribute 'to'") ∧
  Wrappers.HeadRCNN_init (λ _ _ _ _, Py.Ok Py.VNone) (λ _, Py.Ok Py.VNone) Py.VNone []
  = Py.Raise (Py.ValueError "Either student_model or teacher_model has to be given.").
Proof.
  intros input_module linear_params.
  destruct (missing_model_check Wrappers.wrap_local (λ _ _ _ _, Py.Ok Py.VNone)
              (λ _, Py.Ok Py.VNone)) as (Hhead & Hlinear & _); [reflexivity|].
  split.
  - destruct (Hlinear input_module linear_params (Py.VStr "cpu") Py.VNone (Py.VBool false)
                (Wrappers.empty_heap 0)) as (e & -> & -> & _).
    reflexivity.
  - destruct (Hhead Py.VNone []) as (e & -> & -> & _); [by left | by left |].
    reflexivity.
Defined.

(** ** Student-side [AttnEmbed] and keys without 'query' or 'value' *)
Section AttnEmbedFacts.
Import Py Wrappers.
Context (wrap_if_distributed : pyval → pyval → pyval → pyval → result pyval).
Context (device device_ids distributed : pyval).

Abbreviation body := (AttnEmbed_loop_body wrap_if_distributed false device device_ids distributed).
Abbreviation loop := (AttnEmbed_loop wrap_if_distributed false device device_ids distributed).

Lemma dict_lookup_set_eq k v (d : dict) : dict_lookup k (dict_set k v d) = Some v.
Proof.
  induction d as [|[k' v'] d IH]; cbn.
  - by rewrite String.eqb_refl.
  - destruct (String.eqb k k') eqn:E; cbn; rewrite ?String.eqb_refl, ?E; done.
Qed.

Lemma dict_lookup_set_ne k k' v (d : dict) :
  k ≠ k' → dict_lookup k' (dict_set k v d) = dict_lookup k' d.
Proof.
  intros Hne. induction d as [|[k1 v1] d IH]; cbn.
  - destruct (String.eqb k' k) eqn:E; [|done]. apply String.eqb_eq in E. congruence.
  - destruct (String.eqb k k1) eqn:E; cbn.
    + apply String.eqb_eq in E. subst k1.
      destruct (String.eqb k' k) eqn:E'; [|done]. apply String.eqb_eq in E'. congruence.
    + by rewrite IH.
Qed.

(** One round of the loop on the student path that came to its end. *)
Lemma body_Ok k params st h st' h' :
  body (k, params) st h = Ok (st', h') →
  ∃ e, embed st' = Some e ∧
       cur_embed_dict st' = dict_set k e (cur_embed_dict st) ∧
       (contains "query" k = false → contains "value" k = false →
        embed st = Some e ∧ h' = h).
Proof.
  unfold AttnEmbed_loop_body. intros H.
  apply M_bind_Ok in H as (oe & h1 & Hembed & H).
  destruct oe as [e|]; [|discriminate].
  apply M_bind_Ok in H as (io & h2 & Hio & H).
  apply M_bind_Ok in H as (path & h3 & Hpath & H).
  apply lift_Ok in Hio as [_ ->]. apply lift_Ok in Hpath as [_ ->].
  injection H as <- <-. exists e. cbn. split; [reflexivity|]. split; [reflexivity|].
  intros Hq Hv. rewrite Hq, Hv in Hembed. by injection Hembed as -> ->.
Qed.

Lemma loop_app items1 items2 st h r :
  loop (items1 ++ items2) st h = Ok r →
  ∃ st1 h1, loop items1 st h = Ok (st1, h1) ∧ loop items2 st1 h1 = Ok r.
Proof.
  revert st h. induction items1 as [|item items1 IH]; intros st h H.
  - by exists st, h.
  - cbn [app AttnEmbed_loop] in H |- *.
    apply M_bind_Ok in H as (st0 & h0 & Hbody & H).
    apply IH in H as (st1 & h1 & H1 & H2).
    exists st1, h1. split; [|exact H2].
    unfold mbind, M_bind. by rewrite Hbody.
Qed.

(** Later rounds leave the entries of other keys alone. *)
Lemma loop_other_keys items st h st' h' k :
  loop items st h = Ok (st', h') → k ∉ keys items →
  dict_lookup k (cur_embed_dict st') = dict_lookup k (cur_embed_dict st).
Proof.
  revert st h. induction items as [|[k1 p1] items IH]; intros st h H Hk.
  - by injection H as <- <-.
  - cbn [AttnEmbed_loop] in H.
    apply M_bind_Ok in H as (st0 & h0 & Hbody & H).
    cbn in Hk. apply not_elem_of_cons in Hk as [Hne Hk].
    rewrite (IH _ _ H Hk).
    apply body_Ok in Hbody as (e & _ & -> & _).
    apply dict_lookup_set_ne. congruence.
Qed.

(** C10. On the student path (no teacher model), with the student model
    wrapped without error: if the first key of [embedings] contains
    neither 'query' nor 'value', construction fails with an unbound local
    variable; and if such a key comes later and construction succeeds, the
    module stored under it is the very object stored under the key before
    it, and that round created no module. *)
Theorem attn_embed_key_without_query_or_value student_model wrapped_student :
  wrap_if_distributed student_model device device_ids distributed = Ok wrapped_student →
  (∀ k params rest h,
     contains "query" k = false → contains "value" k = false →
     AttnEmbed_init wrap_if_distributed (VDict ((k, params) :: rest))
       device device_ids distributed VNone student_model h
     = Raise (UnboundLocalError "embed")) ∧
  (∀ before k0 params0 k params after h self h',
     NoDup (keys (before ++ (k0, params0) :: (k, params) :: after)) →
     contains "query" k = false → contains "value" k = false →
     AttnEmbed_init wrap_if_distributed
       (VDict (before ++ (k0, params0) :: (k, params) :: after))
       device device_ids distributed VNone student_model h
     = Ok (self, h') →
     ∃ e st h1,
       dict_lookup k0 (embed_dict self) = Some e ∧
       dict_lookup k (embed_dict self) = Some e ∧
       loop (before ++ [(k0, params0)])
            {| embed := None; cur_embed_dict := []; cur_io_path_pairs := [] |} h
         = Ok (st, h1) ∧
       embed st = Some e ∧
       ∃ st', body (k, params) st h1 = Ok (st', h1)).
Proof.
  intros Hwrap. split.
  - intros k params rest h Hq Hv.
    unfold AttnEmbed_init. cbn [is_None negb].
    unfold mbind at 1, M_bind at 1, lift at 1. rewrite Hwrap.
    unfold mbind, M_bind, mret, M_ret. cbn [AttnEmbed_loop].
    unfold mbind, M_bind, AttnEmbed_loop_body.
    rewrite Hq, Hv. reflexivity.
  - intros before k0 params0 k params after h self h' Hnd Hq Hv Hinit.
    unfold AttnEmbed_init in Hinit. cbn [is_None negb] in Hinit.
    apply M_bind_Ok in Hinit as (sm & h0 & Hsm & Hinit).
    apply lift_Ok in Hsm as [_ ->].
    apply M_bind_Ok in Hinit as (items & h0 & Hitems & Hinit).
    injection Hitems as <- <-.
    apply M_bind_Ok in Hinit as (st_end & h_end & Hloop & Hinit).
    injection Hinit as <- <-. cbn [embed_dict].
    replace (before ++ (k0, params0) :: (k, params) :: after)
      with ((before ++ [(k0, params0)]) ++ (k, params) :: after) in Hloop, Hnd
      by (by rewrite <- app_assoc).
    apply loop_app in Hloop as (st & h1 & Hpre & Hrest).
    pose proof Hpre as Hpre'.
    apply loop_app in Hpre' as (st_a & h_a & _ & Hk0).
    cbn [AttnEmbed_loop] in Hk0.
    apply M_bind_Ok in Hk0 as (st_b & h_b & Hbody0 & Hret).
    injection Hret as -> ->.
    apply body_Ok in Hbody0 as (e & He & Hdict0 & _).
    cbn [AttnEmbed_loop] in Hrest.
    apply M_bind_Ok in Hrest as (st_c & h_c & Hbody & Hafter).
    pose proof Hbody as Hbody'.
    apply body_Ok in Hbody' as (e' & He' & Hdict & Hsame).
    destruct (Hsame Hq Hv) as [Heq ->].
    assert (e' = e) as -> by congruence.
    rewrite keys_app in Hnd. cbn in Hnd.
    apply NoDup_app in Hnd as (Hnd1 & Hdisj & Hnd2).
    apply NoDup_cons in Hnd2 as [Hk_after _].
    assert (Hk0_in : k0 ∈ keys (before ++ [(k0, params0)])).
    { rewrite keys_app. apply elem_of_app. right. cbn. apply list_elem_of_here. }
    assert (Hk0_after : k0 ∉ keys after).
    { intros Hin. apply (Hdisj k0 Hk0_in). by apply list_elem_of_further. }
    assert (Hne : k ≠ k0).
    { intros ->. apply (Hdisj k0 Hk0_in). apply list_elem_of_here. }
    exists e, st, h1.
    rewrite (loop_other_keys _ _ _ _ _ k0 Hafter Hk0_after).
    rewrite (loop_other_keys _ _ _ _ _ k Hafter Hk_after).
    rewrite Hdict. rewrite dict_lookup_set_ne by exact Hne.
    rewrite dict_lookup_set_eq, Hdict0, dict_lookup_set_eq.
    repeat split; try assumption. by exists st_c.
Qed.

End AttnEmbedFacts.

Section AttnEmbedExample.
Import Py Wrappers Examples.

Lemma attn_embed_key_without_query_or_value_witness :
  AttnEmbed_init wrap_local (VDict [("attn_layer4", embed_params)])
    (VStr "cpu") VNone (VBool false) VNone student (empty_heap 1)
  = Raise (UnboundLocalError "embed") ∧
  ∃ self h' e,
    AttnEmbed_init wrap_local (VDict [("query_layer4", embed_params); ("attn_layer4", embed_params)])
      (VStr "cpu") VNone (VBool false) VNone student (empty_heap 1)
    = Ok (self, h') ∧
    dict_lookup "query_layer4" (embed_dict self) = Some e ∧
    dict_lookup "attn_layer4" (embed_dict self) = Some e.
Proof.
  destruct (attn_embed_key_without_query_or_value wrap_local
              (VStr "cpu") VNone (VBool false) student student eq_refl)
    as [Hfirst Hlater].
  split.
  - apply Hfirst; reflexivity.
  - destruct (is_Ok_inv
      (AttnEmbed_init wrap_local (VDict [("query_layer4", embed_params); ("attn_layer4", embed_params)])
         (VStr "cpu") VNone (VBool false) VNone student (empty_heap 1)))
      as [[self h'] Hinit]; [reflexivity|].
    destruct (Hlater [] "query_layer4" embed_params "attn_layer4" embed_params [] (empty_heap 1) self h')
      as (e & _ & _ & Hk0 & Hk & _); [compute_done | reflexivity | reflexivity | exact Hinit |].
    exists self, h', e. repeat split; assumption.
Defined.

End AttnEmbedExample.

(** * Further properties *)

(** ** Registry: overwriting and malformed configurations *)
Section RegistryMore.
Import Py Registry.
Context {Instance : Type}.
Implicit Types (w : world Instance) (cls : class Instance).

(** X1. Registering a second class under a name already taken replaces
    the first one silently: a lookup by that name constructs the second
    class. A class registered under another name leaves the first one in
    place. *)
Theorem register_last_wins cls1 cls2 w args kwargs :
  let w2 := (register_special_module cls2 (register_special_module cls1 w).2).2 in
  (cls_name cls1 = cls_name cls2 →
     get_special_module (VStr (cls_name cls1)) args kwargs w2
       = (Some <$> cls_init cls2 args kwargs, with_call cls2 args kwargs w2)) ∧
  (cls_name cls1 ≠ cls_name cls2 →
     get_special_module (VStr (cls_name cls1)) args kwargs w2
       = (Some <$> cls_init cls1 args kwargs, with_call cls1 args kwargs w2)).
Proof.
  intros w2. split; intros Hname; unfold get_special_module, registry_find; subst w2; cbn.
  - rewrite Hname, lookup_insert_eq. reflexivity.
  - rewrite lookup_insert_ne by congruence. rewrite lookup_insert_eq. reflexivity.
Qed.

(** X3. A configuration that is off the schema: a [special] entry that
    is [None], a boolean, a number, a string or a list raises
    [AttributeError] (none of them has a [get]); a [type] that is a list or
    a mapping raises [TypeError] (it cannot be hashed); a [type] that is a
    number or a boolean is looked up like an unknown name and gives [None]
    with a log entry. *)
Theorem build_off_schema w kwargs :
  (∀ d v, dict_lookup "special" d = Some v →
     (∀ sd, v ≠ VDict sd) → (∀ id, v ≠ VObj id) →
     build_special_module (VDict d) kwargs w = (Raise (AttributeError "get"), w)) ∧
  (∀ model_config ty merged, requests model_config ty kwargs merged →
     ((∃ l, ty = VList l) ∨ (∃ d, ty = VDict d)) →
     build_special_module model_config kwargs w = (Raise (TypeError "unhashable type"), w)) ∧
  (∀ model_config ty merged, requests model_config ty kwargs merged →
     ((∃ b, ty = VBool b) ∨ (∃ n, ty = VInt n)) →
     build_special_module model_config kwargs w = (Ok None, with_log ty w)).
Proof.
  split; [|split].
  - intros d v Hv Hnd _. unfold build_special_module. cbn. rewrite Hv.
    destruct v; try reflexivity. by destruct (Hnd d0).
  - intros cfg ty merged Hreq Hty. rewrite (build_requested _ _ _ _ _ Hreq).
    by destruct Hty as [[l ->]|[d ->]].
  - intros cfg ty merged Hreq Hty. rewrite (build_requested _ _ _ _ _ Hreq).
    by destruct Hty as [[b ->]|[n ->]].
Qed.

(** X4. No special module can be given a keyword called [class_name]
    through a build: whether it comes from the caller or from
    [special.params], the call fails with a [TypeError] and nothing is
    looked up or built. *)
Theorem build_rejects_class_name w model_config kwargs special_model_config ty p :
  py_get model_config "special" (VDict []) = Ok special_model_config →
  py_get special_model_config "type" VNone = Ok ty → is_None ty = false →
  special_params special_model_config = Ok (VDict p) →
  "class_name" ∈ keys kwargs ++ keys p →
  ∃ msg, build_special_module model_config kwargs w = (Raise (TypeError msg), w).
Proof.
  intros Hs Ht Hn Hp Hin. unfold build_special_module.
  rewrite Hs. cbn [mbind result_bind]. rewrite Ht. cbn [mbind result_bind].
  rewrite Hn. cbn [negb]. rewrite Hp. cbn [mbind result_bind].
  unfold special_call_kwargs, merge_kwargs.
  destruct (first_collision kwargs p) as [k|]; cbn [mbind result_bind]; [eauto|].
  rewrite <- keys_app in Hin. apply has_key_spec in Hin. rewrite Hin. eauto.
Qed.

End RegistryMore.

Section RegistryMoreExamples.
Import Py Registry Examples MoreExamples.

Lemma register_last_wins_witness :
  let w2 := (register_special_module Replacement
               (register_special_module EmptyModule initial_world).2).2 in
  let w3 := (register_special_module Other
               (register_special_module EmptyModule initial_world).2).2 in
  (get_special_module (VStr "EmptyModule") [] [] w2).1 = Ok (Some "Replacement") ∧
  (get_special_module (VStr "EmptyModule") [] [] w3).1 = Ok (Some "EmptyModule").
Proof.
  intros w2 w3. split.
  - destruct (register_last_wins EmptyModule Replacement initial_world [] []) as [H _].
    exact (f_equal fst (H eq_refl)).
  - destruct (register_last_wins EmptyModule Other initial_world [] []) as [_ H].
    refine (f_equal fst (H _)). discriminate.
Defined.

Lemma build_off_schema_witness :
  build_special_module (VDict [("special", VNone)]) [] w1 = (Raise (AttributeError "get"), w1) ∧
  build_special_module (VDict [("special", VDict [("type", VList [VStr "EmptyModule"])])]) [] w1
    = (Raise (TypeError "unhashable type"), w1) ∧
  build_special_module (VDict [("special", VDict [("type", VInt 3)])]) [] w1
    = (Ok None, with_log (VInt 3) w1).
Proof.
  destruct (build_off_schema w1 []) as (Hattr & Hlist & Hint).
  split; [|split].
  - apply (Hattr _ VNone); [reflexivity | discriminate | discriminate].
  - apply (Hlist _ (VList [VStr "EmptyModule"]) []).
    + eexists. repeat split; reflexivity.
    + left. by eexists.
  - apply (Hint _ (VInt 3) []).
    + eexists. repeat split; reflexivity.
    + right. by eexists.
Defined.

Lemma build_rejects_class_name_witness :
  ∃ msg,
    build_special_module
      (VDict [("special", VDict [("type", VStr "EmptyModule");
                                 ("params", VDict [("class_name", VStr "x")])])]) [] w1
    = (Raise (TypeError msg), w1).
Proof.
  eapply (build_rejects_class_name w1 _ [] _ (VStr "EmptyModule") [("class_name", VStr "x")]);
    try reflexivity.
  apply list_elem_of_here.
Defined.

End RegistryMoreExamples.

(** ** Cyclic shift: where elements go, composition, nothing lost *)
Section ShiftMore.
Import Shift.
Local Open Scope Z_scope.

(** Position [i] of a rolled list holds what was at [(i - shift) mod n]. *)
Lemma lookup_roll {A} (s : Z) (l : list A) (i : nat) :
  (i < length l)%nat →
  roll s l !! i = l !! Z.to_nat ((Z.of_nat i - s) `mod` Z.of_nat (length l)).
Proof.
  intros Hi. unfold roll.
  destruct (Z.of_nat (length l) =? 0) eqn:Hn; [lia|]. apply Z.eqb_neq in Hn.
  set (n := Z.of_nat (length l)) in *.
  assert (Hn0 : 0 < n) by lia.
  pose proof (Z.mod_pos_bound (- s) n Hn0) as Hk.
  set (K := (- s) `mod` n) in *.
  assert (Hmod : (Z.of_nat i - s) `mod` n = (Z.of_nat i + K) `mod` n).
  { unfold K. rewrite Zplus_mod_idemp_r. f_equal; lia. }
  rewrite Hmod.
  destruct (decide (Z.of_nat i + K < n)) as [Hlt|Hge].
  - rewrite lookup_app_l by (rewrite length_drop; lia).
    rewrite lookup_drop, Z.mod_small by lia. f_equal. lia.
  - rewrite lookup_app_r by (rewrite length_drop; lia).
    rewrite length_drop, lookup_take_lt by lia.
    replace ((Z.of_nat i + K) `mod` n) with (Z.of_nat i + K - n)
      by (apply Z.mod_unique with (q := 1); lia).
    f_equal. lia.
Qed.

Lemma roll_add {A} (a b : Z) (l : list A) : roll a (roll b l) = roll (a + b) l.
Proof.
  apply list_eq. intros i.
  destruct (decide (i < length l)%nat) as [Hi|Hi].
  - assert (Hn0 : 0 < Z.of_nat (length l)) by lia.
    rewrite lookup_roll by (by rewrite length_roll).
    rewrite length_roll.
    pose proof (Z.mod_pos_bound (Z.of_nat i - a) (Z.of_nat (length l)) Hn0) as Hb.
    rewrite lookup_roll by lia. rewrite lookup_roll by lia.
    rewrite Z2Nat.id by lia. rewrite Zminus_mod_idemp_l.
    by replace (Z.of_nat i - a - b) with (Z.of_nat i - (a + b)) by lia.
  - rewrite !lookup_ge_None_2; [done | |]; rewrite ?length_roll; lia.
Qed.

Lemma roll_Permutation {A} (s : Z) (l : list A) : roll s l ≡ₚ l.
Proof.
  unfold roll. destruct (Z.of_nat (length l) =? 0); [reflexivity|].
  rewrite Permutation_app_comm. by rewrite take_drop.
Qed.

Lemma roll_multiple {A} (q : Z) (l : list A) :
  roll (q * Z.of_nat (length l)) l = l.
Proof.
  unfold roll. destruct (Z.of_nat (length l) =? 0) eqn:Hn; [reflexivity|].
  apply Z.eqb_neq in Hn.
  replace (- (q * Z.of_nat (length l))) with ((- q) * Z.of_nat (length l)) by lia.
  rewrite Z.mod_mul by lia. cbn. by rewrite app_nil_r.
Qed.

(** X5. [CyclicShift] moves by wrap-around: in the output, row [i] and
    column [j] of a batch entry hold what the input had at row
    [(i - d) mod height] and column [(j - d) mod width]. *)
Theorem cyclic_shift_lookup {A} (self : CyclicShift) (x : tensor4 A) (b i j : nat)
    (img : list (list (list A))) (row : list (list A)) :
  x !! b = Some img →
  (i < length img)%nat →
  img !! Z.to_nat ((Z.of_nat i - displacement self) `mod` Z.of_nat (length img)) = Some row →
  (j < length row)%nat →
  ∃ img' row',
    CyclicShift_forward self x !! b = Some img' ∧ img' !! i = Some row' ∧
    row' !! j
    = row !! Z.to_nat ((Z.of_nat j - displacement self) `mod` Z.of_nat (length row)).
Proof.
  intros Hb Hi Hrow Hj. unfold CyclicShift_forward, roll_dims12, tensor4 in *.
  exists (map (roll (displacement self)) (roll (displacement self) img)),
         (roll (displacement self) row).
  split; [|split].
  - change (map ?f x) with (f <$> x). by rewrite list_lookup_fmap, Hb.
  - change (map ?f ?l) with (f <$> l).
    by rewrite list_lookup_fmap, lookup_roll, Hrow.
  - by apply lookup_roll.
Qed.

(** X6. Shifts add up: shifting by [d2] and then by [d1] is the shift by
    [d1 + d2]; and a shift by a multiple of the length of an axis leaves
    that axis as it was. *)
Theorem cyclic_shift_compose {A} :
  (∀ (d1 d2 : Z) (x : tensor4 A),
     CyclicShift_forward {| displacement := d1 |}
       (CyclicShift_forward {| displacement := d2 |} x)
     = CyclicShift_forward {| displacement := d1 + d2 |} x) ∧
  (∀ (q : Z) (l : list A), roll (q * Z.of_nat (length l)) l = l).
Proof.
  split; [|apply roll_multiple].
  intros d1 d2 x. unfold CyclicShift_forward, roll_dims12. cbn [displacement].
  rewrite map_map. apply map_ext. intros img.
  change (map ?f ?l) with (f <$> l).
  rewrite roll_map, roll_add, <- list_fmap_compose.
  apply list_fmap_ext. intros _ row _. cbn. apply roll_add.
Qed.

(** X7. A cyclic shift only rearranges: every batch entry keeps its
    number of rows; its rows keep their lengths, up to the order of the
    rows, so that a map whose rows all have length [W] still has rows of
    length [W]; and its positions, taken together, are a permutation of the
    ones that went in (wrap-around, nothing padded, nothing dropped). *)
Theorem cyclic_shift_permutes {A} (self : CyclicShift) (x : tensor4 A) :
  Forall2 (λ img' img,
             length img' = length img ∧
             map length img' ≡ₚ map length img ∧
             (∀ W, Forall (λ row, length row = W) img →
                   Forall (λ row, length row = W) img') ∧
             concat img' ≡ₚ concat img)
          (CyclicShift_forward self x) x.
Proof.
  unfold CyclicShift_forward, roll_dims12.
  apply Forall2_fmap_l, Forall_Forall2_diag, Forall_forall. intros img _.
  assert (Hlen : map length (map (roll (displacement self)) (roll (displacement self) img))
                 ≡ₚ map length img).
  { rewrite map_map.
    rewrite (map_ext _ length) by (intros row; apply length_roll).
    apply Permutation_map, roll_Permutation. }
  split; [|split; [exact Hlen|split]].
  - by rewrite length_map, length_roll.
  - intros W HW. apply Forall_forall. intros row Hrow.
    apply (list_elem_of_fmap_2 length) in Hrow.
    change (length <$> ?l) with (map length l) in Hrow.
    rewrite Hlen in Hrow. apply list_elem_of_fmap in Hrow as (row0 & -> & Hin).
    by apply (proj1 (Forall_forall _ _) HW).
  - transitivity (concat (roll (displacement self) img)).
    + generalize (roll (displacement self) img). intros rows.
      induction rows as [|row rows IH]; [reflexivity|].
      cbn. by rewrite roll_Permutation, IH.
    + by rewrite roll_Permutation.
Qed.

End ShiftMore.

Lemma cyclic_shift_lookup_witness :
  ∃ img' row',
    Shift.CyclicShift_forward {| Shift.displacement := -1 |}
      [[[[1]; [2]; [3]]; [[4]; [5]; [6]]]]%Z !! 0%nat = Some img' ∧
    img' !! 0%nat = Some row' ∧ row' !! 2%nat = Some [4%Z].
Proof.
  destruct (cyclic_shift_lookup {| Shift.displacement := -1 |}
              [[[[1]; [2]; [3]]; [[4]; [5]; [6]]]]%Z 0 0 2
              [[[1]; [2]; [3]]; [[4]; [5]; [6]]]%Z [[4]; [5]; [6]]%Z)
    as (img' & row' & H1 & H2 & H3); try reflexivity; try (cbn; lia).
  exists img', row'. repeat split; assumption.
Defined.

Lemma cyclic_shift_permutes_witness :
  Forall (λ row : list (list Z), length row = 3%nat)
         (map (Shift.roll (-1)) (Shift.roll (-1) [[[1]; [2]; [3]]; [[4]; [5]; [6]]]%Z)).
Proof.
  pose proof (cyclic_shift_permutes {| Shift.displacement := -1 |}
                [[[[1]; [2]; [3]]; [[4]; [5]; [6]]]]%Z) as H.
  apply Forall2_cons_1 in H as [(_ & _ & HW & _) _].
  apply HW. repeat constructor.
Defined.

(** ** Relative position indices: closed form *)
Section RelPosMore.
Import RelPos Table.
Local Open Scope Z_scope.

Lemma lookup_pairs {A B} (xs : list A) (ys : list B) (a b : nat) x y :
  xs !! a = Some x → ys !! b = Some y →
  flat_map (λ x, map (λ y, (x, y)) ys) xs !! (a * length ys + b)%nat = Some (x, y).
Proof.
  revert a. induction xs as [|x0 xs IH]; intros a Hx Hy; [done|].
  pose proof (lookup_lt_Some _ _ _ Hy) as Hb.
  cbn [flat_map]. destruct a as [|a].
  - injection Hx as ->. cbn [Nat.mul Nat.add].
    rewrite lookup_app_l by (by rewrite length_map).
    change (map ?f ys) with (f <$> ys). by rewrite list_lookup_fmap, Hy.
  - rewrite lookup_app_r by (rewrite length_map; lia).
    rewrite length_map.
    replace (S a * length ys + b - length ys)%nat with (a * length ys + b)%nat by lia.
    by apply IH.
Qed.

Lemma lookup_indices window_size (i : nat) :
  0 < window_size → Z.of_nat i < window_size * window_size →
  indices window_size !! i
  = Some (Z.of_nat i `div` window_size, Z.of_nat i `mod` window_size).
Proof.
  intros Hws Hi. unfold indices, range.
  pose proof (Z.div_mod (Z.of_nat i) window_size ltac:(lia)) as Hdm.
  pose proof (Z.mod_pos_bound (Z.of_nat i) window_size Hws) as Hm.
  assert (Hq : 0 ≤ Z.of_nat i `div` window_size < window_size).
  { split; [apply Z.div_pos; lia | apply Z.div_lt_upper_bound; lia]. }
  replace i with (Z.to_nat (Z.of_nat i `div` window_size) * length (seqZ 0 window_size)
                  + Z.to_nat (Z.of_nat i `mod` window_size))%nat at 1
    by (rewrite length_seqZ; nia).
  apply lookup_pairs.
  - rewrite lookup_seqZ_lt by lia. f_equal. lia.
  - rewrite lookup_seqZ_lt by lia. f_equal. lia.
Qed.

Lemma at2_map {A B} (f : A → B) (t : list (list A)) (i j : nat) :
  at2 (map (map f) t) i j = f <$> at2 t i j.
Proof.
  unfold at2. change (map (map f) t) with (map f <$> t).
  rewrite list_lookup_fmap. destruct (t !! i) as [row|]; [|reflexivity].
  cbn. change (map f row) with (f <$> row). apply list_lookup_fmap.
Qed.

Lemma get_relative_distances_at window_size (i j : nat) :
  0 < window_size →
  Z.of_nat i < window_size * window_size → Z.of_nat j < window_size * window_size →
  at2 (get_relative_distances window_size) i j
  = Some (Z.of_nat j `div` window_size - Z.of_nat i `div` window_size,
          Z.of_nat j `mod` window_size - Z.of_nat i `mod` window_size).
Proof.
  intros Hws Hi Hj. unfold at2, get_relative_distances.
  change (map ?f ?l) with (f <$> l).
  rewrite list_lookup_fmap, lookup_indices by assumption. cbn.
  rewrite list_lookup_fmap, lookup_indices by assumption. reflexivity.
Qed.

(** X8. The index table has [window_size^2] rows of [window_size^2]
    entries, and entry [i][j] is the difference of the window coordinates
    of positions [j] and [i], row then column, each moved up by
    [window_size - 1]. *)
Theorem relative_indices_closed_form window_size :
  0 < window_size →
  Z.of_nat (length (relative_indices window_size)) = window_size * window_size ∧
  Forall (λ row, Z.of_nat (length row) = window_size * window_size)
         (relative_indices window_size) ∧
  ∀ i j : nat,
    Z.of_nat i < window_size * window_size → Z.of_nat j < window_size * window_size →
    at2 (relative_indices window_size) i j
    = Some (Z.of_nat j `div` window_size - Z.of_nat i `div` window_size + window_size - 1,
            Z.of_nat j `mod` window_size - Z.of_nat i `mod` window_size + window_size - 1).
Proof.
  intros Hws. unfold relative_indices, get_relative_distances.
  split; [|split].
  - rewrite !length_map. apply length_indices. lia.
  - apply Forall_forall. intros row Hrow.
    apply list_elem_of_fmap in Hrow as (drow & -> & Hdrow).
    apply list_elem_of_fmap in Hdrow as (a & -> & _).
    rewrite !length_map. apply length_indices. lia.
  - intros i j Hi Hj.
    change (map (λ a : Z * Z, map (λ b : Z * Z, (b.1 - a.1, b.2 - a.2)) (indices window_size))
                (indices window_size)) with (get_relative_distances window_size).
    by rewrite at2_map, get_relative_distances_at.
Qed.

(** X9. The offsets are antisymmetric, [distances[j][i] = -distances[i][j]],
    and zero on the diagonal; so a position and itself always read the
    centre entry [(window_size - 1, window_size - 1)] of the bias table. *)
Theorem relative_distances_antisymmetric window_size (i j : nat) :
  0 < window_size →
  Z.of_nat i < window_size * window_size → Z.of_nat j < window_size * window_size →
  ∃ d : Z * Z,
    at2 (get_relative_distances window_size) i j = Some d ∧
    at2 (get_relative_distances window_size) j i = Some (- d.1, - d.2) ∧
    at2 (get_relative_distances window_size) i i = Some (0, 0) ∧
    at2 (relative_indices window_size) i i = Some (window_size - 1, window_size - 1).
Proof.
  intros Hws Hi Hj. eexists. split; [by apply get_relative_distances_at|].
  split; [|split].
  - rewrite get_relative_distances_at by assumption. cbn. f_equal. f_equal; lia.
  - rewrite get_relative_distances_at by assumption. f_equal. f_equal; lia.
  - unfold relative_indices.
    rewrite at2_map, get_relative_distances_at by assumption. cbn. f_equal. f_equal; lia.
Qed.

End RelPosMore.

Lemma relative_indices_closed_form_witness :
  Table.at2 (RelPos.relative_indices 7) 3 10 = Some (7, 6)%Z.
Proof.
  destruct (relative_indices_closed_form 7) as (_ & _ & Hat); [lia|].
  rewrite Hat by lia. reflexivity.
Defined.

Lemma relative_distances_antisymmetric_witness :
  ∃ d : Z * Z,
    Table.at2 (RelPos.get_relative_distances 2) 1 2 = Some d ∧
    Table.at2 (RelPos.get_relative_distances 2) 2 1 = Some (- d.1, - d.2)%Z.
Proof.
  destruct (relative_distances_antisymmetric 2 1 2) as (d & H1 & H2 & _); try lia.
  exists d. by split.
Defined.

(** ** Shift masks: size, entries, symmetry *)
Section MaskMore.
Import Py WinAttn.
Local Open Scope Z_scope.

Lemma fill_neg_inf_dims rows cols (m : mask) (n : nat) :
  length m = n ∧ Forall (λ row, length row = n) m →
  length (fill_neg_inf rows cols m) = n ∧
  Forall (λ row, length row = n) (fill_neg_inf rows cols m).
Proof.
  intros [Hlen Hrows]. unfold fill_neg_inf. split; [by rewrite length_imap|].
  apply Forall_forall. intros row Hrow.
  apply list_elem_of_lookup in Hrow as [i Hi].
  rewrite list_lookup_imap in Hi.
  destruct (m !! i) as [row0|] eqn:Hm; [|discriminate].
  injection Hi as <-. rewrite length_imap.
  rewrite Forall_forall in Hrows. apply Hrows.
  apply list_elem_of_lookup. eauto.
Qed.

Lemma create_mask_dims window_size displacement upper_lower left_right :
  let m := create_mask window_size displacement upper_lower left_right in
  length m = Z.to_nat (window_size ^ 2) ∧
  Forall (λ row, length row = Z.to_nat (window_size ^ 2)) m.
Proof.
  cbv zeta. unfold create_mask.
  assert (Hz : length (zeros (window_size ^ 2) (window_size ^ 2)) = Z.to_nat (window_size ^ 2) ∧
               Forall (λ row, length row = Z.to_nat (window_size ^ 2))
                      (zeros (window_size ^ 2) (window_size ^ 2))).
  { unfold zeros. split; [apply length_replicate|].
    apply Forall_replicate, length_replicate. }
  destruct upper_lower, left_right; repeat apply fill_neg_inf_dims; exact Hz.
Qed.

Lemma mask_shape_create_mask window_size displacement upper_lower left_right :
  0 < window_size →
  mask_shape (create_mask window_size displacement upper_lower left_right)
  = (window_size * window_size, window_size * window_size).
Proof.
  intros Hws.
  destruct (create_mask_dims window_size displacement upper_lower left_right) as [Hlen Hrows].
  unfold mask_shape. rewrite Z.pow_2_r in *.
  destruct (create_mask _ _ _ _) as [|row m]; cbn in Hlen |- *; [nia|].
  apply Forall_cons in Hrows as [Hrow _]. f_equal; nia.
Qed.

(** X10. For a displacement from 0 to the window size both masks are
    square tables of side [window_size^2]. With position [i] of a window in
    row [i / window_size] and column [i mod window_size], the upper-lower
    mask is [-inf] exactly between the last [displacement] rows and the
    other rows, the left-right mask exactly between the last
    [displacement] columns and the other columns; every other entry is
    zero. *)
Theorem shift_mask_entries (window_size displacement : Z) (upper : bool) (i j : nat) :
  0 < window_size → 0 ≤ displacement ≤ window_size →
  Z.of_nat i < window_size ^ 2 → Z.of_nat j < window_size ^ 2 →
  let m := create_mask window_size displacement upper (negb upper) in
  let cut (k : nat) :=
    if upper then window_size ^ 2 - displacement * window_size <=? Z.of_nat k
    else window_size - displacement <=? Z.of_nat k `mod` window_size in
  Z.of_nat (length m) = window_size ^ 2 ∧
  Forall (λ row, Z.of_nat (length row) = window_size ^ 2) m ∧
  mask_entry m i j = Some (if xorb (cut i) (cut j) then NegInf else Zero).
Proof.
  intros Hws Hd Hi Hj m cut. subst m cut.
  destruct (create_mask_dims window_size displacement upper (negb upper)) as [Hlen Hrows].
  split; [lia|]. split.
  - eapply Forall_impl; [exact Hrows|]. cbn. intros row ->. lia.
  - destruct (create_mask_entries window_size displacement i j Hws Hd Hi Hj) as [Hul Hlr].
    destruct upper; cbn [negb]; assumption.
Qed.

Lemma create_mask_symmetric (window_size displacement : Z) (upper_lower left_right : bool)
    (i j : nat) :
  0 < window_size → 0 ≤ displacement ≤ window_size →
  Z.of_nat i < window_size ^ 2 → Z.of_nat j < window_size ^ 2 →
  xorb upper_lower left_right = true →
  let m := create_mask window_size displacement upper_lower left_right in
  mask_entry m i j = mask_entry m j i ∧ mask_entry m i i = Some Zero.
Proof.
  intros Hws Hd Hi Hj Hx m. subst m.
  destruct (create_mask_entries window_size displacement i j Hws Hd Hi Hj) as [Hul Hlr].
  destruct (create_mask_entries window_size displacement j i Hws Hd Hj Hi) as [Hul' Hlr'].
  destruct (create_mask_entries window_size displacement i i Hws Hd Hi Hi) as [Hul0 Hlr0].
  cbv zeta in *.
  destruct upper_lower, left_right; try discriminate; split.
  - rewrite Hul, Hul'. by rewrite xorb_comm.
  - rewrite Hul0. by rewrite xorb_nilpotent.
  - rewrite Hlr, Hlr'. by rewrite xorb_comm.
  - rewrite Hlr0. by rewrite xorb_nilpotent.
Qed.

(** X11. The two masks of a shifted [WindowAttention] are symmetric and
    zero on the diagonal: a position is never cut off from itself, so no
    row of a mask is [-inf] throughout and every softmax row keeps a finite
    logit. *)
Theorem shift_masks_symmetric dim heads head_dim window_size rel self (i j : nat) :
  WindowAttention_init dim heads head_dim true window_size rel = Ok self →
  0 < window_size →
  Z.of_nat i < window_size ^ 2 → Z.of_nat j < window_size ^ 2 →
  ∃ ul lr,
    upper_lower_mask self = Some ul ∧ left_right_mask self = Some lr ∧
    mask_entry ul i j = mask_entry ul j i ∧ mask_entry ul i i = Some Zero ∧
    mask_entry lr i j = mask_entry lr j i ∧ mask_entry lr i i = Some Zero.
Proof.
  intros Hinit Hws Hi Hj.
  apply WindowAttention_init_Ok in Hinit as (_ & qkv & pos & out & _ & _ & _ & ->).
  assert (Hhalf : 0 ≤ window_size `div` 2 ≤ window_size).
  { split; [apply Z.div_pos; lia | apply Z.div_le_upper_bound; lia]. }
  eexists _, _. split; [reflexivity|]. split; [reflexivity|].
  destruct (create_mask_symmetric window_size (window_size `div` 2) true false i j)
    as [H1 H2]; try done.
  destruct (create_mask_symmetric window_size (window_size `div` 2) false true i j)
    as [H3 H4]; done.
Qed.

End MaskMore.

Lemma shift_mask_entries_witness :
  WinAttn.mask_entry (WinAttn.create_mask 7 3 true false) 30 5 = Some WinAttn.NegInf ∧
  WinAttn.mask_entry (WinAttn.create_mask 7 3 false true) 30 9 = Some WinAttn.Zero.
Proof.
  split.
  - destruct (shift_mask_entries 7 3 true 30 5) as (_ & _ & H); try lia; exact H.
  - destruct (shift_mask_entries 7 3 false 30 9) as (_ & _ & H); try lia; exact H.
Defined.

Lemma shift_masks_symmetric_witness :
  ∃ self ul,
    WinAttn.WindowAttention_init 4 1 4 true 2 false = Py.Ok self ∧
    WinAttn.upper_lower_mask self = Some ul ∧
    WinAttn.mask_entry ul 3 0 = WinAttn.mask_entry ul 0 3 ∧
    WinAttn.mask_entry ul 3 3 = Some WinAttn.Zero.
Proof.
  destruct (is_Ok_inv (WinAttn.WindowAttention_init 4 1 4 true 2 false))
    as [self Hself]; [reflexivity|].
  destruct (shift_masks_symmetric 4 1 4 2 false self 3 0 Hself)%Z
    as (ul & lr & Hul & _ & Hsym & Hdiag & _); try lia.
  exists self, ul. repeat split; assumption.
Defined.

(** ** Windowed attention: construction and forward in every mode *)
Section WinAttnMore.
Import Py WinAttn.
Local Open Scope Z_scope.

Lemma new_tensor_Ok (sh : shape) :
  Forall (λ d, 0 ≤ d) sh → new_tensor sh = Ok sh.
Proof.
  intros H. unfold new_tensor.
  replace (forallb (λ d, 0 <=? d) sh) with true; [reflexivity|].
  symmetry. apply forallb_forall. intros d Hd.
  rewrite Forall_forall in H. apply Z.leb_le, H. by apply list_elem_of_In.
Qed.

Lemma new_tensor_is_Ok (sh : shape) :
  is_Ok (new_tensor sh) = true ↔ Forall (λ d, 0 ≤ d) sh.
Proof.
  split.
  - unfold new_tensor. destruct (forallb _ sh) eqn:E; [|discriminate]. intros _.
    apply Forall_forall. intros d Hd. apply Z.leb_le.
    rewrite forallb_forall in E. apply E. by apply list_elem_of_In.
  - intros H. by rewrite new_tensor_Ok.
Qed.

Lemma WindowAttention_init_is_Ok dim heads head_dim shifted window_size rel :
  head_dim ≠ 0 → 0 ≤ dim → 0 ≤ head_dim * heads → (rel = true → 1 ≤ window_size) →
  is_Ok (WindowAttention_init dim heads head_dim shifted window_size rel) = true.
Proof.
  intros Hhd Hd Hi Hrel. unfold WindowAttention_init.
  destruct (head_dim =? 0) eqn:E; [lia|]. cbn [mbind result_bind].
  unfold nn_Linear.
  rewrite (new_tensor_Ok [head_dim * heads * 3; dim])
    by (repeat constructor; lia). cbn [mbind result_bind].
  assert (Hpos : ∃ pos, (if rel
            then new_tensor [2 * window_size - 1; 2 * window_size - 1]
            else new_tensor [window_size ^ 2; window_size ^ 2]) = Ok pos).
  { destruct rel.
    - specialize (Hrel eq_refl). eexists. apply new_tensor_Ok. repeat constructor; lia.
    - eexists. apply new_tensor_Ok. repeat constructor; lia. }
  destruct Hpos as [pos ->]. cbn [mbind result_bind].
  rewrite (new_tensor_Ok [dim; head_dim * heads]) by (repeat constructor; lia).
  reflexivity.
Qed.

(** X12. With a positive window size when shifted, a window attention
    can be constructed exactly when the head dimension is not zero, [dim]
    and [head_dim * heads] are not negative and, with relative position
    embedding, the window size is at least 1. A zero head dimension raises
    [ZeroDivisionError] (from [head_dim ** -0.5]) before anything else is
    looked at. *)
Theorem WindowAttention_init_succeeds_iff dim heads head_dim shifted window_size rel :
  (shifted = true → 0 < window_size) →
  (is_Ok (WindowAttention_init dim heads head_dim shifted window_size rel) = true ↔
   head_dim ≠ 0 ∧ 0 ≤ dim ∧ 0 ≤ head_dim * heads ∧ (rel = true → 1 ≤ window_size)) ∧
  (head_dim = 0 →
   WindowAttention_init dim heads head_dim shifted window_size rel = Raise ZeroDivisionError).
Proof.
  intros _. split.
  - split.
    + intros H. apply is_Ok_inv in H as [self H].
      apply WindowAttention_init_Ok in H as (Hhd & qkv & pos & out & Hq & Hp & Ho & _).
      unfold nn_Linear in Hq, Ho.
      apply bind_Ok in Hq as (sq & Hq & _). apply bind_Ok in Ho as (so & Ho & _).
      assert (Hq' : is_Ok (new_tensor [head_dim * heads * 3; dim]) = true) by (by rewrite Hq).
      assert (Ho' : is_Ok (new_tensor [dim; head_dim * heads]) = true) by (by rewrite Ho).
      apply new_tensor_is_Ok in Hq', Ho'.
      apply Forall_cons in Ho' as [Hd Ho']. apply Forall_cons in Ho' as [Hi _].
      repeat split; try assumption.
      intros ->.
      assert (Hp' : is_Ok (new_tensor [2 * window_size - 1; 2 * window_size - 1]) = true)
        by (by rewrite Hp).
      apply new_tensor_is_Ok in Hp'. apply Forall_cons in Hp' as [Hw _]. lia.
    + intros (Hhd & Hd & Hi & Hrel). by apply WindowAttention_init_is_Ok.
  - intros ->. reflexivity.
Qed.

Lemma relative_indices_shape window_size :
  0 < window_size →
  (Z.of_nat (length (RelPos.relative_indices window_size)),
   match RelPos.relative_indices window_size with
   | row :: _ => Z.of_nat (length row)
   | [] => 0
   end) = (window_size * window_size, window_size * window_size).
Proof.
  intros Hws. unfold RelPos.relative_indices, RelPos.get_relative_distances.
  pose proof (length_indices window_size ltac:(lia)) as Hlen.
  rewrite !length_map, Hlen. f_equal.
  destruct (RelPos.indices window_size) as [|a l] eqn:E; [cbn in Hlen; nia|].
  cbn [List.map length] in Hlen |- *. rewrite !length_map. exact Hlen.
Qed.

(** The steps of [forward] up to the three rearranged projections, on a
    well-formed input. *)
Lemma forward_shape_Ok dim heads head_dim window_size shifted rel b n_h n_w :
  0 ≤ dim → 0 < heads → 0 < head_dim → 0 < window_size →
  (window_size | n_h) → (window_size | n_w) →
  (shifted = true → 0 < n_w) →
  ∃ self,
    WindowAttention_init dim heads head_dim shifted window_size rel = Ok self ∧
    forward_shape self [b; n_h; n_w; dim] = Ok [b; n_h; n_w; dim].
Proof.
  intros Hdim Hheads Hhd Hws Hh Hw Hnw.
  assert (Hinner : 0 < head_dim * heads) by lia.
  destruct (is_Ok_inv (WindowAttention_init dim heads head_dim shifted window_size rel))
    as [self Hself].
  { apply WindowAttention_init_is_Ok; lia. }
  exists self. split; [exact Hself|].
  apply WindowAttention_init_Ok in Hself as (_ & qkv & pos & out & Hq & Hp & Ho & ->).
  unfold nn_Linear in Hq, Ho.
  apply bind_Ok in Hq as (sq & _ & [= <-]). apply bind_Ok in Ho as (so & _ & [= <-]).
  unfold forward_shape.
  cbn [WinAttn.shifted WinAttn.heads WinAttn.window_size to_qkv to_out relative_indices
       pos_embedding upper_lower_mask left_right_mask].
  assert (Hroll : ∀ sh4 : Z, (if shifted then roll_shape [b; n_h; n_w; sh4]
                             else Ok [b; n_h; n_w; sh4]) = Ok [b; n_h; n_w; sh4])
    by (by destruct shifted).
  rewrite Hroll. cbn [mbind result_bind unpack4].
  rewrite Linear_forward_4 by reflexivity. cbn [mbind result_bind out_features].
  unfold chunk_last. cbn [reverse rev_append].
  rewrite chunk_sizes_3 by lia. cbn [map mbind result_bind reverse rev_append].
  unfold floordiv. destruct (window_size =? 0) eqn:E; [lia|]. cbn [mbind result_bind].
  assert (Hd : (heads | head_dim * heads)) by (exists head_dim; reflexivity).
  cbn [mapM]. rewrite !rearrange_windows_divides by assumption.
  cbn [mbind result_bind mret result_ret].
  rewrite einsum_qk_same. cbn [mbind result_bind].
  assert (Hbias : pos_bias_shape
            {| WinAttn.heads := heads; scale_head_dim := head_dim;
               WinAttn.window_size := window_size; relative_pos_embedding := rel;
               WinAttn.shifted := shifted;
               cyclic_shift := if shifted
                 then Some {| Shift.displacement := - (window_size `div` 2) |} else None;
               cyclic_back_shift := if shifted
                 then Some {| Shift.displacement := window_size `div` 2 |} else None;
               upper_lower_mask := if shifted
                 then Some (create_mask window_size (window_size `div` 2) true false) else None;
               left_right_mask := if shifted
                 then Some (create_mask window_size (window_size `div` 2) false true) else None;
               to_qkv := {| in_features := dim; out_features := head_dim * heads * 3;
                            bias := false |};
               relative_indices :=
                 if rel then Some (RelPos.relative_indices window_size) else None;
               pos_embedding := pos;
               to_out := {| in_features := head_dim * heads; out_features := dim;
                            bias := true |} |}
          = (window_size * window_size, window_size * window_size)).
  { unfold pos_bias_shape. cbn [relative_indices pos_embedding].
    destruct rel.
    - by apply relative_indices_shape.
    - unfold new_tensor in Hp. destruct (forallb _ _); [|discriminate].
      injection Hp as <-. by rewrite Z.pow_2_r. }
  rewrite Hbias, iadd_matrix_same. cbn [mbind result_bind].
  destruct shifted.
  - cbv iota. rewrite !mask_shape_create_mask by assumption.
    rewrite iadd_matrix_same. cbn [mbind result_bind].
    assert (Hpos : (n_w `div` window_size <=? 0) = false).
    { specialize (Hnw eq_refl). destruct Hw as [k ->].
      rewrite Z.div_mul by lia. apply Z.leb_gt. nia. }
    rewrite Hpos, iadd_matrix_same. cbn [mbind result_bind].
    rewrite einsum_av_same. cbn [mbind result_bind].
    rewrite rearrange_merge_same. cbn [mbind result_bind].
    rewrite Z.div_mul by lia.
    rewrite Linear_forward_4 by (cbn [in_features]; lia).
    cbn [out_features mbind result_bind roll_shape].
    destruct Hh as [k1 ->], Hw as [k2 ->].
    rewrite !Z.div_mul by lia. reflexivity.
  - cbn [mbind result_bind].
    rewrite einsum_av_same. cbn [mbind result_bind].
    rewrite rearrange_merge_same. cbn [mbind result_bind].
    rewrite Z.div_mul by lia.
    rewrite Linear_forward_4 by (cbn [in_features]; lia).
    cbn [out_features mbind result_bind].
    destruct Hh as [k1 ->], Hw as [k2 ->].
    rewrite !Z.div_mul by lia. reflexivity.
Qed.

(** X13. In every mode (shifted or not, relative or absolute position
    bias) a window attention with positive heads, head dimension and
    window size maps an input of shape (batch, height, width, dim), height
    and width positive multiples of the window size, to an output of the
    same shape. *)
Theorem forward_shape_every_mode dim heads head_dim window_size shifted rel b n_h n_w :
  0 ≤ dim → 0 < heads → 0 < head_dim → 0 < window_size →
  0 < n_h → 0 < n_w → (window_size | n_h) → (window_size | n_w) →
  ∃ self,
    WindowAttention_init dim heads head_dim shifted window_size rel = Ok self ∧
    forward_shape self [b; n_h; n_w; dim] = Ok [b; n_h; n_w; dim].
Proof. intros. by apply forward_shape_Ok. Qed.

End WinAttnMore.

Lemma WindowAttention_init_succeeds_iff_witness :
  Py.is_Ok (WinAttn.WindowAttention_init 96 3 32 true 7 true) = true ∧
  WinAttn.WindowAttention_init 4 8 0 true 7 true = Py.Raise Py.ZeroDivisionError.
Proof.
  split.
  - apply WindowAttention_init_succeeds_iff; [lia|]. repeat split; lia.
  - by apply WindowAttention_init_succeeds_iff; [lia|].
Defined.

Lemma forward_shape_every_mode_witness :
  ∃ self,
    WinAttn.WindowAttention_init 512 8 64 true 7 true = Py.Ok self ∧
    WinAttn.forward_shape self [2; 14; 14; 512]%Z = Py.Ok [2; 14; 14; 512]%Z.
Proof.
  apply (forward_shape_every_mode 512 8 64 7 true true 2 14 14)%Z; try lia.
  - by exists 2%Z.
  - by exists 2%Z.
Defined.

(** ** Windowed attention and [Embed]: inputs and parameters that are refused *)
Section WinAttnErrors.
Import Py WinAttn.
Local Open Scope Z_scope.

Lemma split_axis_not_divides len known :
  0 < known → ¬ (known | len) → split_axis len known = Raise (EinopsError "shape mismatch").
Proof.
  intros Hk Hnd. unfold split_axis.
  destruct (known =? 0) eqn:E; [lia|].
  destruct (len `mod` known =? 0) eqn:Em; [|reflexivity].
  apply Z.eqb_eq in Em. destruct Hnd. apply Z.mod_divide; [lia | exact Em].
Qed.

Lemma rearrange_windows_not_divides h w b n_h n_w c :
  0 < w → ¬ (w | n_h) ∨ ¬ (w | n_w) →
  rearrange_windows h w w [b; n_h; n_w; c] = Raise (EinopsError "shape mismatch").
Proof.
  intros Hw Hnd. unfold rearrange_windows.
  destruct (decide (n_h `mod` w = 0)) as [Hh|Hh].
  - apply Z.mod_divide in Hh; [|lia].
    destruct Hnd as [Hnd|Hnd]; [contradiction|].
    rewrite (split_axis_divides n_h w) by assumption. cbn [mbind result_bind].
    by rewrite (split_axis_not_divides n_w w).
  - rewrite (split_axis_not_divides n_h w); [reflexivity | assumption |].
    intros Hd. apply Hh, Z.mod_divide; [lia | exact Hd].
Qed.

(** X14. What [forward] refuses. On a window attention with positive
    heads, head dimension and window size, in any mode: an input whose last
    axis is not [dim] fails in the first linear layer; an input with the
    right channels whose height or width is not a multiple of the window
    size fails in the rearrangement into windows, so nothing is
    mis-indexed; and an input that does not have four axes is refused. *)
Theorem forward_shape_rejects dim heads head_dim window_size shifted rel self :
  WindowAttention_init dim heads head_dim shifted window_size rel = Ok self →
  0 < heads → 0 < head_dim → 0 < window_size →
  (∀ b n_h n_w c, c ≠ dim →
     forward_shape self [b; n_h; n_w; c] = Raise (RuntimeError "shapes cannot be multiplied")) ∧
  (∀ b n_h n_w, ¬ (window_size | n_h) ∨ ¬ (window_size | n_w) →
     forward_shape self [b; n_h; n_w; dim] = Raise (EinopsError "shape mismatch")) ∧
  (∀ x, length x ≠ 4%nat → is_Ok (forward_shape self x) = false).
Proof.
  intros Hself Hheads Hhd Hws.
  apply WindowAttention_init_Ok in Hself as (_ & qkv & pos & out & Hq & Hp & Ho & ->).
  unfold nn_Linear in Hq, Ho.
  apply bind_Ok in Hq as (sq & _ & [= <-]). apply bind_Ok in Ho as (so & _ & [= <-]).
  assert (Hroll : ∀ b n_h n_w c, (if shifted then roll_shape [b; n_h; n_w; c]
                             else Ok [b; n_h; n_w; c]) = Ok [b; n_h; n_w; c])
    by (by destruct shifted).
  split; [|split].
  - intros b n_h n_w c Hc. unfold forward_shape.
    cbn [WinAttn.shifted WinAttn.heads WinAttn.window_size to_qkv].
    rewrite Hroll. cbn [mbind result_bind unpack4].
    unfold Linear_forward. cbn [reverse rev_append in_features].
    destruct (c =? dim) eqn:E; [lia | reflexivity].
  - intros b n_h n_w Hnd. unfold forward_shape.
    cbn [WinAttn.shifted WinAttn.heads WinAttn.window_size to_qkv].
    rewrite Hroll. cbn [mbind result_bind unpack4].
    rewrite Linear_forward_4 by reflexivity. cbn [mbind result_bind out_features].
    unfold chunk_last. cbn [reverse rev_append].
    rewrite chunk_sizes_3 by lia. cbn [map mbind result_bind reverse rev_append].
    unfold floordiv. destruct (window_size =? 0) eqn:E; [lia|]. cbn [mbind result_bind].
    cbn [mapM]. rewrite rearrange_windows_not_divides by assumption. reflexivity.
  - intros x Hlen. unfold forward_shape. cbn [WinAttn.shifted].
    destruct x as [|a [|b [|c [|d [|e x]]]]]; cbn in Hlen; try lia;
      destruct shifted; reflexivity.
Qed.


End WinAttnErrors.

Lemma forward_shape_rejects_witness :
  ∃ self,
    WinAttn.WindowAttention_init 96 3 32 true 7 true = Py.Ok self ∧
    WinAttn.forward_shape self [2; 15; 14; 96]%Z = Py.Raise (Py.EinopsError "shape mismatch") ∧
    WinAttn.forward_shape self [2; 14; 14; 64]%Z
      = Py.Raise (Py.RuntimeError "shapes cannot be multiplied").
Proof.
  destruct (is_Ok_inv (WinAttn.WindowAttention_init 96 3 32 true 7 true))
    as [self Hself]; [reflexivity|].
  destruct (forward_shape_rejects 96 3 32 7 true true self Hself)%Z
    as (Hchan & Hdiv & _); try lia.
  exists self. split; [exact Hself|]. split.
  - apply Hdiv. left. intros [k Hk]. lia.
  - apply Hchan. lia.
Defined.


(** ** Normalizer: the zero row *)
Section NormalizerMore.
Import Py CRD.
Local Open Scope R_scope.

Lemma power_sum_zero_row (p : nat) (row : list R) :
  (1 ≤ p)%nat → Forall (λ x, x = 0) row → power_sum p row = 0.
Proof.
  intros Hp Hz. unfold power_sum.
  induction Hz as [|x row -> _ IH]; cbn [map fold_right]; [reflexivity|].
  rewrite IH, pow_i by lia. lra.
Qed.

(** X16. A row of the linear layer's output that is zero throughout has
    norm zero, and dividing by it has no real result (infinite or NaN in
    floating point): the normalizer does not guard this case. *)
Theorem normalizer_zero_row (self : Normalizer4CRD) (x : list (list R)) (i : nat)
    (row : list R) :
  (1 ≤ power self)%nat →
  linear self x !! i = Some row → row ≠ [] → Forall (λ v, v = 0) row →
  ∃ outs, Normalizer4CRD_forward self x = Ok outs ∧ outs !! i = Some None.
Proof.
  intros Hp Hrow Hne Hz. unfold Normalizer4CRD_forward, normalize.
  destruct (Nat.eqb (power self) 0) eqn:E; [apply Nat.eqb_eq in E; lia|].
  eexists. split; [reflexivity|].
  change (map ?f ?l) with (f <$> l). rewrite list_lookup_fmap, Hrow. cbn. f_equal.
  unfold normalize_row. rewrite power_sum_zero_row by assumption.
  unfold real_root. destruct (Rlt_dec 0 0) as [Hlt|_]; [lra|].
  destruct (Req_dec_T 0 0) as [_|Hn]; [|contradiction].
  unfold div_row. destruct row; [contradiction|].
  destruct (Req_dec_T 0 0) as [_|Hn]; [reflexivity | contradiction].
Qed.

End NormalizerMore.

Lemma normalizer_zero_row_witness :
  let self := {| CRD.linear := λ x, x; CRD.power := 2 |} in
  ∃ outs, CRD.Normalizer4CRD_forward self [[3; 4]; [0; 0]]%R = Py.Ok outs ∧
          outs !! 1%nat = Some None.
Proof.
  intros self.
  apply (normalizer_zero_row self [[3; 4]; [0; 0]]%R 1 [0; 0]%R);
    [cbn; lia | reflexivity | discriminate | repeat constructor].
Defined.

(** ** Normalizer on float32: zero rows and overflow *)
Section NormalizerFloat32.
Import Float CRD32.

Lemma square_sum_zeros (row : list spec_float) :
  Forall (λ x, ∃ s, x = S754_zero s) row → square_sum row = S754_zero false.
Proof.
  unfold square_sum. intros Hz.
  enough (H : ∀ acc, acc = S754_zero false →
            fold_left F32.add (map (λ x, F32.mul x x) row) acc = S754_zero false)
    by (apply H; reflexivity).
  induction Hz as [|x row [sx ->] _ IH]; intros acc ->; [reflexivity|].
  cbn [map fold_left]. apply IH. by destruct sx.
Qed.

(** X29. In float32, with the default power 2: a row of zeros normalizes
    to NaN in every entry; and whenever the sum of squares overflows, the
    norm is infinite and every finite entry is normalized to a zero of its
    sign, so that rows of very large entries lose their direction. *)
Theorem normalizer_float32_edges (row : list spec_float) :
  (Forall (λ x, ∃ s, x = S754_zero s) row →
     normalize_row row = map (λ _, S754_nan) row) ∧
  (square_sum row = S754_infinity false →
     Forall2 (λ x y, ∀ s m e, x = S754_finite s m e → y = S754_zero s)
             row (normalize_row row)).
Proof.
  split.
  - intros Hz. unfold normalize_row. rewrite (square_sum_zeros row Hz).
    apply map_ext_Forall. eapply Forall_impl; [exact Hz|].
    intros x [s ->]. reflexivity.
  - intros Hinf. unfold normalize_row. rewrite Hinf.
    apply Forall2_fmap_r, Forall_Forall2_diag, Forall_forall.
    intros x _ s m e ->. by destruct s.
Qed.

End NormalizerFloat32.

Lemma normalizer_float32_edges_witness :
  CRD32.normalize_row [S754_zero false; S754_zero true] = [S754_nan; S754_nan] ∧
  CRD32.normalize_row [Float.F32.of_Z (3 * 2 ^ 67); Float.F32.of_Z (- 4 * 2 ^ 67)]
    = [S754_zero false; S754_zero true].
Proof.
  split.
  - destruct (normalizer_float32_edges [S754_zero false; S754_zero true]) as [H _].
    apply H. repeat constructor; by eexists.
  - destruct (normalizer_float32_edges
                [Float.F32.of_Z (3 * 2 ^ 67); Float.F32.of_Z (- 4 * 2 ^ 67)]) as [_ H].
    specialize (H eq_refl).
    apply Forall2_cons_1 in H as [H1 H]. apply Forall2_cons_1 in H as [H2 _].
    unfold CRD32.normalize_row. cbn [map].
    apply (f_equal2 cons); [|apply (f_equal2 cons); [|reflexivity]].
    + exact (H1 false 12582912%positive 45%Z eq_refl).
    + exact (H2 true 8388608%positive 46%Z eq_refl).
Defined.

(** ** Wrappers: which model is taken, and what [AttnEmbed] builds *)
Section HeadRCNNMore.
Import Py Wrappers.
Context (redesign_model : pyval → pyval → string → string → result pyval).
Context (get_transform : pyval → result pyval).

(** X18. [HeadRCNN] prefers the student: a [student_model] keyword is
    taken whenever it is present, so a student given as [None] hides a
    teacher that was given and construction raises the [ValueError]; a
    teacher is used only when no [student_model] keyword is passed. *)
Theorem HeadRCNN_reference_model head_rcnn kwargs :
  (dict_lookup "student_model" kwargs = Some VNone →
     HeadRCNN_init redesign_model get_transform head_rcnn kwargs
       = Raise (ValueError "Either student_model or teacher_model has to be given.")) ∧
  (∀ s, dict_lookup "student_model" kwargs = Some s → is_None s = false →
     HeadRCNN_init redesign_model get_transform head_rcnn kwargs
       = (transform ← get_transform s;
          seq ← redesign_model s head_rcnn "R-CNN" "HeadRCNN";
          Ok {| transform := transform; seq := seq |})) ∧
  (∀ t, dict_lookup "student_model" kwargs = None →
     dict_lookup "teacher_model" kwargs = Some t → is_None t = false →
     HeadRCNN_init redesign_model get_transform head_rcnn kwargs
       = (transform ← get_transform t;
          seq ← redesign_model t head_rcnn "R-CNN" "HeadRCNN";
          Ok {| transform := transform; seq := seq |})).
Proof.
  split; [|split].
  - intros Hs. unfold HeadRCNN_init, kwargs_get. by rewrite Hs.
  - intros s Hs Hn. unfold HeadRCNN_init, kwargs_get. by rewrite Hs, Hn.
  - intros t Hs Ht Hn. unfold HeadRCNN_init, kwargs_get. by rewrite Hs, Ht, Hn.
Qed.

End HeadRCNNMore.

Section WrappersMore.
Import Py Wrappers.
Context (wrap_if_distributed : pyval → pyval → pyval → pyval → result pyval).

(** X19. [Linear4CCKD] prefers the teacher: with a teacher model the
    student argument plays no part at all (it is not even wrapped), and a
    wrapper that gets built holds the teacher itself as its model. *)
Theorem Linear4CCKD_teacher_wins input_module linear_params device device_ids distributed
    teacher_model h :
  is_None teacher_model = false →
  (∀ student_model student_model',
     Linear4CCKD_init wrap_if_distributed input_module linear_params
       device device_ids distributed teacher_model student_model h
     = Linear4CCKD_init wrap_if_distributed input_module linear_params
         device device_ids distributed teacher_model student_model' h) ∧
  (∀ student_model self h',
     Linear4CCKD_init wrap_if_distributed input_module linear_params
       device device_ids distributed teacher_model student_model h = Ok (self, h') →
     model self = teacher_model ∧ is_teacher self = true ∧
     next_id h' = S (next_id h)).
Proof.
  intros Ht. split.
  - intros s s'. unfold Linear4CCKD_init. rewrite Ht. reflexivity.
  - intros s self h' H. unfold Linear4CCKD_init in H. rewrite Ht in H. cbn [negb] in H.
    apply M_bind_Ok in H as (s0 & h0 & [= <- <-] & H).
    apply M_bind_Ok in H as (path & h1 & Hpath & H). apply lift_Ok in Hpath as [_ ->].
    apply M_bind_Ok in H as (io & h2 & Hio & H). apply lift_Ok in Hio as [_ ->].
    apply M_bind_Ok in H as (l & h3 & Hl & H). apply lift_Ok in Hl as [_ ->].
    apply M_bind_Ok in H as (lo & h4 & [= <- <-] & H).
    apply M_bind_Ok in H as (lin & h5 & Hlin & H). apply lift_Ok in Hlin as [_ ->].
    injection H as <- <-. done.
Qed.

Lemma dict_set_fresh k v (d : dict) : k ∉ keys d → dict_set k v d = d ++ [(k, v)].
Proof.
  induction d as [|[k' v'] d IH]; intros Hk; [reflexivity|].
  cbn in Hk. apply not_elem_of_cons in Hk as [Hne Hk].
  cbn. destruct (String.eqb k k') eqn:E; [apply String.eqb_eq in E; congruence|].
  by rewrite IH.
Qed.

Lemma is_Some_lookup_dict_set k k' v (d : dict) :
  is_Some (dict_lookup k' (dict_set k v d)) ↔ k' = k ∨ is_Some (dict_lookup k' d).
Proof.
  destruct (decide (k' = k)) as [->|Hne].
  - rewrite dict_lookup_set_eq. split; eauto.
  - rewrite dict_lookup_set_ne by congruence. split; [eauto | intros [?|?]; done].
Qed.

(** One round of the loop, on either path. *)
Lemma body_any is_t device device_ids distributed k params st h st' h' :
  AttnEmbed_loop_body wrap_if_distributed is_t device device_ids distributed
    (k, params) st h = Ok (st', h') →
  ∃ e io path,
    embed st' = Some e ∧
    cur_embed_dict st' = dict_set k e (cur_embed_dict st) ∧
    cur_io_path_pairs st' = cur_io_path_pairs st ++ [(k, io, path)] ∧
    next_id h' = (next_id h
      + (if is_t || contains "query" k || contains "value" k then 1 else 0))%nat.
Proof.
  unfold AttnEmbed_loop_body. intros H.
  apply M_bind_Ok in H as (oe & h1 & Hembed & H).
  destruct oe as [e|]; [|discriminate].
  apply M_bind_Ok in H as (io & h2 & Hio & H).
  apply M_bind_Ok in H as (path & h3 & Hpath & H).
  apply lift_Ok in Hio as [_ ->]. apply lift_Ok in Hpath as [_ ->].
  injection H as <- <-. exists e, io, path. cbn.
  split; [reflexivity|]. split; [reflexivity|]. split; [reflexivity|].
  assert (Hnew : ∀ h0 e0 h1',
    (new_wrapped_Embed wrap_if_distributed params device device_ids distributed
       ≫= λ e, mret (Some e)) h0 = Ok (e0, h1') → next_id h1' = S (next_id h0)).
  { intros h0 e0 h1' Hn. apply M_bind_Ok in Hn as (e1 & h2 & Hn & [= <- <-]).
    unfold new_wrapped_Embed in Hn.
    apply M_bind_Ok in Hn as (em & h3 & Hem & Hn). apply lift_Ok in Hem as [_ ->].
    apply M_bind_Ok in Hn as (r & h4 & [= <- <-] & Hn).
    apply lift_Ok in Hn as [_ ->]. reflexivity. }
  destruct is_t; cbn [orb].
  - apply M_bind_Ok in Hembed as (e1 & h2 & [= <- <-] & [= <- <-]). cbn. lia.
  - destruct (contains "query" k); cbn [orb].
    + apply Hnew in Hembed. lia.
    + destruct (contains "value" k).
      * apply Hnew in Hembed. lia.
      * injection Hembed as _ <-. lia.
Qed.

Lemma loop_any is_t device device_ids distributed items st h st' h' :
  AttnEmbed_loop wrap_if_distributed is_t device device_ids distributed items st h
    = Ok (st', h') →
  map (λ t : string * pyval * pyval, t.1.1) (cur_io_path_pairs st')
    = map (λ t : string * pyval * pyval, t.1.1) (cur_io_path_pairs st) ++ keys items ∧
  (∀ k, is_Some (dict_lookup k (cur_embed_dict st')) ↔
        is_Some (dict_lookup k (cur_embed_dict st)) ∨ k ∈ keys items) ∧
  next_id h' = (next_id h + length (List.filter
      (λ kp : string * pyval, is_t || contains "query" kp.1 || contains "value" kp.1)
      items))%nat.
Proof.
  revert st h. induction items as [|[k params] items IH]; intros st h H.
  - injection H as <- <-. cbn. rewrite app_nil_r. repeat split; try lia.
    + by left.
    + intros [?|Hin]; [done | by apply elem_of_nil in Hin].
  - cbn [AttnEmbed_loop] in H.
    apply M_bind_Ok in H as (st0 & h0 & Hbody & H).
    apply body_any in Hbody as (e & io & path & _ & Hdict & Hpairs & Hid).
    apply IH in H as (Hkeys & Hlookup & Hcount).
    split; [|split].
    + rewrite Hkeys, Hpairs, map_app. cbn. by rewrite <- app_assoc.
    + intros k'. rewrite Hlookup, Hdict, is_Some_lookup_dict_set. cbn.
      rewrite elem_of_cons. tauto.
    + rewrite Hcount, Hid. cbn [List.filter fst].
      destruct (is_t || contains "query" k || contains "value" k); cbn [length]; lia.
Qed.

(** X21. Whatever the path, an [AttnEmbed] that gets built has one
    [(key, io, path)] triple per entry of [embedings], in order; every such
    key has a module in [embed_dict], so the lookups of [post_forward]
    cannot miss; and the number of modules created is the number of entries
    on the teacher path, and on the student path the number of keys that
    contain 'query' or 'value'. *)
Theorem AttnEmbed_init_inventory items device device_ids distributed
    teacher_model student_model h self h' :
  AttnEmbed_init wrap_if_distributed (VDict items) device device_ids distributed
    teacher_model student_model h = Ok (self, h') →
  map (λ t : string * pyval * pyval, t.1.1) (io_path_pairs self) = keys items ∧
  Forall (λ t : string * pyval * pyval, is_Some (dict_lookup t.1.1 (embed_dict self)))
         (io_path_pairs self) ∧
  next_id h' = (next_id h + length (List.filter
      (λ kp : string * pyval,
         negb (is_None teacher_model) || contains "query" kp.1 || contains "value" kp.1)
      items))%nat.
Proof.
  intros H. unfold AttnEmbed_init in H.
  apply M_bind_Ok in H as (sm & h0 & Hsm & H).
  assert (h0 = h) as ->.
  { destruct (negb (negb (is_None teacher_model))).
    - by apply lift_Ok in Hsm as [_ ->].
    - by injection Hsm as _ <-. }
  apply M_bind_Ok in H as (items0 & h1 & [= <- <-] & H).
  apply M_bind_Ok in H as (st & h2 & Hloop & [= <- <-]).
  apply loop_any in Hloop as (Hkeys & Hlookup & Hcount). cbn in Hkeys, Hlookup.
  cbn [io_path_pairs embed_dict]. split; [exact Hkeys|]. split; [|exact Hcount].
  apply Forall_forall. intros t Ht. apply Hlookup. right.
  rewrite <- Hkeys. apply list_elem_of_fmap. by exists t.
Qed.

Lemma loop_teacher device device_ids distributed items st h st' h' :
  AttnEmbed_loop wrap_if_distributed true device device_ids distributed items st h
    = Ok (st', h') →
  NoDup (keys items) →
  (∀ k, k ∈ keys items → k ∉ keys (cur_embed_dict st)) →
  h' = {| next_id := next_id h + length items;
          objects := objects h ++ imap (λ i _, ((next_id h + i)%nat, OIdentity)) items |} ∧
  cur_embed_dict st'
    = cur_embed_dict st ++ imap (λ i kp, (kp.1, VObj (next_id h + i))) items.
Proof.
  revert st h. induction items as [|[k params] items IH]; intros st h H Hnd Hfresh.
  - injection H as <- <-. cbn. rewrite !app_nil_r, Nat.add_0_r. by destruct h.
  - cbn in Hnd. apply NoDup_cons in Hnd as [Hk Hnd].
    cbn [AttnEmbed_loop] in H.
    apply M_bind_Ok in H as (st0 & h0 & Hbody & H).
    unfold AttnEmbed_loop_body in Hbody.
    apply M_bind_Ok in Hbody as (oe & h1 & Hembed & Hbody).
    apply M_bind_Ok in Hembed as (e1 & h2 & [= <- <-] & [= <- <-]).
    apply M_bind_Ok in Hbody as (io & h2 & Hio & Hbody).
    apply M_bind_Ok in Hbody as (path & h3 & Hpath & Hbody).
    apply lift_Ok in Hio as [_ ->]. apply lift_Ok in Hpath as [_ ->].
    injection Hbody as <- <-.
    assert (Hset : dict_set k (VObj (next_id h)) (cur_embed_dict st)
                   = cur_embed_dict st ++ [(k, VObj (next_id h))]).
    { apply dict_set_fresh, Hfresh. cbn. apply list_elem_of_here. }
    apply IH in H as [-> ->]; [|exact Hnd|].
    + cbn [cur_embed_dict next_id objects length]. rewrite Hset, <- !app_assoc.
      cbn [app imap]. split.
      * f_equal; [lia|]. f_equal. f_equal; [by rewrite Nat.add_0_r|].
        apply imap_ext. intros i x _. cbn. f_equal. lia.
      * f_equal. f_equal; [by rewrite Nat.add_0_r|].
        apply imap_ext. intros i x _. cbn. do 2 f_equal. lia.
    + intros k' Hk'. cbn [cur_embed_dict]. rewrite Hset, keys_app.
      intros Hin. apply elem_of_app in Hin as [Hin|Hin].
      * apply (Hfresh k'); [by apply list_elem_of_further | exact Hin].
      * cbn in Hin. apply list_elem_of_singleton in Hin. subst k'. by apply Hk.
Qed.

Lemma loop_teacher_any_wrap wrap' device device_ids distributed items st h :
  AttnEmbed_loop wrap_if_distributed true device device_ids distributed items st h
  = AttnEmbed_loop wrap' true device device_ids distributed items st h.
Proof.
  revert st h. induction items as [|[k params] items IH]; intros st h; [reflexivity|].
  cbn [AttnEmbed_loop].
  change (AttnEmbed_loop_body wrap' true device device_ids distributed (k, params) st)
    with (AttnEmbed_loop_body wrap_if_distributed true device device_ids distributed
            (k, params) st).
  unfold mbind, M_bind.
  destruct (AttnEmbed_loop_body wrap_if_distributed true device device_ids distributed
              (k, params) st h) as [[st0 h0]|e]; [apply IH | reflexivity].
Qed.

(** X20. On the teacher path construction never calls
    [wrap_if_distributed], never looks at the student and never builds an
    [Embed]: the outcome is the same whatever that helper would do and
    whatever student is passed; when it succeeds on distinct keys the model
    is the teacher itself and each key, in order, has an identity module of
    its own, the heap growing by exactly these. *)
Theorem AttnEmbed_init_teacher items device device_ids distributed teacher_model h :
  is_None teacher_model = false →
  NoDup (keys items) →
  (∀ wrap' student_model student_model',
     AttnEmbed_init wrap_if_distributed (VDict items) device device_ids distributed
       teacher_model student_model h
     = AttnEmbed_init wrap' (VDict items) device device_ids distributed
         teacher_model student_model' h) ∧
  (∀ student_model self h',
     AttnEmbed_init wrap_if_distributed (VDict items) device device_ids distributed
       teacher_model student_model h = Ok (self, h') →
     attn_is_teacher self = true ∧ attn_model self = teacher_model ∧
     embed_dict self = imap (λ i kp, (kp.1, VObj (next_id h + i))) items ∧
     next_id h' = (next_id h + length items)%nat ∧
     objects h' = objects h ++ imap (λ i _, ((next_id h + i)%nat, OIdentity)) items).
Proof.
  intros Ht Hnd. split.
  - intros wrap' s s'. unfold AttnEmbed_init. rewrite Ht. cbn [negb].
    unfold mbind, M_bind, mret, M_ret.
    by rewrite (loop_teacher_any_wrap wrap').
  - intros s self h' H. unfold AttnEmbed_init in H. rewrite Ht in H. cbn [negb] in H.
    apply M_bind_Ok in H as (s0 & h0 & [= <- <-] & H).
    apply M_bind_Ok in H as (items0 & h1 & [= <- <-] & H).
    apply M_bind_Ok in H as (st & h2 & Hloop & [= <- <-]).
    apply loop_teacher in Hloop as [-> Hdict]; [|exact Hnd|].
    + cbn. rewrite Hdict. done.
    + intros k _ Hin. by apply elem_of_nil in Hin.
Qed.

End WrappersMore.

Section WrappersMoreExamples.
Import Py Wrappers Examples.

Lemma HeadRCNN_reference_model_witness :
  HeadRCNN_init (λ _ _ _ _, Ok VNone) (λ _, Ok VNone) VNone
    [("teacher_model", VObj 1); ("student_model", VNone)]
  = Raise (ValueError "Either student_model or teacher_model has to be given.").
Proof.
  destruct (HeadRCNN_reference_model (λ _ _ _ _, Ok VNone) (λ _, Ok VNone) VNone
              [("teacher_model", VObj 1); ("student_model", VNone)]) as [H _].
  apply H. reflexivity.
Defined.

Lemma Linear4CCKD_teacher_wins_witness :
  let input_module := VDict [("path", VStr "fc"); ("io", VStr "output")] in
  let linear_params := VDict [("in_features", VInt 4); ("out_features", VInt 2)] in
  Linear4CCKD_init wrap_local input_module linear_params
    (VStr "cpu") VNone (VBool false) (VObj 0) (VObj 1) (empty_heap 2)
  = Linear4CCKD_init wrap_local input_module linear_params
      (VStr "cpu") VNone (VBool false) (VObj 0) VNone (empty_heap 2).
Proof.
  intros input_module linear_params.
  destruct (Linear4CCKD_teacher_wins wrap_local input_module linear_params
              (VStr "cpu") VNone (VBool false) (VObj 0) (empty_heap 2) eq_refl) as [H _].
  apply H.
Defined.

Lemma AttnEmbed_init_teacher_witness :
  ∃ self h',
    AttnEmbed_init (λ _ _ _ _, Raise (RuntimeError "no process group"))
      (VDict [("key_layer4", embed_params); ("attn_layer4", embed_params)])
      (VStr "cpu") VNone (VBool true) (VObj 0) VNone (empty_heap 1) = Ok (self, h') ∧
    embed_dict self = [("key_layer4", VObj 1); ("attn_layer4", VObj 2)] ∧
    objects h' = [(1%nat, OIdentity); (2%nat, OIdentity)].
Proof.
  destruct (AttnEmbed_init_teacher (λ _ _ _ _, Raise (RuntimeError "no process group"))
              [("key_layer4", embed_params); ("attn_layer4", embed_params)]
              (VStr "cpu") VNone (VBool true) (VObj 0) (empty_heap 1) eq_refl)
    as [_ H]; [compute_done|].
  destruct (is_Ok_inv (AttnEmbed_init (λ _ _ _ _, Raise (RuntimeError "no process group"))
              (VDict [("key_layer4", embed_params); ("attn_layer4", embed_params)])
              (VStr "cpu") VNone (VBool true) (VObj 0) VNone (empty_heap 1)))
    as [[self h'] Hinit]; [reflexivity|].
  exists self, h'. split; [exact Hinit|].
  destruct (H VNone self h' Hinit) as (_ & _ & Hdict & _ & Hobj).
  split; [exact Hdict | exact Hobj].
Defined.

Lemma AttnEmbed_init_inventory_witness :
  ∃ self h',
    AttnEmbed_init wrap_local
      (VDict [("query_layer4", embed_params); ("attn_layer4", embed_params)])
      (VStr "cpu") VNone (VBool false) VNone student (empty_heap 1) = Ok (self, h') ∧
    map (λ t : string * pyval * pyval, t.1.1) (io_path_pairs self)
      = ["query_layer4"; "attn_layer4"] ∧
    next_id h' = 2%nat.
Proof.
  destruct (is_Ok_inv
      (AttnEmbed_init wrap_local
         (VDict [("query_layer4", embed_params); ("attn_layer4", embed_params)])
         (VStr "cpu") VNone (VBool false) VNone student (empty_heap 1)))
    as [[self h'] Hinit]; [reflexivity|].
  destruct (AttnEmbed_init_inventory wrap_local _ _ _ _ _ _ _ _ _ Hinit)
    as (Hkeys & _ & Hcount).
  exists self, h'. split; [exact Hinit|]. split; [exact Hkeys | exact Hcount].
Defined.

End WrappersMoreExamples.

(** ** Paraphraser and translator: shapes *)
Section SequentialFacts.
Import Paraphraser.
Context {Tensor LayerState : Type}.
Context (layer_forward : layer_kind → bool → LayerState → Tensor → Tensor * LayerState).

(** What [forward] returns, by mode. *)
Lemma forward_fst (p : Paraphraser4FactorTransfer LayerState) (z : Tensor) :
  (forward layer_forward p z).1
  = if training p
    then (Sequential_forward layer_forward (decoder p)
            (Sequential_forward layer_forward (encoder p) z).1).1
    else (Sequential_forward layer_forward (encoder p) z).1.
Proof.
  unfold forward. destruct (training p);
    destruct (Sequential_forward layer_forward (encoder p) z) as [f enc]; cbn [fst].
  - by destruct (Sequential_forward layer_forward (decoder p) f).
  - reflexivity.
Qed.

Lemma forward_training (p : Paraphraser4FactorTransfer LayerState) (z : Tensor) :
  training (forward layer_forward p z).2 = training p.
Proof.
  unfold forward. destruct (training p) eqn:E;
    destruct (Sequential_forward layer_forward (encoder p) z) as [f enc].
  - by destruct (Sequential_forward layer_forward (decoder p) f).
  - reflexivity.
Qed.

Lemma Sequential_forward_cons (l : layer LayerState) (rest : Sequential LayerState)
    (x : Tensor) :
  (Sequential_forward layer_forward (l :: rest) x).1
  = (Sequential_forward layer_forward rest (apply_layer layer_forward l x).1).1.
Proof.
  cbn [Sequential_forward]. destruct (apply_layer layer_forward l x) as [y l'].
  cbn [fst]. by destruct (Sequential_forward layer_forward rest y).
Qed.

Lemma Sequential_forward_app (l1 l2 : Sequential LayerState) (x : Tensor) :
  (Sequential_forward layer_forward (l1 ++ l2) x).1
  = (Sequential_forward layer_forward l2 (Sequential_forward layer_forward l1 x).1).1.
Proof.
  revert x. induction l1 as [|l l1 IH]; intros x; [reflexivity|].
  cbn [app]. by rewrite !Sequential_forward_cons, IH.
Qed.

End SequentialFacts.

Section ParaphraserShapes.
Import Py Paraphraser Layers.
Local Open Scope Z_scope.

Abbreviation run_shape := (Sequential_forward (LayerState := unit) shape_layer).
Abbreviation fresh := (λ _ : layer_kind, tt).

Lemma run_shape_cons (l : layer unit) rest (x : shape) :
  (run_shape (l :: rest) (Ok x)).1
  = (run_shape rest (layer_shape (kind l) (layer_training l) x)).1.
Proof.
  rewrite Sequential_forward_cons. unfold apply_layer, shape_layer. reflexivity.
Qed.

Lemma more_than_one_value b x y : 2 ≤ b → 1 ≤ x → 1 ≤ y → b * x * y ≠ 1.
Proof. intros Hb Hx Hy. assert (2 ≤ b * x) by nia. nia. Qed.

(** One encoder stage at stride 1 moves both spatial lengths by
    [2 * padding - kernel_size + 1]. *)
Lemma enc_stage_shape mode cin cout ks pad uses_bn b h w :
  let delta := 2 * pad - ks + 1 in
  1 ≤ h + delta → 1 ≤ w + delta →
  (uses_bn = true → mode = true → b * (h + delta) * (w + delta) ≠ 1) →
  (run_shape (map (set_mode mode) (make_enc_modules fresh cin cout ks 1 pad uses_bn))
     (Ok [b; cin; h; w])).1
  = Ok [b; cout; h + delta; w + delta].
Proof.
  intros delta Hh Hw Hbn. subst delta.
  unfold make_enc_modules, make_tail_modules.
  assert (Hconv : layer_shape (Conv2d cin cout ks 1 pad) mode [b; cin; h; w]
                  = Ok [b; cout; h + (2 * pad - ks + 1); w + (2 * pad - ks + 1)]).
  { cbn [layer_shape on_image]. unfold conv_axes, conv_out. rewrite Z.eqb_refl. cbn [negb].
    destruct (h + 2 * pad <? ks) eqn:E1; [lia|].
    destruct (w + 2 * pad <? ks) eqn:E2; [lia|]. cbn [orb mbind result_bind].
    rewrite !Z.div_1_r.
    replace (h + 2 * pad - ks + 1) with (h + (2 * pad - ks + 1)) by lia.
    by replace (w + 2 * pad - ks + 1) with (w + (2 * pad - ks + 1)) by lia. }
  destruct uses_bn; cbn [List.map]; unfold set_mode, new_layer; cbn [kind layer_training];
    rewrite run_shape_cons; cbn [kind layer_training]; rewrite Hconv;
    rewrite run_shape_cons; cbn [kind layer_training layer_shape]; [|reflexivity].
  rewrite Z.eqb_refl. cbn [negb].
  destruct mode; cbn [andb].
  - destruct (_ =? 1) eqn:E; [apply Z.eqb_eq in E; by destruct (Hbn eq_refl eq_refl)|].
    by rewrite run_shape_cons.
  - by rewrite run_shape_cons.
Qed.

(** One decoder stage at stride 1 moves them back by the same amount. *)
Lemma dec_stage_shape mode cin cout ks pad uses_bn b h w :
  let delta := 2 * pad - ks + 1 in
  1 ≤ h - delta → 1 ≤ w - delta →
  (uses_bn = true → mode = true → b * (h - delta) * (w - delta) ≠ 1) →
  (run_shape (map (set_mode mode) (make_dec_modules fresh cin cout ks 1 pad uses_bn))
     (Ok [b; cin; h; w])).1
  = Ok [b; cout; h - delta; w - delta].
Proof.
  intros delta Hh Hw Hbn. subst delta.
  unfold make_dec_modules, make_tail_modules.
  assert (Hconv : layer_shape (ConvTranspose2d cin cout ks 1 pad) mode [b; cin; h; w]
                  = Ok [b; cout; h - (2 * pad - ks + 1); w - (2 * pad - ks + 1)]).
  { cbn [layer_shape on_image]. unfold conv_transpose_axes, conv_transpose_out.
    rewrite Z.eqb_refl. cbn [negb].
    replace ((h - 1) * 1 - 2 * pad + ks) with (h - (2 * pad - ks + 1)) by lia.
    replace ((w - 1) * 1 - 2 * pad + ks) with (w - (2 * pad - ks + 1)) by lia.
    destruct (h - _ <=? 0) eqn:E1; [lia|].
    destruct (w - _ <=? 0) eqn:E2; [lia|]. reflexivity. }
  destruct uses_bn; cbn [List.map]; unfold set_mode, new_layer; cbn [kind layer_training];
    rewrite run_shape_cons; cbn [kind layer_training]; rewrite Hconv;
    rewrite run_shape_cons; cbn [kind layer_training layer_shape]; [|reflexivity].
  rewrite Z.eqb_refl. cbn [negb].
  destruct mode; cbn [andb].
  - destruct (_ =? 1) eqn:E; [apply Z.eqb_eq in E; by destruct (Hbn eq_refl eq_refl)|].
    by rewrite run_shape_cons.
  - by rewrite run_shape_cons.
Qed.

Lemma set_mode_fresh (stage : list (layer unit)) :
  Forall (λ l, layer_training l = true) stage → map (set_mode true) stage = stage.
Proof.
  intros H. rewrite <- (map_id stage) at 2. apply map_ext_Forall.
  eapply Forall_impl; [exact H|]. intros [k t st] Ht. cbn in Ht. subst t. reflexivity.
Qed.

Lemma enc_modules_fresh cin cout ks st pad uses_bn :
  Forall (λ l : layer unit, layer_training l = true)
         (make_enc_modules fresh cin cout ks st pad uses_bn).
Proof. unfold make_enc_modules, make_tail_modules. destruct uses_bn; repeat constructor. Qed.

Lemma dec_modules_fresh cin cout ks st pad uses_bn :
  Forall (λ l : layer unit, layer_training l = true)
         (make_dec_modules fresh cin cout ks st pad uses_bn).
Proof. unfold make_dec_modules, make_tail_modules. destruct uses_bn; repeat constructor. Qed.

(** Three encoder stages in a row. *)
Lemma three_enc_stages mode c1 c2 ks pad uses_bn b h w :
  let delta := 2 * pad - ks + 1 in
  1 ≤ h → 1 ≤ w → 1 ≤ h + 3 * delta → 1 ≤ w + 3 * delta →
  (uses_bn = true → mode = true → 2 ≤ b) →
  (run_shape (map (set_mode mode)
     (make_enc_modules fresh c1 c1 ks 1 pad uses_bn
      ++ make_enc_modules fresh c1 c2 ks 1 pad uses_bn
      ++ make_enc_modules fresh c2 c2 ks 1 pad uses_bn)) (Ok [b; c1; h; w])).1
  = Ok [b; c2; h + 3 * delta; w + 3 * delta].
Proof.
  intros delta Hh Hw Hh3 Hw3 Hbn. subst delta.
  rewrite !map_app, !Sequential_forward_app.
  rewrite enc_stage_shape; [|lia|lia|intros; apply more_than_one_value; [auto | lia | lia]].
  rewrite enc_stage_shape; [|lia|lia|intros; apply more_than_one_value; [auto | lia | lia]].
  rewrite enc_stage_shape; [|lia|lia|intros; apply more_than_one_value; [auto | lia | lia]].
  replace (h + (2 * pad - ks + 1) + (2 * pad - ks + 1) + (2 * pad - ks + 1))
    with (h + 3 * (2 * pad - ks + 1)) by lia.
  by replace (w + (2 * pad - ks + 1) + (2 * pad - ks + 1) + (2 * pad - ks + 1))
    with (w + 3 * (2 * pad - ks + 1)) by lia.
Qed.

(** Three decoder stages in a row. *)
Lemma three_dec_stages mode c1 c2 ks pad uses_bn b h w :
  let delta := 2 * pad - ks + 1 in
  1 ≤ h → 1 ≤ w → 1 ≤ h - 3 * delta → 1 ≤ w - 3 * delta →
  (uses_bn = true → mode = true → 2 ≤ b) →
  (run_shape (map (set_mode mode)
     (make_dec_modules fresh c2 c2 ks 1 pad uses_bn
      ++ make_dec_modules fresh c2 c1 ks 1 pad uses_bn
      ++ make_dec_modules fresh c1 c1 ks 1 pad uses_bn)) (Ok [b; c2; h; w])).1
  = Ok [b; c1; h - 3 * delta; w - 3 * delta].
Proof.
  intros delta Hh Hw Hh3 Hw3 Hbn. subst delta.
  rewrite !map_app, !Sequential_forward_app.
  rewrite dec_stage_shape; [|lia|lia|intros; apply more_than_one_value; [auto | lia | lia]].
  rewrite dec_stage_shape; [|lia|lia|intros; apply more_than_one_value; [auto | lia | lia]].
  rewrite dec_stage_shape; [|lia|lia|intros; apply more_than_one_value; [auto | lia | lia]].
  replace (h - (2 * pad - ks + 1) - (2 * pad - ks + 1) - (2 * pad - ks + 1))
    with (h - 3 * (2 * pad - ks + 1)) by lia.
  by replace (w - (2 * pad - ks + 1) - (2 * pad - ks + 1) - (2 * pad - ks + 1))
    with (w - 3 * (2 * pad - ks + 1)) by lia.
Qed.

(** X22. With stride 1, whatever the kernel size and padding, a
    paraphraser whose encoder gets [e = int(c * k)] channels, the product
    taken as Python takes it (rounded as a float before truncation): in
    evaluation mode it maps (b, c, h, w) to [e] channels, each spatial
    length moved by [3 * (2 * padding - kernel_size + 1)]; in training mode
    the decoder undoes this and the output has the shape of the input, so
    it can be compared with the input for the reconstruction loss. With
    batch norm the training pass needs a batch of at least 2. *)
Theorem paraphraser_shapes (k : Float.number) (c e ks pad : Z) (uses_bn : bool) (b h w : Z) :
  let delta := 2 * pad - ks + 1 in
  int_of_product c k = Ok e →
  1 ≤ c → 1 ≤ e → 1 ≤ ks → 0 ≤ pad → 1 ≤ b →
  1 ≤ h → 1 ≤ w → 1 ≤ h + 3 * delta → 1 ≤ w + 3 * delta →
  (uses_bn = true → 2 ≤ b) →
  ∃ p, Paraphraser4FactorTransfer_init fresh k c ks 1 pad uses_bn = Ok p ∧
       (forward shape_layer p (Ok [b; c; h; w])).1 = Ok [b; c; h; w] ∧
       (forward shape_layer (eval p) (Ok [b; c; h; w])).1
         = Ok [b; e; h + 3 * delta; w + 3 * delta].
Proof.
  intros delta He _ _ _ _ _ Hh Hw Hh3 Hw3 Hbn. subst delta.
  unfold Paraphraser4FactorTransfer_init. rewrite He. cbn [mbind result_bind].
  eexists. split; [reflexivity|]. split.
  - rewrite forward_fst. cbn [training encoder decoder].
    rewrite <- (set_mode_fresh (make_enc_modules _ _ _ _ _ _ _ ++ _)).
    2:{ repeat (apply Forall_app; split); apply enc_modules_fresh. }
    rewrite three_enc_stages by (try lia; auto).
    rewrite <- (set_mode_fresh (make_dec_modules _ _ _ _ _ _ _ ++ _)).
    2:{ repeat (apply Forall_app; split); apply dec_modules_fresh. }
    rewrite three_dec_stages by (try lia; auto).
    replace (h + 3 * (2 * pad - ks + 1) - 3 * (2 * pad - ks + 1)) with h by lia.
    by replace (w + 3 * (2 * pad - ks + 1) - 3 * (2 * pad - ks + 1)) with w by lia.
  - rewrite forward_fst. cbn [training encoder eval train].
    apply three_enc_stages; try lia; discriminate.
Qed.

End ParaphraserShapes.

Lemma paraphraser_shapes_witness :
  ∃ p, Paraphraser.Paraphraser4FactorTransfer_init (λ _, tt) (Float.ratio 29 100) 100 3 1 1 true
       = Py.Ok p ∧
       (Paraphraser.forward Layers.shape_layer p (Py.Ok [8; 100; 32; 32]%Z)).1
         = Py.Ok [8; 100; 32; 32]%Z ∧
       (Paraphraser.forward Layers.shape_layer (Paraphraser.eval p)
          (Py.Ok [8; 100; 32; 32]%Z)).1
         = Py.Ok [8; 28; 32; 32]%Z.
Proof.
  apply (paraphraser_shapes (Float.ratio 29 100) 100 28 3 1 true 8 32 32);
    try reflexivity; lia.
Defined.

Section TranslatorShapes.
Import Py Paraphraser Layers FactorTransfer.
Local Open Scope Z_scope.

Abbreviation run_shape := (Sequential_forward (LayerState := unit) shape_layer).
Abbreviation fresh := (λ _ : layer_kind, tt).

(** X23. At stride 1 the translator maps (b, n, h, w) to
    (b, num_output_channels, h', w') with the spatial lengths moved by
    [3 * (2 * padding - kernel_size + 1)]; and built with as many output
    channels as the encoder of a paraphraser on [n] channels has, it gives
    the student's factor the shape of the teacher's (the paraphraser's
    output in evaluation mode). *)
Theorem translator_shape (mode : bool) (n m ks pad : Z) (uses_bn : bool) (b h w : Z) :
  let delta := 2 * pad - ks + 1 in
  let translator := map (set_mode mode)
                      (Translator4FactorTransfer_init fresh n m ks 1 pad uses_bn) in
  1 ≤ n → 1 ≤ m → 1 ≤ ks → 0 ≤ pad → 1 ≤ b →
  1 ≤ h → 1 ≤ w → 1 ≤ h + 3 * delta → 1 ≤ w + 3 * delta →
  (uses_bn = true → mode = true → 2 ≤ b) →
  (run_shape translator (Ok [b; n; h; w])).1 = Ok [b; m; h + 3 * delta; w + 3 * delta] ∧
  ∀ (k : Float.number) p,
    int_of_product n k = Ok m →
    Paraphraser4FactorTransfer_init fresh k n ks 1 pad uses_bn = Ok p →
    (run_shape translator (Ok [b; n; h; w])).1
    = (forward shape_layer (eval p) (Ok [b; n; h; w])).1.
Proof.
  intros delta translator _ _ _ _ _ Hh Hw Hh3 Hw3 Hbn.
  assert (Hshape : (run_shape translator (Ok [b; n; h; w])).1
                   = Ok [b; m; h + 3 * delta; w + 3 * delta]).
  { subst translator. unfold Translator4FactorTransfer_init. by apply three_enc_stages. }
  split; [exact Hshape|].
  intros k p Hm Hp. rewrite Hshape.
  unfold Paraphraser4FactorTransfer_init in Hp. rewrite Hm in Hp.
  cbn [mbind result_bind] in Hp. injection Hp as <-.
  rewrite forward_fst. cbn [training encoder eval train].
  symmetry. apply three_enc_stages; try assumption. discriminate.
Qed.

End TranslatorShapes.

Lemma translator_shape_witness :
  let translator := FactorTransfer.Translator4FactorTransfer_init (λ _, tt) 100 28 3 1 1 true in
  (Paraphraser.Sequential_forward Layers.shape_layer translator
     (Py.Ok [8; 100; 32; 32]%Z)).1 = Py.Ok [8; 28; 32; 32]%Z ∧
  ∃ p, Paraphraser.Paraphraser4FactorTransfer_init (λ _, tt) (Float.ratio 29 100) 100 3 1 1 true
       = Py.Ok p ∧
       (Paraphraser.Sequential_forward Layers.shape_layer translator
          (Py.Ok [8; 100; 32; 32]%Z)).1
       = (Paraphraser.forward Layers.shape_layer (Paraphraser.eval p)
            (Py.Ok [8; 100; 32; 32]%Z)).1.
Proof.
  intros translator.
  destruct (translator_shape true 100 28 3 1 true 8 32 32) as [H Hsame]; try lia.
  split; [exact H|].
  eexists. split; [reflexivity|].
  apply (Hsame (Float.ratio 29 100)); reflexivity.
Defined.

(** ** Factor transfer teacher: [post_forward] *)
Section TeacherPostForward.
Import Py Paraphraser FactorTransfer.
Context {Tensor LayerState : Type}.
Context (layer_forward : layer_kind → bool → LayerState → Tensor → Tensor * LayerState).

Abbreviation run := (Sequential_forward layer_forward).

(** X24. [post_forward] of the factor-transfer teacher. With
    [uses_decoder] the paraphraser is put in training mode first, so the
    captured output always goes through encoder and decoder, also after the
    wrapper was switched to evaluation, and the paraphraser is left in
    training mode. Without [uses_decoder] the mode is left alone, and in
    evaluation mode only the encoder runs. A module path missing from the
    IO dictionary raises [KeyError], after the switch of mode. *)
Theorem teacher_post_forward (self : Teacher4FactorTransfer LayerState)
    (io : io_dict Tensor) :
  (uses_decoder self = true →
     training (paraphraser (post_forward layer_forward self io).2) = true ∧
     ∀ entry x, assoc (input_module_path self) io = Ok entry → assoc "output" entry = Ok x →
       let p := if training (paraphraser self) then paraphraser self
                else train true (paraphraser self) in
       (post_forward layer_forward self io).1
       = Ok (run (decoder p) (run (encoder p) x).1).1) ∧
  (uses_decoder self = false →
     training (paraphraser (post_forward layer_forward self io).2)
       = training (paraphraser self) ∧
     ∀ entry x, assoc (input_module_path self) io = Ok entry → assoc "output" entry = Ok x →
       training (paraphraser self) = false →
       (post_forward layer_forward self io).1
       = Ok (run (encoder (paraphraser self)) x).1) ∧
  (∀ e, assoc (input_module_path self) io = Raise e →
     (post_forward layer_forward self io).1 = Raise e ∧
     (uses_decoder self = true →
      training (paraphraser (post_forward layer_forward self io).2) = true)).
Proof.
  assert (Hmode : ∀ p : Paraphraser4FactorTransfer LayerState,
    training (paraphraser (
      match entry ← assoc (input_module_path self) io; assoc "output" entry with
      | Raise e => (Raise e, with_paraphraser self p)
      | Ok x => let '(y, p') := forward layer_forward p x in
                (Ok y, with_paraphraser self p')
      end).2) = training p).
  { intros p. destruct (_ ≫= _) as [x|e]; [|reflexivity].
    pose proof (forward_training layer_forward p x) as Ht.
    by destruct (forward layer_forward p x). }
  split; [|split].
  - intros Hd. unfold post_forward. rewrite Hd. cbn [andb]. split.
    + rewrite Hmode. by destruct (training (paraphraser self)) eqn:E.
    + intros entry x Hentry Hx. cbv zeta. rewrite Hentry. cbn [mbind result_bind].
      rewrite Hx.
      destruct (training (paraphraser self)) eqn:E; cbn [negb].
      * pose proof (forward_fst layer_forward (paraphraser self) x) as Hf.
        rewrite E in Hf. destruct (forward layer_forward (paraphraser self) x).
        cbn [fst] in Hf |- *. by rewrite Hf.
      * pose proof (forward_fst layer_forward (train true (paraphraser self)) x) as Hf.
        cbn [training train] in Hf.
        destruct (forward layer_forward (train true (paraphraser self)) x).
        cbn [fst] in Hf |- *. by rewrite Hf.
  - intros Hd. unfold post_forward. rewrite Hd. cbn [andb]. split.
    + apply Hmode.
    + intros entry x Hentry Hx Heval. rewrite Hentry. cbn [mbind result_bind]. rewrite Hx.
      pose proof (forward_fst layer_forward (paraphraser self) x) as Hf.
      rewrite Heval in Hf. destruct (forward layer_forward (paraphraser self) x).
      cbn [fst] in Hf |- *. by rewrite Hf.
  - intros e He. unfold post_forward. rewrite He. cbn [mbind result_bind fst snd].
    split; [reflexivity|]. intros Hd. rewrite Hd. cbn [andb with_paraphraser paraphraser].
    by destruct (training (paraphraser self)) eqn:E.
Qed.

End TeacherPostForward.

Lemma teacher_post_forward_witness :
  let self := {| FactorTransfer.paraphraser := Paraphraser.eval Examples.p0;
                 FactorTransfer.input_module_path := "layer4";
                 FactorTransfer.uses_decoder := true |} in
  (FactorTransfer.post_forward Examples.trace_layer self
     [("layer4", [("input", []); ("output", [])])]).1
  = Py.Ok [("conv", true); ("lrelu", true); ("conv", true); ("lrelu", true);
           ("conv", true); ("lrelu", true);
           ("deconv", true); ("lrelu", true); ("deconv", true); ("lrelu", true);
           ("deconv", true); ("lrelu", true)].
Proof.
  intros self.
  destruct (teacher_post_forward Examples.trace_layer self
              [("layer4", [("input", []); ("output", [])])]) as [H _].
  destruct (H eq_refl) as [_ Hout].
  rewrite (Hout [("input", []); ("output", [])] []); reflexivity.
Defined.

(** ** The registry after import *)
Section AtImportFacts.
Import Py Registry AtImport.
Context {Instance : Type}.
Context (constructors : string → list pyval → dict → result Instance).

Lemma lookup_register_all (names : list string) (w : world Instance) (name : string) :
  SPECIAL_CLASS_DICT (register_all constructors names w) !! name
  = if bool_decide (name ∈ names) then Some (class_of constructors name)
    else SPECIAL_CLASS_DICT w !! name.
Proof.
  revert w. induction names as [|n names IH]; intros w; [reflexivity|].
  unfold register_all in *. cbn [foldl]. rewrite IH. cbn.
  destruct (bool_decide (name ∈ names)) eqn:E.
  - apply bool_decide_eq_true in E.
    rewrite bool_decide_eq_true_2; [reflexivity | by apply list_elem_of_further].
  - apply bool_decide_eq_false in E.
    destruct (decide (name = n)) as [->|Hne].
    + rewrite lookup_insert_eq.
      rewrite bool_decide_eq_true_2; [reflexivity | apply list_elem_of_here].
    + rewrite lookup_insert_ne by congruence.
      rewrite bool_decide_eq_false_2; [reflexivity|].
      intros Hin. apply elem_of_cons in Hin as [?|?]; done.
Qed.

(** X27. After import exactly the thirteen decorated classes can be
    built by name: a lookup constructs the class whose name is given if it
    is one of them, and returns [None] with a log entry for every other
    name, among them the helper classes of the file that carry no
    decorator. *)
Theorem registry_at_import (name : string) (args : list pyval) (kwargs : dict) :
  let w := world_at_import constructors in
  get_special_module (VStr name) args kwargs w
  = (if bool_decide (name ∈ decorated)
     then (Some <$> constructors name args kwargs,
           with_call (class_of constructors name) args kwargs w)
     else (Ok None, with_log (VStr name) w)) ∧
  (name ∈ undecorated →
   get_special_module (VStr name) args kwargs w = (Ok None, with_log (VStr name) w)).
Proof.
  intros w.
  assert (Hget : get_special_module (VStr name) args kwargs w
    = (if bool_decide (name ∈ decorated)
       then (Some <$> constructors name args kwargs,
             with_call (class_of constructors name) args kwargs w)
       else (Ok None, with_log (VStr name) w))).
  { unfold get_special_module, registry_find. subst w. unfold world_at_import.
    rewrite lookup_register_all.
    destruct (bool_decide (name ∈ decorated)); [reflexivity|].
    unfold initial_world. cbn [SPECIAL_CLASS_DICT]. by rewrite lookup_empty. }
  split; [exact Hget|].
  intros Hun. rewrite Hget.
  rewrite bool_decide_eq_false_2; [reflexivity|].
  intros Hdec. unfold undecorated, decorated in *.
  repeat (apply elem_of_cons in Hun as [->|Hun];
          [repeat (apply elem_of_cons in Hdec as [Hdec|Hdec]; [discriminate|]);
           by apply elem_of_nil in Hdec|]).
  by apply elem_of_nil in Hun.
Qed.

End AtImportFacts.

Lemma registry_at_import_witness :
  (Registry.get_special_module (Py.VStr "Embed") [] []
     (AtImport.world_at_import (λ name _ _, Py.Ok name))).1 = Py.Ok None ∧
  (Registry.get_special_module (Py.VStr "AttnEmbed") [] []
     (AtImport.world_at_import (λ name _ _, Py.Ok name))).1 = Py.Ok (Some "AttnEmbed").
Proof.
  split.
  - destruct (registry_at_import (λ name _ _, Py.Ok name) "Embed" [] []) as [_ H].
    rewrite H; [reflexivity|]. unfold AtImport.undecorated. set_solver.
  - destruct (registry_at_import (λ name _ _, Py.Ok name) "AttnEmbed" [] []) as [H _].
    rewrite H. reflexivity.
Defined.

(** ** [Embed.forward] on shapes *)
Section EmbedShapes.
Import Py Wrappers Layers.
Local Open Scope Z_scope.


End EmbedShapes.

